(** * multiDDS: multilingual and back-translation translation tasks

    A shallow embedding of [fairseq/tasks/multilingual_translation.py] and
    [fairseq/tasks/bt_translation.py].

    Python values are modelled as follows.
    - [str] is [string]: the bytes of the text's UTF-8 encoding.  What
      Python answers on characters beyond ASCII where it consults the
      Unicode database ([str.isdigit], [int], [float], [repr]) is a
      parameter of the model, in the class [Interpreter].
    - [int] is [Z]; [float] is any carrier of the class [PyFloat], with the
      IEEE binary64 instance [binary64] used for concrete runs and the exact
      rational instance [exact] used for statements about exact arithmetic.
    - an exception is a value of [exn]; code that may raise returns a
      [result].
    - a [dict] is an association list in insertion order ([dict]).
    - list objects that the task shares and mutates in place live in a
      [heap]; attributes hold locations. *)

From Stdlib Require Import ZArith List String Ascii Bool Lia.
From Stdlib Require Import QArith Qcanon.
From Stdlib Require Import Floats.
Import ListNotations.

Set Warnings "-register-all".
Close Scope Q_scope.
Local Open Scope string_scope.
Local Open Scope list_scope.
Local Open Scope Z_scope.

(* ===================================================================== *)
(** * Part I: definitions *)
(* ===================================================================== *)

(** ** The Python runtime *)

Module Py.

(** Exceptions raised by the modelled code or by its collaborators.  A
    [ValueError] carries the message the source gives it; the message of
    one raised by a built-in is not modelled.  [KeyError] is the error of
    a lookup at a text, [KeyErrorNone] at [None], [KeyErrorInt] at an
    integer. *)
Inductive exn : Type :=
| AssertionError
| ValueError (msg : option string)
| KeyError (key : string)
| KeyErrorNone
| KeyErrorInt (key : Z)
| IndexError
| TypeError
| ZeroDivisionError
| OverflowError
| UnboundLocalError
| AttributeError (name : string)
| FileNotFoundError (msg : string).

Inductive result (A : Type) : Type :=
| Ok (a : A)
| Raise (e : exn).
Arguments Ok {A} a.
Arguments Raise {A} e.

Definition bind {A B : Type} (c : result A) (k : A -> result B) : result B :=
  match c with
  | Ok a => k a
  | Raise e => Raise e
  end.

Definition raises {A : Type} (c : result A) : Prop := exists e, c = Raise e.

Definition is_ok {A : Type} (c : result A) : bool :=
  match c with Ok _ => true | Raise _ => false end.

(** [assert b] *)
Definition assert_ (b : bool) : result unit :=
  if b then Ok tt else Raise AssertionError.

(** A comprehension whose element expression may raise. *)
Fixpoint mapM {A B : Type} (f : A -> result B) (l : list A) : result (list B) :=
  match l with
  | [] => Ok []
  | a :: l' =>
      bind (f a) (fun b => bind (mapM f l') (fun bs => Ok (b :: bs)))
  end.

(** *** Strings *)

(** [s.split(sep)] for a one-character separator: never empty, and
    adjacent separators delimit empty strings. *)
Fixpoint split (sep : ascii) (s : string) : list string :=
  match s with
  | EmptyString => [EmptyString]
  | String c rest =>
      if Ascii.eqb c sep then EmptyString :: split sep rest
      else match split sep rest with
           | hd :: tl => String c hd :: tl
           | [] => [String c EmptyString]
           end
  end.

(** [sep.join(l)] *)
Definition join (sep : string) (l : list string) : string := String.concat sep l.

Definition is_digit (c : ascii) : bool :=
  let n := nat_of_ascii c in (Nat.leb 48 n && Nat.leb n 57)%bool.

Definition digit_val (c : ascii) : Z := Z.of_nat (nat_of_ascii c) - 48.

Fixpoint all_digits (s : string) : bool :=
  match s with
  | EmptyString => true
  | String c rest => is_digit c && all_digits rest
  end.

(** What the built-ins need of the interpreter: its Unicode database,
    for a text that has a character beyond ASCII, and its limit on the
    digits of a number read from text. *)
Class Interpreter : Type := {
  (** [s.isdigit()] for a text beyond ASCII *)
  isdigit_wide : string -> bool;
  (** a text beyond ASCII as [int] and [float] read it: each decimal
      digit is replaced by its ASCII digit, each blank by a space, and
      any other character beyond ASCII by a question mark *)
  to_ascii_decimal : string -> string;
  (** [repr(s)] for a text beyond ASCII *)
  repr_wide : string -> string;
  (** [sys.get_int_max_str_digits()], where the interpreter has such a
      limit and it is set; it is applied to the numbers of more than 640
      digits *)
  int_max_str_digits : option nat
}.

(** Every character of the text is an ASCII character. *)
Fixpoint is_ascii (s : string) : bool :=
  match s with
  | EmptyString => true
  | String c rest => Nat.ltb (nat_of_ascii c) 128 && is_ascii rest
  end.

(** The text that [int] and [float] parse. *)
Definition ascii_form {U : Interpreter} (s : string) : string :=
  if is_ascii s then s else to_ascii_decimal s.

(** [s.isdigit()]: at least one character, all of them digits. *)
Definition isdigit {U : Interpreter} (s : string) : bool :=
  if is_ascii s then
    match s with
    | EmptyString => false
    | _ => all_digits s
    end
  else isdigit_wide s.

Fixpoint digits_value (acc : Z) (s : string) : Z :=
  match s with
  | EmptyString => acc
  | String c rest => digits_value (10 * acc + digit_val c) rest
  end.

(** [s.startswith(p)] *)
Definition startswith (s p : string) : bool := String.prefix p s.

Fixpoint last_char (s : string) : option ascii :=
  match s with
  | EmptyString => None
  | String c EmptyString => Some c
  | String _ rest => last_char rest
  end.

(** [os.path.join(a, b)] on a POSIX system. *)
Definition os_path_join (a b : string) : string :=
  if startswith b "/" then b
  else match last_char a with
       | None => b
       | Some c => if Ascii.eqb c "/" then a ++ b else a ++ "/" ++ b
       end.

(** [str(x)] of an optional string inside [format]: [None] prints as
    the word None. *)
Definition fmt_opt (x : option string) : string :=
  match x with Some s => s | None => "None" end.

(** *** repr of strings and of lists of strings *)

Definition hex_digit (n : nat) : ascii :=
  if Nat.ltb n 10 then ascii_of_nat (48 + n) else ascii_of_nat (87 + n).

Definition dquote : ascii := ascii_of_nat 34.
Definition squote : ascii := ascii_of_nat 39.
Definition backslash : ascii := ascii_of_nat 92.

Fixpoint contains_char (c : ascii) (s : string) : bool :=
  match s with
  | EmptyString => false
  | String d rest => Ascii.eqb c d || contains_char c rest
  end.

Fixpoint repr_body (quote : ascii) (s : string) : string :=
  match s with
  | EmptyString => EmptyString
  | String c rest =>
      let n := nat_of_ascii c in
      let tail := repr_body quote rest in
      if Ascii.eqb c backslash then String backslash (String backslash tail)
      else if Ascii.eqb c quote then String backslash (String c tail)
      else if Nat.eqb n 9 then String backslash (String "t" tail)
      else if Nat.eqb n 10 then String backslash (String "n" tail)
      else if Nat.eqb n 13 then String backslash (String "r" tail)
      else if (Nat.ltb n 32 || Nat.eqb n 127)%bool then
        String backslash (String "x"
          (String (hex_digit (Nat.div n 16)) (String (hex_digit (Nat.modulo n 16)) tail)))
      else String c tail
  end.

(** [repr(s)]: single quotes unless the text has a single quote and no
    double quote. *)
Definition repr_str {U : Interpreter} (s : string) : string :=
  if is_ascii s then
    let quote :=
      if (contains_char squote s && negb (contains_char dquote s))%bool
      then dquote else squote in
    String quote (repr_body quote s ++ String quote EmptyString)
  else repr_wide s.

(** [str(l)] of a list of strings. *)
Definition repr_list {U : Interpreter} (l : list string) : string :=
  "[" ++ join ", " (map repr_str l) ++ "]".

(** *** Dictionaries (insertion ordered) *)

Definition dict (V : Type) : Type := list (string * V).

Fixpoint dict_find {V : Type} (d : dict V) (k : string) : option V :=
  match d with
  | [] => None
  | (k', v) :: d' => if String.eqb k k' then Some v else dict_find d' k
  end.

(** [k in d] *)
Definition dict_mem {V : Type} (d : dict V) (k : string) : bool :=
  match dict_find d k with Some _ => true | None => false end.

(** [d[k]] *)
Definition dict_get {V : Type} (d : dict V) (k : string) : result V :=
  match dict_find d k with
  | Some v => Ok v
  | None => Raise (KeyError k)
  end.

(** [d[k] = v]: an existing key keeps its place, a new one goes last. *)
Fixpoint dict_set {V : Type} (d : dict V) (k : string) (v : V) : dict V :=
  match d with
  | [] => [(k, v)]
  | (k', v') :: d' =>
      if String.eqb k k' then (k, v) :: d' else (k', v') :: dict_set d' k v
  end.

Definition dict_keys {V : Type} (d : dict V) : list string := map fst d.

(** [OrderedDict(entries)] *)
Definition dict_of_list {V : Type} (entries : list (string * V)) : dict V :=
  fold_left (fun d kv => dict_set d (fst kv) (snd kv)) entries [].

(** *** Lists *)

(** [x in l] for strings *)
Definition list_mem (x : string) (l : list string) : bool :=
  existsb (String.eqb x) l.

(** [l.index(x)], defined when [x in l]. *)
Fixpoint list_index (x : string) (l : list string) : result nat :=
  match l with
  | [] => Raise (ValueError None)
  | y :: l' =>
      if String.eqb x y then Ok 0%nat
      else bind (list_index x l') (fun i => Ok (S i))
  end.

(** [l[i]] for a non-negative index *)
Definition list_get {A : Type} (l : list A) (i : nat) : result A :=
  match nth_error l i with
  | Some a => Ok a
  | None => Raise IndexError
  end.

(** [l[-1]] *)
Fixpoint list_last {A : Type} (l : list A) : result A :=
  match l with
  | [] => Raise IndexError
  | [a] => Ok a
  | _ :: l' => list_last l'
  end.

(** [l[i] = v] for an index in range *)
Fixpoint list_set {A : Type} (l : list A) (i : nat) (v : A) : list A :=
  match l, i with
  | [], _ => []
  | _ :: l', O => v :: l'
  | a :: l', S i' => a :: list_set l' i' v
  end.

(** [sorted(list(set(l)))] for strings *)
Fixpoint insert_sorted (x : string) (l : list string) : list string :=
  match l with
  | [] => [x]
  | y :: l' =>
      if String.eqb x y then l
      else if String.ltb x y then x :: l
      else y :: insert_sorted x l'
  end.

Definition sorted_set (l : list string) : list string :=
  fold_right insert_sorted [] l.

(** *** Shared list objects *)

Definition loc : Type := nat.
Definition heap : Type := list (list string).

Definition deref (h : heap) (l : loc) : list string := nth l h [].

Definition alloc (h : heap) (v : list string) : loc * heap :=
  (List.length h, h ++ [v]).

Fixpoint store (h : heap) (l : loc) (v : list string) : heap :=
  match h, l with
  | [], _ => []
  | _ :: h', O => v :: h'
  | x :: h', S l' => x :: store h' l' v
  end.

(** [obj.append(x)] on the list object at [l] *)
Definition heap_append (h : heap) (l : loc) (x : string) : heap :=
  store h l (deref h l ++ [x]).

End Py.

Export Py.

Declare Scope py_scope.
Delimit Scope py_scope with py.
Notation "x <- c ;; k" := (bind c (fun x => k))
  (at level 61, c at next level, right associativity) : py_scope.
Notation "' p <- c ;; k" := (bind c (fun x => match x with p => k end))
  (at level 61, p pattern, c at next level, right associativity) : py_scope.
Notation "c ;;; k" := (bind c (fun _ => k))
  (at level 61, right associativity) : py_scope.
Local Open Scope py_scope.

(** ** Python floats *)

(** The operations the tasks use on [float] values.  [float_of_str] is
    [float(s)], [float_of_int] is the conversion Python applies to an
    [int] operand of a mixed operation, [truediv] is [/]. *)
Class PyFloat (F : Type) : Type := {
  float_of_str : string -> result F;
  float_of_int : Z -> result F;
  f0 : F;
  f1 : F;
  fadd : F -> F -> F;
  fsub : F -> F -> F;
  fmul : F -> F -> F;
  truediv : F -> F -> result F;
  flt : F -> F -> bool
}.

Module FloatLiteral.

(** What [float(s)] reads: an optional sign, then [inf], [infinity],
    [nan], or a decimal number with optional fraction and exponent;
    digits may be grouped with single underscores; blanks around the text
    are dropped. *)
Inductive literal : Type :=
| Finite (neg : bool) (mantissa : Z) (exp10 : Z)
| Inf (neg : bool)
| Nan.

Definition is_space (c : ascii) : bool :=
  let n := nat_of_ascii c in
  ((Nat.leb 9 n && Nat.leb n 13) || Nat.eqb n 32)%bool.

Fixpoint lstrip (l : list ascii) : list ascii :=
  match l with
  | c :: l' => if is_space c then lstrip l' else l
  | [] => []
  end.

Definition strip (l : list ascii) : list ascii :=
  rev (lstrip (rev (lstrip l))).

Definition lower (c : ascii) : ascii :=
  let n := nat_of_ascii c in
  if (Nat.leb 65 n && Nat.leb n 90)%bool then ascii_of_nat (n + 32) else c.

(** The digits that follow a first digit: [(["_"] digit)*]. Returns the
    value so far, the number of digits read and the rest. *)
Fixpoint more_digits (acc : Z) (n : nat) (l : list ascii) : Z * nat * list ascii :=
  match l with
  | c :: l' =>
      if is_digit c then more_digits (10 * acc + digit_val c) (S n) l'
      else if Ascii.eqb c "_" then
        match l' with
        | d :: l'' =>
            if is_digit d then more_digits (10 * acc + digit_val d) (S n) l''
            else (acc, n, l)
        | [] => (acc, n, l)
        end
      else (acc, n, l)
  | [] => (acc, n, l)
  end.

Definition digitpart (l : list ascii) : option (Z * nat * list ascii) :=
  match l with
  | c :: l' => if is_digit c then Some (more_digits (digit_val c) 1 l') else None
  | [] => None
  end.

Definition sign (l : list ascii) : bool * list ascii :=
  match l with
  | c :: l' =>
      if Ascii.eqb c "-" then (true, l')
      else if Ascii.eqb c "+" then (false, l')
      else (false, l)
  | [] => (false, l)
  end.

(** [number ::= [digitpart] "." digitpart | digitpart ["."]], as a
    mantissa and a power of ten. *)
Definition number (l : list ascii) : option (Z * Z * list ascii) :=
  match digitpart l with
  | Some (ip, _, rest) =>
      match rest with
      | c :: rest' =>
          if Ascii.eqb c "." then
            match digitpart rest' with
            | Some (fp, n, rest'') =>
                Some (ip * 10 ^ Z.of_nat n + fp, - Z.of_nat n, rest'')
            | None => Some (ip, 0, rest')
            end
          else Some (ip, 0, rest)
      | [] => Some (ip, 0, rest)
      end
  | None =>
      match l with
      | c :: l' =>
          if Ascii.eqb c "." then
            match digitpart l' with
            | Some (fp, n, rest) => Some (fp, - Z.of_nat n, rest)
            | None => None
            end
          else None
      | [] => None
      end
  end.

(** [exponent ::= ("e" | "E") [sign] digitpart]; absent is 0. *)
Definition exponent (l : list ascii) : option (Z * list ascii) :=
  match l with
  | c :: l' =>
      if Ascii.eqb (lower c) "e" then
        let '(neg, l'') := sign l' in
        match digitpart l'' with
        | Some (e, _, rest) => Some (if neg then - e else e, rest)
        | None => None
        end
      else Some (0, l)
  | [] => Some (0, l)
  end.

Definition parse (s : string) : option literal :=
  let '(neg, body) := sign (strip (list_ascii_of_string s)) in
  let word := string_of_list_ascii (map lower body) in
  if (String.eqb word "inf" || String.eqb word "infinity")%bool then Some (Inf neg)
  else if String.eqb word "nan" then Some Nan
  else
    match number body with
    | Some (m, e1, rest) =>
        match exponent rest with
        | Some (e2, []) => Some (Finite neg m (e1 + e2))
        | _ => None
        end
    | None => None
    end.

End FloatLiteral.

(** [int(s)]: blanks around the text are dropped; an optional sign, then
    decimal digits, which may be grouped with single underscores.  A
    number of more than 640 digits is refused when it has more digits
    than the interpreter's limit. *)
Definition int_of_str {U : Interpreter} (s : string) : result Z :=
  let '(neg, body) :=
    FloatLiteral.sign (FloatLiteral.strip (list_ascii_of_string (ascii_form s))) in
  match FloatLiteral.digitpart body with
  | Some (v, n, []) =>
      let refused :=
        (Nat.ltb 640 n
         && match int_max_str_digits with
            | Some limit => Nat.ltb limit n
            | None => false
            end)%bool in
      if refused then Raise (ValueError None) else Ok (if neg then - v else v)
  | _ => Raise (ValueError None)
  end.

(** *** IEEE binary64 *)

Module Binary64.

Definition prec : Z := 53.
Definition emax : Z := 1024.

(** The double nearest to [m * 2^e] (ties to even). *)
Definition round (m e : Z) : float := SF2Prim (binary_normalize prec emax m e false).

(** The double nearest to [m * 10^e], for [m > 0].  For a negative power
    the quotient is taken to more than 64 bits and the remainder is kept
    as a sticky bit, so the single rounding is the correct one. *)
Definition of_decimal (m e : Z) : float :=
  if 0 <=? e then round (m * 10 ^ e) 0
  else
    let d := 10 ^ (- e) in
    let s := Z.max 0 (Z.log2 d - Z.log2 m + 66) in
    let n := m * 2 ^ s in
    let sticky := if n mod d =? 0 then 0 else 1 in
    round (2 * (n / d) + sticky) (- (s + 1)).

Definition of_literal (l : FloatLiteral.literal) : float :=
  match l with
  | FloatLiteral.Finite neg m e =>
      let x := if m =? 0 then PrimFloat.zero else of_decimal m e in
      if neg then PrimFloat.opp x else x
  | FloatLiteral.Inf neg => if neg then PrimFloat.neg_infinity else PrimFloat.infinity
  | FloatLiteral.Nan => PrimFloat.nan
  end.

Definition of_str {U : Interpreter} (s : string) : result float :=
  match FloatLiteral.parse (ascii_form s) with
  | Some l => Ok (of_literal l)
  | None => Raise (ValueError None)
  end.

(** [float(n)]: the nearest double, or OverflowError beyond the range. *)
Definition of_int (n : Z) : result float :=
  let x := round n 0 in
  if PrimFloat.is_infinity x then Raise OverflowError else Ok x.

Definition div (x y : float) : result float :=
  if PrimFloat.is_zero y then Raise ZeroDivisionError else Ok (PrimFloat.div x y).

End Binary64.

#[export] Instance binary64 {U : Interpreter} : PyFloat float := {
  float_of_str := Binary64.of_str;
  float_of_int := Binary64.of_int;
  f0 := PrimFloat.zero;
  f1 := PrimFloat.one;
  fadd := PrimFloat.add;
  fsub := PrimFloat.sub;
  fmul := PrimFloat.mul;
  truediv := Binary64.div;
  flt := PrimFloat.ltb
}.

(** *** Exact arithmetic

    The same operations over the rationals: what the float computations
    approximate.  It has no infinities and no NaN, so those literals are
    not values of this instance. *)

Module Exact.

Definition of_literal (l : FloatLiteral.literal) : result Qc :=
  match l with
  | FloatLiteral.Finite neg m e =>
      let q := if 0 <=? e then inject_Z (m * 10 ^ e)
               else Qmake m (Z.to_pos (10 ^ (- e))) in
      Ok (Q2Qc (if neg then Qopp q else q))
  | _ => Raise (ValueError None)
  end.

Definition of_str {U : Interpreter} (s : string) : result Qc :=
  match FloatLiteral.parse (ascii_form s) with
  | Some l => of_literal l
  | None => Raise (ValueError None)
  end.

Definition div (x y : Qc) : result Qc :=
  if Qc_eq_dec y (Q2Qc 0) then Raise ZeroDivisionError else Ok (Qcdiv x y).

Definition ltb (x y : Qc) : bool :=
  match Qccompare x y with Lt => true | _ => false end.

End Exact.

#[export] Instance exact {U : Interpreter} : PyFloat Qc := {
  float_of_str := Exact.of_str;
  float_of_int := fun n => Ok (Q2Qc (inject_Z n));
  f0 := Q2Qc 0;
  f1 := Q2Qc 1;
  fadd := Qcplus;
  fsub := Qcminus;
  fmul := Qcmult;
  truediv := Exact.div;
  flt := Exact.ltb
}.

(** ** Lambda schedules ([bt_translation.py]) *)

Section LambdaSchedule.
Context {U : Interpreter} {F : Type} {PF : PyFloat F}.

(** A schedule: the [(step, value)] checkpoints of a configuration. *)
Definition schedule : Type := list (Z * F).

(** [k, v = s] for a list [s] *)
Definition unpack2 {A : Type} (s : list A) : result (A * A) :=
  match s with
  | [k; v] => Ok (k, v)
  | _ => Raise (ValueError None)
  end.

(** [all(int(split[i][0]) < int(split[i + 1][0]) for i in range(len(split) - 1))] *)
Fixpoint steps_increasing (l : list (string * string)) : result bool :=
  match l with
  | (k1, _) :: (((k2, _) :: _) as l') =>
      a <- int_of_str k1 ;;
      b <- int_of_str k2 ;;
      if a <? b then steps_increasing l' else Ok false
  | _ => Ok true
  end.

(** [parse_lambda_config(x)] *)
Definition parse_lambda_config (x : string) : result (F * option schedule) :=
  let split := Py.split "," x in
  if Nat.eqb (List.length split) 1 then
    v <- float_of_str x ;;
    Ok (v, None)
  else
    let split := map (Py.split ":") split in
    assert_ (forallb (fun s => Nat.eqb (List.length s) 2) split) ;;;
    pairs <- mapM unpack2 split ;;
    assert_ (forallb (fun kv => isdigit (fst kv)) pairs) ;;;
    inc <- steps_increasing pairs ;;
    assert_ inc ;;;
    first <- list_get pairs 0 ;;
    init <- float_of_str (snd first) ;;
    config <- mapM (fun kv =>
                      k <- int_of_str (fst kv) ;;
                      v <- float_of_str (snd kv) ;;
                      Ok (k, v)) pairs ;;
    Ok (init, Some config).

(** [config[i][0] <= n_iter < config[i + 1][0]] *)
Definition in_range (config : schedule) (n_iter : Z) (i : nat) : bool :=
  match nth_error config i, nth_error config (S i) with
  | Some (x_a, _), Some (x_b, _) => (x_a <=? n_iter) && (n_iter <? x_b)
  | _, _ => false
  end.

(** [lambda_step_func(config, n_iter)], the local function of
    [update_step]. *)
Definition lambda_step_func (config : schedule) (n_iter : Z) : result F :=
  let ranges := filter (in_range config n_iter) (seq 0 (List.length config - 1)) in
  match ranges with
  | [] =>
      last <- list_last config ;;
      assert_ (n_iter >=? fst last) ;;;
      Ok (snd last)
  | [i] =>
      '(x_a, y_a) <- list_get config i ;;
      '(x_b, y_b) <- list_get config (S i) ;;
      dx <- float_of_int (n_iter - x_a) ;;
      let num := fmul dx (fsub y_b y_a) in
      den <- float_of_int (x_b - x_a) ;;
      q <- truediv num den ;;
      Ok (fadd y_a q)
  | _ => Raise AssertionError
  end.

(** The scheduling attributes of a [BtTranslationTask]. *)
Record Lambdas : Type := {
  lambda_parallel : F;
  lambda_parallel_steps : option schedule;
  lambda_otf_bt : F;
  lambda_otf_bt_steps : option schedule;
  lambda_denoising : F;
  lambda_denoising_steps : option schedule
}.

Definition set_lambda_parallel (v : F) (s : Lambdas) : Lambdas :=
  {| lambda_parallel := v;
     lambda_parallel_steps := lambda_parallel_steps s;
     lambda_otf_bt := lambda_otf_bt s;
     lambda_otf_bt_steps := lambda_otf_bt_steps s;
     lambda_denoising := lambda_denoising s;
     lambda_denoising_steps := lambda_denoising_steps s |}.

Definition set_lambda_otf_bt (v : F) (s : Lambdas) : Lambdas :=
  {| lambda_parallel := lambda_parallel s;
     lambda_parallel_steps := lambda_parallel_steps s;
     lambda_otf_bt := v;
     lambda_otf_bt_steps := lambda_otf_bt_steps s;
     lambda_denoising := lambda_denoising s;
     lambda_denoising_steps := lambda_denoising_steps s |}.

Definition set_lambda_denoising (v : F) (s : Lambdas) : Lambdas :=
  {| lambda_parallel := lambda_parallel s;
     lambda_parallel_steps := lambda_parallel_steps s;
     lambda_otf_bt := lambda_otf_bt s;
     lambda_otf_bt_steps := lambda_otf_bt_steps s;
     lambda_denoising := v;
     lambda_denoising_steps := lambda_denoising_steps s |}.

(** The three [parse_lambda_config] calls of [BtTranslationTask.__init__]. *)
Definition init_lambdas (parallel_config otf_bt_config denoising_config : string)
  : result Lambdas :=
  '(lp, lps) <- parse_lambda_config parallel_config ;;
  '(lb, lbs) <- parse_lambda_config otf_bt_config ;;
  '(ld, lds) <- parse_lambda_config denoising_config ;;
  Ok {| lambda_parallel := lp; lambda_parallel_steps := lps;
        lambda_otf_bt := lb; lambda_otf_bt_steps := lbs;
        lambda_denoising := ld; lambda_denoising_steps := lds |}.

(** One guarded assignment of [update_step]:
    [if steps is not None: self.x = lambda_step_func(steps, num_updates)]. *)
Definition reschedule (steps : option schedule) (num_updates : Z)
    (set : F -> Lambdas -> Lambdas) (self : Lambdas) : result Lambdas :=
  match steps with
  | Some config => v <- lambda_step_func config num_updates ;; Ok (set v self)
  | None => Ok self
  end.

(** [update_step(self, num_updates)].  An exception leaves the task as
    the assignments before it made it; the result here is the state after
    a call that returns. *)
Definition update_step (self : Lambdas) (num_updates : Z) : result Lambdas :=
  self <- reschedule (lambda_parallel_steps self) num_updates set_lambda_parallel self ;;
  self <- reschedule (lambda_otf_bt_steps self) num_updates set_lambda_otf_bt self ;;
  reschedule (lambda_denoising_steps self) num_updates set_lambda_denoising self.

End LambdaSchedule.

(** ** Dictionaries *)

(** Modelled from the spec: [Dictionary] ([fairseq.data.Dictionary] is not
    among the source files).  The spec describes it as a per-language
    vocabulary that exposes index lookup, the padding, end-of-sequence and
    unknown-token indices, and special-symbol registration.  A symbol's
    index is its position in [symbols]; an unknown symbol has the index of
    the unknown token. *)
Record Dictionary : Type := {
  pad_index : Z;
  eos_index : Z;
  unk_index : Z;
  symbols : list string
}.

Definition pad (d : Dictionary) : Z := pad_index d.
Definition eos (d : Dictionary) : Z := eos_index d.
Definition unk (d : Dictionary) : Z := unk_index d.

Fixpoint position (sym : string) (l : list string) (i : Z) : option Z :=
  match l with
  | [] => None
  | s :: l' => if String.eqb sym s then Some i else position sym l' (i + 1)
  end.

(** [dic.index(sym)] *)
Definition index (d : Dictionary) (sym : string) : Z :=
  match position sym (symbols d) 0 with
  | Some i => i
  | None => unk_index d
  end.

(** [dic.add_symbol(sym)] *)
Definition add_symbol (d : Dictionary) (sym : string) : Dictionary :=
  if list_mem sym (symbols d) then d
  else {| pad_index := pad_index d; eos_index := eos_index d;
          unk_index := unk_index d; symbols := symbols d ++ [sym] |}.

(** [_lang_token(lang)] *)
Definition _lang_token (lang : string) : string := "__" ++ lang ++ "__".

(** [_lang_token_index(dic, lang)] *)
Definition _lang_token_index (dic : Dictionary) (lang : string) : result Z :=
  let idx := index dic (_lang_token lang) in
  assert_ (negb (idx =? unk_index dic)) ;;;
  Ok idx.

(** [dicts[lang]] where [lang] may be [None] *)
Definition dicts_get (dicts : dict Dictionary) (lang : option string) : result Dictionary :=
  match lang with
  | Some l => dict_get dicts l
  | None => Raise KeyErrorNone
  end.

(** ** Arguments, datasets, models and tasks *)

Section DataModel.
Context {F : Type}.
Context {SubModel : Type}.

(** [args.lan_dists]: unset, the option's text, or the normalised array
    that [__init__] stores back. *)
Inductive LanDists : Type :=
| LanDistsNone
| LanDistsStr (s : string)
| LanDistsArray (a : list F).

(** The options that are read and never reassigned. *)
Record Options : Type := {
  data : string;
  lazy_load : bool;
  raw_text : bool;
  max_source_positions : Z;
  max_target_positions : Z;
  upsample_primary : Z;
  encoder_langtok : option string;
  decoder_langtok : bool;
  dataset_type : string;
  data_condition : string;
  sample_instance : bool;
  sample_tag_prob : F;
  datasize_t : option Z;
  alpha_p : F;
  data_actor : option string;
  extra_data_actor : option string;
  lambda_parallel_config : string;
  lambda_otf_bt_config : string;
  lambda_denoising_config : string;
  bt_max_len_a : F;
  bt_max_len_b : F;
  bt_beam_size : Z;
  bt_dds : bool;
  data_actor_lr : list F
}.

(** The argument namespace.  [LP] is the type of the language-pair
    attributes and [PB] that of the padding flags: text as parsed from the
    command line, a list object and a boolean after [prepare]. *)
Record Args_ (LP PB : Type) : Type := {
  opts : Options;
  lang_pairs : LP;
  eval_lang_pairs : LP;
  source_lang : option string;
  target_lang : option string;
  dataset_impl : option string;
  left_pad_source : PB;
  left_pad_target : PB;
  lan_dists : LanDists
}.
Arguments Build_Args_ {LP PB}.
Arguments opts {LP PB} _.
Arguments lang_pairs {LP PB} _.
Arguments eval_lang_pairs {LP PB} _.
Arguments source_lang {LP PB} _.
Arguments target_lang {LP PB} _.
Arguments dataset_impl {LP PB} _.
Arguments left_pad_source {LP PB} _.
Arguments left_pad_target {LP PB} _.
Arguments lan_dists {LP PB} _.

Definition RawArgs : Type := Args_ (option string) string.
Definition Args : Type := Args_ loc bool.

(** Modelled from the spec: a sequence generator ([SequenceGenerator] is
    not among the source files), described there as made from a target
    dictionary, a beam size and two length coefficients.  It is the call
    [SequenceGenerator(tgt_dict=..., beam_size=..., max_len_a=..., max_len_b=...)],
    which is taken to return. *)
Record SequenceGenerator : Type := {
  sg_tgt_dict : Dictionary;
  sg_beam_size : Z;
  sg_max_len_a : F;
  sg_max_len_b : F
}.

(** The closure [backtranslate_fn]: the values its default arguments
    were bound to when it was defined. *)
Record Backtranslator : Type := {
  bt_model : SubModel;
  bt_bos_token : Z;
  bt_sequence_generator : SequenceGenerator
}.

(** Modelled from the spec: the datasets (the classes of [fairseq.data]
    and [data_utils.load_indexed_dataset] are not among the source files).
    The spec describes them as wrappers built from files and from other
    datasets; a dataset is here the constructor or loader call that builds
    it, with its arguments, and such a call is taken to return a
    dataset. *)
Inductive dataset : Type :=
| IndexedData (path : string) (dictionary : Dictionary)
| LangpairData (data_path split src : string) (src_dict : Dictionary)
    (tgt : string) (tgt_dict : Dictionary) (dataset_impl : option string)
    (upsample_primary : Z) (left_pad_source left_pad_target : bool)
    (max_source_positions max_target_positions : Z)
| LanguagePairDataset (src : dataset) (src_dict : Dictionary)
    (tgt : option dataset) (tgt_dict : option Dictionary)
    (left_pad_source left_pad_target : bool)
    (max_positions : option (Z * Z))
| TransformEosLangPairDataset (d : dataset)
    (src_eos new_src_eos tgt_bos new_tgt_bos : option Z)
    (new_src_eos_list : option (list Z))
    (new_src_eos_list_probs : option (list F))
    (split : string)
| BacktranslationDataset (tgt_dataset : dataset)
    (backtranslation_fn : Backtranslator)
    (src_dict tgt_dict : Dictionary) (output_collater : dataset)
| RoundRobinZipDatasets (datasets : list (string * dataset)) (eval_key : option string)
| MultiCorpusSampledDataset (datasets : list (string * dataset))
    (sample_instance : bool) (split : string) (datasize_t : option Z) (alpha_p : F)
| TCSSampledDataset (datasets : list (string * dataset))
    (lan_dists : LanDists) (data_condition : string)
    (sample_instance : bool) (split : string).

(** A built model: a [FairseqMultiModel] with its sub-models by
    language-pair key, or a model of another class. *)
Inductive Model : Type :=
| FairseqMultiModel (models : dict SubModel)
| OtherModel.

(** A [MultilingualTranslationTask]. *)
Record Task : Type := {
  args : Args;
  task_dataset_type : string;
  dicts : dict Dictionary;
  training : bool;
  task_lang_pairs : loc;
  task_eval_lang_pairs : loc;
  model_lang_pairs : loc;
  langs : list string;
  task_datasets : dict dataset
}.

Definition set_task_lang_pairs (l : loc) (t : Task) : Task :=
  {| args := args t; task_dataset_type := task_dataset_type t; dicts := dicts t;
     training := training t; task_lang_pairs := l;
     task_eval_lang_pairs := task_eval_lang_pairs t;
     model_lang_pairs := model_lang_pairs t; langs := langs t;
     task_datasets := task_datasets t |}.

Definition set_task_datasets (d : dict dataset) (t : Task) : Task :=
  {| args := args t; task_dataset_type := task_dataset_type t; dicts := dicts t;
     training := training t; task_lang_pairs := task_lang_pairs t;
     task_eval_lang_pairs := task_eval_lang_pairs t;
     model_lang_pairs := model_lang_pairs t; langs := langs t;
     task_datasets := d |}.

End DataModel.

Arguments Build_Args_ {F LP PB}.
Arguments opts {F LP PB} _.
Arguments lang_pairs {F LP PB} _.
Arguments eval_lang_pairs {F LP PB} _.
Arguments source_lang {F LP PB} _.
Arguments target_lang {F LP PB} _.
Arguments dataset_impl {F LP PB} _.
Arguments left_pad_source {F LP PB} _.
Arguments left_pad_target {F LP PB} _.
Arguments lan_dists {F LP PB} _.
Arguments LanDists : clear implicits.
Arguments Options : clear implicits.
Arguments Args_ : clear implicits.
Arguments RawArgs : clear implicits.
Arguments Args : clear implicits.
Arguments SequenceGenerator : clear implicits.
Arguments Backtranslator : clear implicits.
Arguments dataset : clear implicits.
Arguments Model : clear implicits.
Arguments Task : clear implicits.

(** ** The collaborators *)

(** The values found in a batch dictionary: [None], one collated batch,
    or a tuple of such values. *)
Inductive pyval (Batch : Type) : Type :=
| PNone
| PBatch (b : Batch)
| PTuple (items : list (pyval Batch)).
Arguments PNone {Batch}.
Arguments PBatch {Batch} b.
Arguments PTuple {Batch} items.

(** Everything the two tasks call but do not define: the abstract values
    they pass around (sub-models, batches, logging records, tensors, the
    validation iterator) and the external functions they invoke. *)
Class Env (F : Type) : Type := {
  SubModel : Type;
  Batch : Type;
  Log : Type;
  Tensor : Type;
  DevItr : Type;
  (** [len(batch)] *)
  batch_len : Batch -> nat;
  (** [options.eval_bool] *)
  eval_bool : string -> result bool;
  (** [Dictionary.load(path)] *)
  Dictionary_load : string -> result Dictionary;
  (** [IndexedRawTextDataset.exists], [IndexedDataset.exists] *)
  IndexedRawTextDataset_exists : string -> bool;
  IndexedDataset_exists : string -> bool;
  (** whether [load_langpair_dataset(data_path, split, src, ..., tgt, ...)] finds its files *)
  load_langpair_dataset : string -> string -> string -> string -> result unit;
  (** [np.array([np.exp(float(t)/1000) for t in s.split(',')])], normalised *)
  lan_dists_array : string -> result (list F);
  (** [models.build_model(args, task)]; it reads the task and the lists it refers to *)
  models_build_model : heap -> Args F -> Task F SubModel -> result (Model SubModel);
  (** tensor arithmetic *)
  tensor_sum : Tensor -> F;
  tensor_mean : Tensor -> F;
  tensor_mul_int : Tensor -> Z -> Tensor;
  tensor_mul : Tensor -> F -> Tensor;
  tensor_div : Tensor -> F -> Tensor;
  tensor_sub : Tensor -> F -> Tensor;
  (** [batch['nsentences']] *)
  batch_nsentences : Batch -> result Z;
  (** the validation iterator of the data-actor variant: its creation,
      [end_of_epoch()], [next_epoch_itr(shuffle=True)], and taking the next
      batch of the current epoch *)
  get_batch_iterator : dataset F SubModel -> result DevItr;
  end_of_epoch : DevItr -> bool;
  next_epoch_itr : DevItr -> DevItr;
  cur_epoch_next : DevItr -> option (dict (pyval Batch)) * DevItr
}.

Section Steps.
Context {U : Interpreter} {F : Type} {PF : PyFloat F} {E : Env F}.

(** A value of a batch dictionary. *)
Definition value : Type := pyval Batch.

(** [len(v)] *)
Definition py_len (v : value) : result nat :=
  match v with
  | PNone => Raise TypeError
  | PBatch b => Ok (batch_len b)
  | PTuple items => Ok (List.length items)
  end.

(** [v[i]] for an integer [i]: a batch is a dictionary with string keys. *)
Definition py_item (v : value) (i : nat) : result value :=
  match v with
  | PNone => Raise TypeError
  | PBatch _ => Raise (KeyErrorInt (Z.of_nat i))
  | PTuple items => list_get items i
  end.

(** [model.models] *)
Definition get_models (model : Model SubModel) : result (dict SubModel) :=
  match model with
  | FairseqMultiModel models => Ok models
  | OtherModel => Raise (AttributeError "models")
  end.

(** The calls made on the model, the optimizers and the loss tensors, in
    order; each of them is taken to return. *)
Inductive event : Type :=
| ModelTrain
| ModelEval
| Backward (loss : F)
| CloneParam
| SaveCurTrainGrad
| SaveNewGrad (v_sample_size : F)
| AddNewGrad (eta : F)
| SwitchParam
| ResetCurTrainGrad
| LossBackward (loss : F)
| DataOptimizerStep
| DataOptimizerZeroGrad.

(** The running totals of a step. *)
Record Totals : Type := {
  agg_loss : F;
  agg_sample_size : F;
  agg_logging_output : dict Log;
  trace : list event
}.

Definition totals0 (first : event) : Totals :=
  {| agg_loss := f0; agg_sample_size := f0; agg_logging_output := []; trace := [first] |}.

(** [lang_pair not in sample or sample[lang_pair] is None or len(sample[lang_pair]) == 0] *)
Definition skipped (sample : dict value) (lang_pair : string) : result bool :=
  match dict_find sample lang_pair with
  | None => Ok true
  | Some PNone => Ok true
  | Some v => n <- py_len v ;; Ok (Nat.eqb n 0)
  end.

End Steps.

(** ** [MultilingualTranslationTask] *)

Module Multilingual.
Section Multilingual.
Context {U : Interpreter} {F : Type} {PF : PyFloat F} {E : Env F}.

Definition is_some {A : Type} (o : option A) : bool :=
  match o with Some _ => true | None => false end.

(** The dictionary loop of [prepare]. *)
Fixpoint load_dicts (raw : RawArgs F) (sorted_langs : list string)
    (todo : list string) (dicts : dict Dictionary) : result (dict Dictionary) :=
  match todo with
  | [] => Ok dicts
  | lang :: todo' =>
      let paths := Py.split ":" (data (opts raw)) in
      assert_ (Nat.ltb 0 (List.length paths)) ;;;
      path0 <- list_get paths 0 ;;
      d <- Dictionary_load (os_path_join path0 ("dict." ++ lang ++ ".txt")) ;;
      let dicts := dict_set dicts lang d in
      first_lang <- list_get sorted_langs 0 ;;
      first <- dict_get dicts first_lang ;;
      (if Nat.ltb 0 (List.length dicts) then
         assert_ (pad d =? pad first) ;;;
         assert_ (eos d =? eos first) ;;;
         assert_ (unk d =? unk first)
       else Ok tt) ;;;
      let d :=
        if (is_some (encoder_langtok (opts raw)) || decoder_langtok (opts raw))%bool
        then fold_left (fun d lang_to_add => add_symbol d (_lang_token lang_to_add))
                       sorted_langs d
        else d in
      load_dicts raw sorted_langs todo' (dict_set dicts lang d)
  end.

(** [prepare(cls, args)]: the command-line namespace becomes the prepared
    one; the lists it creates are new objects of the heap. *)
Definition prepare (raw : RawArgs F) (h : heap)
  : result (Args F * dict Dictionary * bool * heap) :=
  lps <- eval_bool (left_pad_source raw) ;;
  lpt <- eval_bool (left_pad_target raw) ;;
  let impl :=
    if raw_text (opts raw) then Some "raw"
    else if lazy_load (opts raw) then Some "lazy"
    else dataset_impl raw in
  match lang_pairs raw with
  | None =>
      Raise (ValueError (Some
        "--lang-pairs is required. List all the language pairs in the training objective."))
  | Some text =>
      let pairs := Py.split "," text in
      let '(lp, h) := alloc h pairs in
      let '(elp, h) :=
        match eval_lang_pairs raw with
        | Some etext => alloc h (Py.split "," etext)
        | None => (lp, h)
        end in
      let sorted_langs := sorted_set (flat_map (Py.split "-") pairs) in
      let training := negb (is_some (source_lang raw) || is_some (target_lang raw)) in
      dicts <- load_dicts raw sorted_langs sorted_langs [] ;;
      Ok ({| opts := opts raw; lang_pairs := lp; eval_lang_pairs := elp;
             source_lang := source_lang raw; target_lang := target_lang raw;
             dataset_impl := impl; left_pad_source := lps; left_pad_target := lpt;
             lan_dists := lan_dists raw |},
          dicts, training, h)
  end.

(** [MultilingualTranslationTask.__init__(args, dicts, training)] *)
Definition init (a : Args F) (dicts : dict Dictionary) (training : bool) (h : heap)
  : result (Task F SubModel * heap) :=
  r <- (if training then
          first <- list_get (deref h (lang_pairs a)) 0 ;;
          '(src, tgt) <- unpack2 (Py.split "-" first) ;;
          Ok (lang_pairs a, Some src, Some tgt, h)
        else
          let '(l, h) := alloc h [(fmt_opt (source_lang a) ++ "-" ++ fmt_opt (target_lang a))%string] in
          Ok (l, source_lang a, target_lang a, h)) ;;
  let '(lp, src, tgt, h) := r in
  ld <- match lan_dists a with
        | LanDistsStr s => arr <- lan_dists_array s ;; Ok (LanDistsArray arr)
        | LanDistsArray _ => Raise (AttributeError "split")
        | LanDistsNone => Ok LanDistsNone
        end ;;
  let a' := {| opts := opts a; lang_pairs := lang_pairs a;
               eval_lang_pairs := eval_lang_pairs a;
               source_lang := src; target_lang := tgt;
               dataset_impl := dataset_impl a;
               left_pad_source := left_pad_source a;
               left_pad_target := left_pad_target a; lan_dists := ld |} in
  Ok ({| args := a'; task_dataset_type := dataset_type (opts a); dicts := dicts;
         training := training; task_lang_pairs := lp;
         task_eval_lang_pairs := eval_lang_pairs a; model_lang_pairs := lp;
         langs := dict_keys dicts; task_datasets := [] |}, h).

(** [setup_task(cls, args)] *)
Definition setup_task (raw : RawArgs F) (h : heap) : result (Task F SubModel * heap) :=
  '(a, dicts, training, h) <- prepare raw h ;;
  init a dicts training h.

(** [get_encoder_langtok(self, src_lang, tgt_lang)] *)
Definition get_encoder_langtok (self : Task F SubModel) (src_lang tgt_lang : option string)
  : result Z :=
  match encoder_langtok (opts (args self)) with
  | None => d <- dicts_get (dicts self) src_lang ;; Ok (eos d)
  | Some mode =>
      if String.eqb mode "src" then
        d <- dicts_get (dicts self) src_lang ;; _lang_token_index d (fmt_opt src_lang)
      else
        d <- dicts_get (dicts self) src_lang ;; _lang_token_index d (fmt_opt tgt_lang)
  end.

(** [get_decoder_langtok(self, tgt_lang)] *)
Definition get_decoder_langtok (self : Task F SubModel) (tgt_lang : option string)
  : result Z :=
  if negb (decoder_langtok (opts (args self))) then
    d <- dicts_get (dicts self) tgt_lang ;; Ok (eos d)
  else
    d <- dicts_get (dicts self) tgt_lang ;; _lang_token_index d (fmt_opt tgt_lang).

Definition opt_mem (x : option string) (l : list string) : bool :=
  match x with Some s => list_mem s l | None => false end.

(** [alter_dataset_langtok(self, lang_pair_dataset, src_eos, src_lang,
    tgt_eos, tgt_lang, tgt_langs, split)] *)
Definition alter_dataset_langtok (self : Task F SubModel)
    (lang_pair_dataset : dataset F SubModel)
    (src_eos : option Z) (src_lang : option string)
    (tgt_eos : option Z) (tgt_lang : option string)
    (tgt_langs : list string) (split : string)
  : result (dataset F SubModel) :=
  let a := opts (args self) in
  if (negb (is_some (encoder_langtok a)) && negb (decoder_langtok a))%bool then
    Ok lang_pair_dataset
  else
    r1 <- (if (is_some (encoder_langtok a) && is_some src_eos
               && is_some src_lang && is_some tgt_lang)%bool
           then tok <- get_encoder_langtok self src_lang tgt_lang ;; Ok (src_eos, Some tok)
           else Ok (None, None)) ;;
    let '(src_eos, new_src_eos) := r1 in
    r2 <- (if (decoder_langtok a && is_some tgt_eos && is_some tgt_lang)%bool
           then tok <- get_decoder_langtok self tgt_lang ;; Ok (tgt_eos, Some tok)
           else Ok (None, None)) ;;
    let '(tgt_eos, new_tgt_bos) := r2 in
    r3 <- (if (String.eqb split "train" && opt_mem tgt_lang tgt_langs)%bool then
             cur_tgt_idx <- list_index (fmt_opt tgt_lang) tgt_langs ;;
             n <- float_of_int (Z.of_nat (List.length tgt_langs) - 1) ;;
             p <- truediv (sample_tag_prob a) n ;;
             let probs := map (fun _ => p) (seq 0 (List.length tgt_langs)) in
             let probs := list_set probs cur_tgt_idx (fsub f1 (sample_tag_prob a)) in
             toks <- mapM (fun t => get_encoder_langtok self src_lang (Some t)) tgt_langs ;;
             Ok (Some toks, Some probs)
           else Ok (None, None)) ;;
    let '(new_src_eos_list, new_src_eos_list_probs) := r3 in
    Ok (TransformEosLangPairDataset lang_pair_dataset src_eos new_src_eos
          tgt_eos new_tgt_bos new_src_eos_list new_src_eos_list_probs split).


(** [load_dataset(self, split, epoch, source_lang, target_lang)] *)
Definition load_dataset (self : Task F SubModel) (h : heap) (split : string) (epoch : Z)
    (source_lang_ target_lang_ : option string) : result (Task F SubModel) :=
  let a := args self in
  let paths := Py.split ":" (data (opts a)) in
  assert_ (Nat.ltb 0 (List.length paths)) ;;;
  data_path <- list_get paths (Z.to_nat (epoch mod Z.of_nat (List.length paths))) ;;
  tgt_langs <- (if flt f0 (sample_tag_prob (opts a)) then
                  mapM (fun lang_pair =>
                          '(src, tgt) <- unpack2 (Py.split "-" lang_pair) ;; Ok tgt)
                       (deref h (task_lang_pairs self))
                else Ok []) ;;
  let language_pair_dataset (lang_pair : string) : result (dataset F SubModel) :=
    '(src, tgt) <- unpack2 (Py.split "-" lang_pair) ;;
    src_dict <- dict_get (dicts self) src ;;
    tgt_dict <- dict_get (dicts self) tgt ;;
    load_langpair_dataset data_path split src tgt ;;;
    let langpair_dataset :=
      LangpairData data_path split src src_dict tgt tgt_dict (dataset_impl a)
        (upsample_primary (opts a)) (left_pad_source a) (left_pad_target a)
        (max_source_positions (opts a)) (max_target_positions (opts a)) in
    alter_dataset_langtok self langpair_dataset (Some (eos tgt_dict)) (Some src)
      None (Some tgt) tgt_langs split in
  let lang_pairs :=
    if String.eqb split "valid" then deref h (task_eval_lang_pairs self)
    else deref h (task_lang_pairs self) in
  let entries :=
    mapM (fun lang_pair => d <- language_pair_dataset lang_pair ;; Ok (lang_pair, d))
         lang_pairs in
  if (String.eqb (task_dataset_type self) "round_robin" || negb (String.eqb split "train"))%bool
  then
    let training :=
      if (is_some source_lang_ && is_some target_lang_)%bool then false else training self in
    let source_lang_ :=
      match source_lang_ with None => source_lang a | Some _ => source_lang_ end in
    let target_lang_ :=
      match target_lang_ with None => target_lang a | Some _ => target_lang_ end in
    es <- entries ;;
    let d := RoundRobinZipDatasets (dict_of_list es)
               (if training then None
                else Some (fmt_opt source_lang_ ++ "-" ++ fmt_opt target_lang_)%string) in
    Ok (set_task_datasets (dict_set (task_datasets self) split d) self)
  else if String.eqb (task_dataset_type self) "multi" then
    es <- entries ;;
    let d := MultiCorpusSampledDataset (dict_of_list es) (sample_instance (opts a)) split
               (datasize_t (opts a)) (alpha_p (opts a)) in
    Ok (set_task_datasets (dict_set (task_datasets self) split d) self)
  else if String.eqb (task_dataset_type self) "tcs" then
    es <- entries ;;
    let d := TCSSampledDataset (dict_of_list es) (lan_dists a) (data_condition (opts a))
               (sample_instance (opts a)) split in
    Ok (set_task_datasets (dict_set (task_datasets self) split d) self)
  else Ok self.

(** The elements that are in exactly one of the two collections:
    [set(a).symmetric_difference(b)]. *)
Definition symmetric_difference (a b : list string) : list string :=
  (filter (fun x => negb (list_mem x b)) a ++ filter (fun x => negb (list_mem x a)) b)%list.

Definition opt_eqb (x y : option string) : bool :=
  match x, y with
  | Some a, Some b => String.eqb a b
  | None, None => true
  | _, _ => false
  end.

(** The messages [check_args] collects. *)
Definition check_args_messages (self : Task F SubModel) (h : heap) (a : Args F)
  : list string :=
  ((if negb (Nat.eqb (List.length (symmetric_difference
                                    (deref h (lang_pairs (args self)))
                                    (deref h (lang_pairs a)))) 0)
    then ["--lang-pairs should include all the language pairs "
            ++ repr_list (deref h (lang_pairs a)) ++ "."]%string
    else [])
   ++ (if negb (opt_eqb (encoder_langtok (opts (args self))) (encoder_langtok (opts a)))
       then ["--encoder-langtok should be " ++ fmt_opt (encoder_langtok (opts a)) ++ "."]%string
       else [])
   ++ (if negb (Bool.eqb (decoder_langtok (opts (args self))) (decoder_langtok (opts a)))
       then ["--decoder-langtok should "
               ++ (if decoder_langtok (opts a) then "" else "not") ++ " be set."]%string
       else []))%list.

(** [check_args()], the local function of [build_model] *)
Definition check_args (self : Task F SubModel) (h : heap) (a : Args F) : result unit :=
  let messages := check_args_messages self h a in
  if Nat.ltb 0 (List.length messages) then Raise (ValueError (Some (join " " messages)))
  else Ok tt.

(** [build_model(self, args)] *)
Definition build_model (self : Task F SubModel) (h : heap) (a : Args F)
  : result (Model SubModel) :=
  check_args self h a ;;;
  model <- models_build_model h a self ;;
  match model with
  | FairseqMultiModel _ => Ok model
  | OtherModel =>
      Raise (ValueError
               (Some "MultilingualTranslationTask requires a FairseqMultiModel architecture"))
  end.

(** The criterion as the multilingual steps call it:
    [criterion(model, sample, data_score=..., loss_copy=...)]. *)
Definition criterion_t : Type :=
  SubModel -> value -> option Tensor -> bool -> result (F * F * Log * Tensor).

(** [data_actor(cur_sample['net_input']['src_tokens'], cur_sample['target'])] *)
Definition data_actor_t : Type := value -> result Tensor.

Definition nsentences (v : value) : result Z :=
  match v with
  | PBatch b => batch_nsentences b
  | _ => Raise TypeError
  end.

(** The first loop of the data-actor branch of [train_step];
    [data_actor_out] is [None] when the caller passed none. *)
Fixpoint score_pairs (data_actor : data_actor_t) (sample : dict value)
    (pairs : list string) (data_actor_out : option (dict Tensor))
    (data_score : dict Tensor) (sum_score : F) (example_size : Z)
  : result (option (dict Tensor) * dict Tensor * F * Z) :=
  match pairs with
  | [] => Ok (data_actor_out, data_score, sum_score, example_size)
  | lang_pair :: pairs' =>
      skip <- skipped sample lang_pair ;;
      if skip then
        score_pairs data_actor sample pairs' data_actor_out data_score sum_score example_size
      else
        cur_sample <- dict_get sample lang_pair ;;
        score <- data_actor cur_sample ;;
        out <- match data_actor_out with
               | Some d => Ok (dict_set d lang_pair score)
               | None => Raise TypeError
               end ;;
        n <- nsentences cur_sample ;;
        score_pairs data_actor sample pairs'
          (Some out)
          (dict_set data_score lang_pair score)
          (fadd sum_score (tensor_sum score)) (example_size + n)
  end.

(** The second loop: the scores are normalised. *)
Fixpoint normalize_scores (sample : dict value) (pairs : list string)
    (data_score : dict Tensor) (sum_score : F) (example_size : Z)
  : result (dict Tensor) :=
  match pairs with
  | [] => Ok data_score
  | lang_pair :: pairs' =>
      skip <- skipped sample lang_pair ;;
      if skip then normalize_scores sample pairs' data_score sum_score example_size
      else
        score <- dict_get data_score lang_pair ;;
        normalize_scores sample pairs'
          (dict_set data_score lang_pair
             (tensor_div (tensor_mul_int score example_size) sum_score))
          sum_score example_size
  end.

(** The main loop of [train_step]. *)
Fixpoint train_pairs (sample : dict value) (model : Model SubModel)
    (criterion : criterion_t) (ignore_grad : bool)
    (data_score : option (dict Tensor)) (pairs : list string)
    (loss_copy : option (dict Tensor)) (acc : Totals)
  : result (Totals * option (dict Tensor)) :=
  match pairs with
  | [] => Ok (acc, loss_copy)
  | lang_pair :: pairs' =>
      skip <- skipped sample lang_pair ;;
      if skip then train_pairs sample model criterion ignore_grad data_score pairs' loss_copy acc
      else
        score <- match data_score with
                 | Some ds => t <- dict_get ds lang_pair ;; Ok (Some t)
                 | None => Ok None
                 end ;;
        models <- get_models model ;;
        m <- dict_get models lang_pair ;;
        s <- dict_get sample lang_pair ;;
        '(loss, sample_size, logging_output, nll_loss_data) <-
          criterion m s score (is_some loss_copy) ;;
        let loss_copy :=
          match loss_copy with
          | Some lc => Some (dict_set lc lang_pair nll_loss_data)
          | None => None
          end in
        let loss := if ignore_grad then fmul loss f0 else loss in
        let tr := if ignore_grad then trace acc else (trace acc ++ [Backward loss])%list in
        train_pairs sample model criterion ignore_grad data_score pairs' loss_copy
          {| agg_loss := fadd (agg_loss acc) loss;
             agg_sample_size := fadd (agg_sample_size acc) sample_size;
             agg_logging_output := dict_set (agg_logging_output acc) lang_pair logging_output;
             trace := tr |}
  end.

(** [train_step(self, sample, model, criterion, optimizer, ignore_grad,
    data_actor, loss_copy, data_actor_out)].  The result carries the
    returned totals, the calls made on the optimizer, and the two
    dictionaries the caller passed in to be filled. *)
Definition train_step (self : Task F SubModel) (h : heap) (sample : dict value)
    (model : Model SubModel) (criterion : criterion_t) (ignore_grad : bool)
    (data_actor_ : option data_actor_t) (loss_copy : option (dict Tensor))
    (data_actor_out : option (dict Tensor))
  : result (Totals * option (dict Tensor) * option (dict Tensor)) :=
  let pairs := deref h (model_lang_pairs self) in
  let a := opts (args self) in
  r <- (match data_actor_ with
        | Some actor =>
            if (opt_eqb (data_actor a) (Some "ave_emb")
                || opt_eqb (extra_data_actor a) (Some "ave_emb"))%bool
            then
              '(data_actor_out, data_score, sum_score, example_size) <-
                score_pairs actor sample pairs data_actor_out [] f0 0 ;;
              data_score <- normalize_scores sample pairs data_score sum_score example_size ;;
              Ok (Some data_score, data_actor_out)
            else Ok (None, data_actor_out)
        | None => Ok (None, data_actor_out)
        end) ;;
  let '(data_score, data_actor_out) := r in
  '(totals, loss_copy) <-
    train_pairs sample model criterion ignore_grad data_score pairs loss_copy
      (totals0 ModelTrain) ;;
  Ok (totals, loss_copy, data_actor_out).

(** The loop of [valid_step]. *)
Fixpoint valid_pairs (sample : dict value) (model : Model SubModel)
    (criterion : criterion_t) (pairs : list string) (acc : Totals) : result Totals :=
  match pairs with
  | [] => Ok acc
  | lang_pair :: pairs' =>
      skip <- skipped sample lang_pair ;;
      if skip then valid_pairs sample model criterion pairs' acc
      else
        models <- get_models model ;;
        m <- dict_get models lang_pair ;;
        s <- dict_get sample lang_pair ;;
        '(loss, sample_size, logging_output, _) <- criterion m s None false ;;
        valid_pairs sample model criterion pairs'
          {| agg_loss := fadd (agg_loss acc) loss;
             agg_sample_size := fadd (agg_sample_size acc) sample_size;
             agg_logging_output := dict_set (agg_logging_output acc) lang_pair logging_output;
             trace := trace acc |}
  end.

(** [valid_step(self, sample, model, criterion)] *)
Definition valid_step (self : Task F SubModel) (h : heap) (sample : dict value)
    (model : Model SubModel) (criterion : criterion_t) : result Totals :=
  valid_pairs sample model criterion (deref h (task_eval_lang_pairs self))
    (totals0 ModelEval).

End Multilingual.
End Multilingual.

(** ** [BtTranslationTask] *)

Module Bt.
Section Bt.
Context {U : Interpreter} {F : Type} {PF : PyFloat F} {E : Env F}.
Local Open Scope string_scope.

(** The call [torch.optim.SGD(bt_params, lr=...)], which is taken to
    return: the sub-models whose parameters it updates, and the learning
    rate. *)
Record DataOptimizer : Type := {
  bt_params : list SubModel;
  lr : F
}.

(** A [BtTranslationTask]: the multilingual task it extends and its own
    attributes. *)
Record BtTask : Type := {
  base : Task F SubModel;
  lambdas : Lambdas (F := F);
  backtranslate_datasets : dict (dataset F SubModel);
  backtranslators : dict (Backtranslator F SubModel);
  sequence_generators : dict (SequenceGenerator F);
  baseline : option F;
  data_optimizer : option DataOptimizer;
  dev_itr : option DevItr
}.

Definition set_base (b : Task F SubModel) (t : BtTask) : BtTask :=
  {| base := b; lambdas := lambdas t;
     backtranslate_datasets := backtranslate_datasets t;
     backtranslators := backtranslators t;
     sequence_generators := sequence_generators t;
     baseline := baseline t; data_optimizer := data_optimizer t;
     dev_itr := dev_itr t |}.

Definition set_lambdas (l : Lambdas) (t : BtTask) : BtTask :=
  {| base := base t; lambdas := l;
     backtranslate_datasets := backtranslate_datasets t;
     backtranslators := backtranslators t;
     sequence_generators := sequence_generators t;
     baseline := baseline t; data_optimizer := data_optimizer t;
     dev_itr := dev_itr t |}.

Definition set_backtranslate_datasets (d : dict (dataset F SubModel)) (t : BtTask) : BtTask :=
  {| base := base t; lambdas := lambdas t;
     backtranslate_datasets := d;
     backtranslators := backtranslators t;
     sequence_generators := sequence_generators t;
     baseline := baseline t; data_optimizer := data_optimizer t;
     dev_itr := dev_itr t |}.

Definition set_generators (g : dict (SequenceGenerator F))
    (b : dict (Backtranslator F SubModel)) (t : BtTask) : BtTask :=
  {| base := base t; lambdas := lambdas t;
     backtranslate_datasets := backtranslate_datasets t;
     backtranslators := b;
     sequence_generators := g;
     baseline := baseline t; data_optimizer := data_optimizer t;
     dev_itr := dev_itr t |}.

Definition set_baseline (b : option F) (t : BtTask) : BtTask :=
  {| base := base t; lambdas := lambdas t;
     backtranslate_datasets := backtranslate_datasets t;
     backtranslators := backtranslators t;
     sequence_generators := sequence_generators t;
     baseline := b; data_optimizer := data_optimizer t;
     dev_itr := dev_itr t |}.

Definition set_data_optimizer (o : option DataOptimizer) (t : BtTask) : BtTask :=
  {| base := base t; lambdas := lambdas t;
     backtranslate_datasets := backtranslate_datasets t;
     backtranslators := backtranslators t;
     sequence_generators := sequence_generators t;
     baseline := baseline t; data_optimizer := o;
     dev_itr := dev_itr t |}.

Definition set_dev_itr (d : option DevItr) (t : BtTask) : BtTask :=
  {| base := base t; lambdas := lambdas t;
     backtranslate_datasets := backtranslate_datasets t;
     backtranslators := backtranslators t;
     sequence_generators := sequence_generators t;
     baseline := baseline t; data_optimizer := data_optimizer t;
     dev_itr := d |}.

(** [_get_bt_dataset_key(lang_pair)] *)
Definition _get_bt_dataset_key (lang_pair : string) : string := "bt:" ++ lang_pair.

(** [_get_denoising_dataset_key(lang_pair)] *)
Definition _get_denoising_dataset_key (lang_pair : string) : string :=
  "denoising:" ++ lang_pair.

(** [_get_dds_bt_key(lang_pair)] *)
Definition _get_dds_bt_key (lang_pair : string) : result string :=
  '(src, tgt) <- unpack2 (Py.split "-" lang_pair) ;;
  Ok (tgt ++ "-" ++ src).

(** [BtTranslationTask.__init__(args, dicts, training)] *)
Definition init (a : Args F) (dicts : dict Dictionary) (training : bool) (h : heap)
  : result (BtTask * heap) :=
  '(b, h) <- Multilingual.init a dicts training h ;;
  l <- init_lambdas (lambda_parallel_config (opts a)) (lambda_otf_bt_config (opts a))
         (lambda_denoising_config (opts a)) ;;
  Ok ({| base := b; lambdas := l; backtranslate_datasets := []; backtranslators := [];
         sequence_generators := []; baseline := None; data_optimizer := None;
         dev_itr := None |}, h).

(** [setup_task(cls, args)] *)
Definition setup_task (raw : RawArgs F) (h : heap) : result (BtTask * heap) :=
  '(a, dicts, training, h) <- Multilingual.prepare raw h ;;
  init a dicts training h.

(** [split_exists(split, src, tgt, lang)], the local function of
    [load_dataset]. *)
Definition split_exists (self : BtTask) (data_path : string)
    (split : string) (src tgt lang : option string) : bool :=
  let filename :=
    match src with
    | Some _ =>
        os_path_join data_path
          (split ++ "." ++ fmt_opt src ++ "-" ++ fmt_opt tgt ++ "." ++ fmt_opt lang)
    | None =>
        os_path_join data_path (split ++ "." ++ fmt_opt src ++ "-None." ++ fmt_opt tgt)
    end in
  let raw := raw_text (opts (args (base self))) in
  if (raw && IndexedRawTextDataset_exists filename)%bool then true
  else if (negb raw && IndexedDataset_exists filename)%bool then true
  else false.

(** The first loop of [load_dataset]: the parallel datasets. *)
Fixpoint load_parallel (self : BtTask) (data_path split : string) (pairs : list string)
    (src_datasets tgt_datasets : dict (dataset F SubModel))
  : result (dict (dataset F SubModel) * dict (dataset F SubModel)) :=
  match pairs with
  | [] => Ok (src_datasets, tgt_datasets)
  | lang_pair :: pairs' =>
      '(src, tgt) <- unpack2 (Py.split "-" lang_pair) ;;
      let found :=
        if split_exists self data_path split (Some src) (Some tgt) (Some src) then
          Some (os_path_join data_path (split ++ "." ++ src ++ "-" ++ tgt ++ "."))
        else if split_exists self data_path split (Some tgt) (Some src) (Some src) then
          Some (os_path_join data_path (split ++ "." ++ tgt ++ "-" ++ src ++ "."))
        else None in
      match found with
      | None => load_parallel self data_path split pairs' src_datasets tgt_datasets
      | Some prefix =>
          src_dict <- dict_get (dicts (base self)) src ;;
          let src_datasets :=
            dict_set src_datasets lang_pair (IndexedData (prefix ++ src) src_dict) in
          tgt_dict <- dict_get (dicts (base self)) tgt ;;
          let tgt_datasets :=
            dict_set tgt_datasets lang_pair (IndexedData (prefix ++ tgt) tgt_dict) in
          load_parallel self data_path split pairs' src_datasets tgt_datasets
      end
  end.

(** [language_pair_dataset(lang_pair)], the local function of
    [load_dataset]. *)
Definition language_pair_dataset (self : BtTask)
    (src_datasets tgt_datasets : dict (dataset F SubModel)) (lang_pair : string)
  : result (dataset F SubModel) :=
  let t := base self in
  '(src, tgt) <- unpack2 (Py.split "-" lang_pair) ;;
  src_dataset <- dict_get src_datasets lang_pair ;;
  tgt_dataset <- dict_get tgt_datasets lang_pair ;;
  src_dict <- dict_get (dicts t) src ;;
  tgt_dict <- dict_get (dicts t) tgt ;;
  Multilingual.alter_dataset_langtok t
    (LanguagePairDataset src_dataset src_dict (Some tgt_dataset) (Some tgt_dict)
       (left_pad_source (args t)) (left_pad_target (args t))
       (Some (max_source_positions (opts (args t)), max_target_positions (opts (args t)))))
    (Some (eos src_dict)) (Some src) (Some (eos tgt_dict)) (Some tgt) [] "train".

(** The body of the second loop of [load_dataset]: the back-translation
    dataset of one pair of a training split. *)
Definition backtranslation_dataset (self : BtTask) (data_path split : string)
    (src_datasets tgt_datasets : dict (dataset F SubModel)) (lang_pair : string)
  : result (dataset F SubModel) :=
  let t := base self in
  '(src, tgt) <- unpack2 (Py.split "-" lang_pair) ;;
  if negb (split_exists self data_path split (Some tgt) None (Some tgt)) then
    Raise (FileNotFoundError
             ("Dataset not found: backtranslation " ++ split ++ " (" ++ data_path ++ ")"))
  else
    let filename := os_path_join data_path (split ++ "." ++ tgt ++ "-None." ++ tgt) in
    tgt_dict <- dict_get (dicts t) tgt ;;
    let dataset := IndexedData filename tgt_dict in
    let lang_pair_dataset_tgt :=
      LanguagePairDataset dataset tgt_dict None None
        (left_pad_source (args t)) (left_pad_target (args t)) None in
    tgt_dataset <- Multilingual.alter_dataset_langtok t lang_pair_dataset_tgt
                     (Some (eos tgt_dict)) (Some tgt) None (Some src) [] "train" ;;
    backtranslation_fn <- dict_get (backtranslators self) lang_pair ;;
    src_dict <- dict_get (dicts t) src ;;
    output_collater <- language_pair_dataset self src_datasets tgt_datasets lang_pair ;;
    Ok (BacktranslationDataset tgt_dataset backtranslation_fn src_dict tgt_dict
          output_collater).

(** The second loop of [load_dataset]: every pair's dataset is stored in
    the local dictionary and in [self.backtranslate_datasets]. *)
Fixpoint load_backtranslation (self : BtTask) (data_path split : string)
    (src_datasets tgt_datasets : dict (dataset F SubModel)) (pairs : list string)
    (backtranslate_datasets : dict (dataset F SubModel))
    (self_backtranslate_datasets : dict (dataset F SubModel))
  : result (dict (dataset F SubModel) * dict (dataset F SubModel)) :=
  match pairs with
  | [] => Ok (backtranslate_datasets, self_backtranslate_datasets)
  | lang_pair :: pairs' =>
      d <- backtranslation_dataset self data_path split src_datasets tgt_datasets
             lang_pair ;;
      load_backtranslation self data_path split src_datasets tgt_datasets pairs'
        (dict_set backtranslate_datasets lang_pair d)
        (dict_set self_backtranslate_datasets lang_pair d)
  end.

(** [load_dataset(self, split, epoch)] *)
Definition load_dataset (self : BtTask) (h : heap) (split : string) (epoch : Z)
  : result BtTask :=
  let t := base self in
  let paths := Py.split ":" (data (opts (args t))) in
  assert_ (Nat.ltb 0 (List.length paths)) ;;;
  data_path <- list_get paths (Z.to_nat (epoch mod Z.of_nat (List.length paths))) ;;
  '(src_datasets, tgt_datasets) <-
    load_parallel self data_path split (deref h (task_lang_pairs t)) [] [] ;;
  if Nat.eqb (List.length src_datasets) 0 then
    Raise (FileNotFoundError ("Dataset not found: " ++ split ++ " (" ++ data_path ++ ")"))
  else
    r <- (if startswith split "train" then
            load_backtranslation self data_path split src_datasets tgt_datasets
              (deref h (task_lang_pairs t)) [] (backtranslate_datasets self)
          else Ok ([], backtranslate_datasets self)) ;;
    let '(backtranslate_datasets, self_backtranslate_datasets) := r in
    let self := set_backtranslate_datasets self_backtranslate_datasets self in
    parallel <- mapM (fun lang_pair =>
                        d <- language_pair_dataset self src_datasets tgt_datasets lang_pair ;;
                        Ok (lang_pair, d))
                     (dict_keys src_datasets) ;;
    let bt := map (fun kv => (_get_bt_dataset_key (fst kv), snd kv)) backtranslate_datasets in
    let composite :=
      RoundRobinZipDatasets (dict_of_list (parallel ++ bt)%list)
        (if training t then None
         else Some (fmt_opt (source_lang (args t)) ++ "-"
                      ++ fmt_opt (target_lang (args t)))%string) in
    let self := set_base (set_task_datasets (dict_set (task_datasets t) split composite) t)
                  self in
    if (String.eqb split "valid" && bt_dds (opts (args t)))%bool then
      valid <- dict_get (task_datasets (base self)) "valid" ;;
      itr <- get_batch_iterator valid ;;
      Ok (set_dev_itr (Some (next_epoch_itr itr)) self)
    else Ok self.


(** The first loop of [build_model]: the reverse of every pair is
    appended to the list object [self.lang_pairs] refers to. *)
Fixpoint append_reverse (h : heap) (lp : loc) (pairs : list string) : result unit * heap :=
  match pairs with
  | [] => (Ok tt, h)
  | lang_pair :: pairs' =>
      match unpack2 (Py.split "-" lang_pair) with
      | Ok (src, tgt) => append_reverse (heap_append h lp (tgt ++ "-" ++ src)) lp pairs'
      | Raise e => (Raise e, h)
      end
  end.

(** The sub-models whose parameters the data-actor optimizer receives. *)
Fixpoint collect_bt_params (models : dict SubModel) (pairs : list string)
  : result (list SubModel) :=
  match pairs with
  | [] => Ok []
  | lang_pair :: pairs' =>
      bt_lang_pair <- _get_dds_bt_key lang_pair ;;
      m <- dict_get models bt_lang_pair ;;
      rest <- collect_bt_params models pairs' ;;
      Ok (m :: rest)
  end.

(** The last loop of [build_model]: one sequence generator and one
    [backtranslate_fn] closure per pair. *)
Fixpoint make_backtranslators (t : Task F SubModel) (a : Args F) (models : dict SubModel)
    (pairs : list string) (generators : dict (SequenceGenerator F))
    (translators : dict (Backtranslator F SubModel))
  : result (dict (SequenceGenerator F) * dict (Backtranslator F SubModel)) :=
  match pairs with
  | [] => Ok (generators, translators)
  | lang_pair :: pairs' =>
      '(src, tgt) <- unpack2 (Py.split "-" lang_pair) ;;
      let key := tgt ++ "-" ++ src in
      src_dict <- dict_get (dicts t) src ;;
      let generators :=
        dict_set generators key
          {| sg_tgt_dict := src_dict; sg_beam_size := bt_beam_size (opts a);
             sg_max_len_a := bt_max_len_a (opts a);
             sg_max_len_b := bt_max_len_b (opts a) |} in
      decoder_lang_tok_idx <- Multilingual.get_decoder_langtok t (Some src) ;;
      m <- dict_get models key ;;
      g <- dict_get generators key ;;
      let backtranslate_fn :=
        {| bt_model := m; bt_bos_token := decoder_lang_tok_idx;
           bt_sequence_generator := g |} in
      make_backtranslators t a models pairs' generators
        (dict_set translators lang_pair backtranslate_fn)
  end.

(** [build_model(self, args)].  The result is the outcome together with
    the task and the heap the call leaves behind, also when it raises
    (entries added by a loop that an exception interrupts are left out). *)
Definition build_model (self : BtTask) (h : heap) (a : Args F)
  : result (Model SubModel) * BtTask * heap :=
  let t := base self in
  let '(copied_lang_pairs, h) := alloc h (deref h (task_lang_pairs t)) in
  match append_reverse h (task_lang_pairs t) (deref h copied_lang_pairs) with
  | (Raise e, h) => (Raise e, self, h)
  | (Ok _, h) =>
      match models_build_model h a t with
      | Raise e => (Raise e, self, h)
      | Ok model =>
          let t := set_task_lang_pairs copied_lang_pairs t in
          let self := set_base t self in
          match model with
          | OtherModel =>
              (Raise (ValueError
                 (Some "SemisupervisedTranslationTask requires a FairseqMultiModel architecture")),
               self, h)
          | FairseqMultiModel models =>
              let pairs := deref h (task_lang_pairs t) in
              let optimizer :=
                if bt_dds (opts (args t)) then
                  params <- collect_bt_params models pairs ;;
                  rate <- list_get (data_actor_lr (opts (args t))) 0 ;;
                  Ok (Some {| bt_params := params; lr := rate |})
                else Ok (data_optimizer self) in
              match optimizer with
              | Raise e => (Raise e, self, h)
              | Ok o =>
                  let self := set_data_optimizer o self in
                  let self := set_generators [] (backtranslators self) self in
                  if training t then
                    match make_backtranslators t a models pairs [] (backtranslators self) with
                    | Raise e => (Raise e, self, h)
                    | Ok (generators, translators) =>
                        (Ok model, set_generators generators translators self, h)
                    end
                  else (Ok model, self, h)
              end
          end
      end
  end.

(** The criterion as the back-translation step calls it:
    [criterion(model, samples, val_loss_data=..., loss_copy=..., data_score=...)]. *)
Definition criterion_t : Type :=
  SubModel -> value -> option Tensor -> bool -> option Tensor ->
  result (F * F * Log * Tensor * Tensor).

(** A float literal of the source text. *)
Definition literal (s : string) : F :=
  match float_of_str s with Ok v => v | Raise _ => f0 end.

Definition log_events (evs : list event) (acc : Totals) : Totals :=
  {| agg_loss := agg_loss acc; agg_sample_size := agg_sample_size acc;
     agg_logging_output := agg_logging_output acc;
     trace := (trace acc ++ evs)%list |}.

(** [forward_backward(model, samples, logging_output_key, weight,
    val_loss_data, loss_copy, ignore)], the local function of
    [train_step]; [None] is what it returns when it has nothing to do. *)
Definition forward_backward (criterion : criterion_t) (ignore_grad : bool)
    (m : SubModel) (samples : value) (logging_output_key : string) (weight : F)
    (val_loss_data : option Tensor) (loss_copy ignore : bool) (acc : Totals)
  : result (option (Tensor * Tensor) * Totals) :=
  nothing <- (match samples with
              | PNone => Ok true
              | _ => n <- py_len samples ;; Ok (Nat.eqb n 0)
              end) ;;
  if nothing then Ok (None, acc)
  else
    '(loss, sample_size, logging_output, nll_loss_data, dev_grad_dotprod) <-
      criterion m samples val_loss_data loss_copy None ;;
    if ignore then Ok (Some (nll_loss_data, dev_grad_dotprod), acc)
    else
      let loss := if ignore_grad then fmul loss f0 else fmul loss weight in
      Ok (Some (nll_loss_data, dev_grad_dotprod),
          {| agg_loss := fadd (agg_loss acc) loss;
             agg_sample_size := fadd (agg_sample_size acc) sample_size;
             agg_logging_output :=
               dict_set (agg_logging_output acc) logging_output_key logging_output;
             trace := (trace acc ++ [Backward loss])%list |}).

(** The first loop of [train_step]: the parallel batches. *)
Fixpoint parallel_pass (criterion : criterion_t) (ignore_grad : bool)
    (sample : dict value) (model : Model SubModel) (weight : F)
    (pairs : list string) (acc : Totals) : result Totals :=
  match pairs with
  | [] => Ok acc
  | lang_pair :: pairs' =>
      models <- get_models model ;;
      m <- dict_get models lang_pair ;;
      s <- dict_get sample lang_pair ;;
      '(_, acc) <- forward_backward criterion ignore_grad m s lang_pair weight
                     None false false acc ;;
      parallel_pass criterion ignore_grad sample model weight pairs' acc
  end.

(** What the second loop of [train_step] carries from one pair to the
    next. *)
Record BtLoop : Type := {
  totals : Totals;
  loop_dev_itr : option DevItr;
  v_sample_size : option F;
  loop_baseline : option F
}.

(** The [if self.args.bt_dds:] block that precedes [forward_backward] in
    the second loop; it yields [val_loss_data]. *)
Definition dds_validation (criterion : criterion_t) (sample : dict value)
    (model : Model SubModel) (lang_pair sample_key : string) (st : BtLoop)
  : result (Tensor * BtLoop) :=
  let acc := log_events [CloneParam; SaveCurTrainGrad] (totals st) in
  itr <- match loop_dev_itr st with
         | Some i => Ok i
         | None => Raise (AttributeError "dev_itr")
         end ;;
  let itr := if end_of_epoch itr then next_epoch_itr itr else itr in
  let '(next, itr) := cur_epoch_next itr in
  r <- match next with
       | Some valid_sample =>
           models <- get_models model ;;
           m <- dict_get models lang_pair ;;
           vs <- dict_get valid_sample lang_pair ;;
           '(loss, v, _, _, _) <- criterion m vs None false None ;;
           Ok (Some v, log_events [Backward loss] acc)
       | None => Ok (v_sample_size st, acc)
       end ;;
  let '(v_opt, acc) := r in
  v <- match v_opt with Some v => Ok v | None => Raise UnboundLocalError end ;;
  let eta := literal "1e-7" in
  let acc := log_events [SaveNewGrad v; AddNewGrad eta] acc in
  models <- get_models model ;;
  m <- dict_get models lang_pair ;;
  sv <- dict_get sample sample_key ;;
  s0 <- py_item sv 0 ;;
  '(_, _, _, val_loss_data, _) <- criterion m s0 None true None ;;
  let acc := log_events [SwitchParam; ResetCurTrainGrad] acc in
  Ok (val_loss_data,
      {| totals := acc; loop_dev_itr := Some itr; v_sample_size := v_opt;
         loop_baseline := loop_baseline st |}).

(** The [if self.args.bt_dds and self.lambda_denoising > 0:] block that
    follows [forward_backward]: the reverse model is updated from the
    reward. *)
Definition dds_actor_update (self : BtTask) (criterion : criterion_t)
    (sample : dict value) (model : Model SubModel) (lang_pair sample_key : string)
    (dev_grad_dotprod : Tensor) (st : BtLoop) : result BtLoop :=
  bt_lang_pair <- _get_dds_bt_key lang_pair ;;
  let eta := literal "1e-7" in
  let reward := tensor_div dev_grad_dotprod eta in
  let b := match loop_baseline st with
           | None => f0
           | Some b => fsub b (fmul (literal "0.001") (fsub b (tensor_mean reward)))
           end in
  let reward := tensor_sub reward b in
  let reward := tensor_mul reward (literal "0.0001") in
  models <- get_models model ;;
  m <- dict_get models bt_lang_pair ;;
  sv <- dict_get sample sample_key ;;
  s1 <- py_item sv 1 ;;
  '(loss, _, logging_output, _, _) <- criterion m s1 None false (Some reward) ;;
  let loss := fmul loss (lambda_denoising (lambdas self)) in
  let acc := log_events [LossBackward loss] (totals st) in
  match data_optimizer self with
  | None => Raise (AttributeError "data_optimizer")
  | Some _ =>
      let acc := log_events [DataOptimizerStep; DataOptimizerZeroGrad] acc in
      Ok {| totals :=
              {| agg_loss := agg_loss acc; agg_sample_size := agg_sample_size acc;
                 agg_logging_output :=
                   dict_set (agg_logging_output acc) bt_lang_pair logging_output;
                 trace := trace acc |};
            loop_dev_itr := loop_dev_itr st; v_sample_size := v_sample_size st;
            loop_baseline := Some b |}
  end.

(** The second loop of [train_step]: the back-translation batches. *)
Fixpoint bt_pass (self : BtTask) (criterion : criterion_t) (ignore_grad : bool)
    (sample : dict value) (model : Model SubModel) (pairs : list string) (st : BtLoop)
  : result BtLoop :=
  match pairs with
  | [] => Ok st
  | lang_pair :: pairs' =>
      let sample_key := _get_bt_dataset_key lang_pair in
      let dds := bt_dds (opts (args (base self))) in
      r <- (if dds then
              '(val_loss_data, st) <-
                dds_validation criterion sample model lang_pair sample_key st ;;
              Ok (Some val_loss_data, st)
            else Ok (None, st)) ;;
      let '(val_loss_data, st) := r in
      models <- get_models model ;;
      m <- dict_get models lang_pair ;;
      sv <- dict_get sample sample_key ;;
      s0 <- py_item sv 0 ;;
      '(returned, acc) <- forward_backward criterion ignore_grad m s0 sample_key
                            (lambda_otf_bt (lambdas self)) val_loss_data true false
                            (totals st) ;;
      '(nll_loss_data, dev_grad_dotprod) <-
        match returned with
        | Some two => Ok two
        | None => Raise TypeError
        end ;;
      let st := {| totals := acc; loop_dev_itr := loop_dev_itr st;
                   v_sample_size := v_sample_size st;
                   loop_baseline := loop_baseline st |} in
      st <- (if (dds && flt f0 (lambda_denoising (lambdas self)))%bool then
               dds_actor_update self criterion sample model lang_pair sample_key
                 dev_grad_dotprod st
             else Ok st) ;;
      bt_pass self criterion ignore_grad sample model pairs' st
  end.

(** [train_step(self, sample, model, criterion, optimizer, ignore_grad)].
    The result is the returned totals (with the calls made on the
    optimizers) and the task as the step leaves it. *)
Definition train_step (self : BtTask) (h : heap) (sample : dict value)
    (model : Model SubModel) (criterion : criterion_t) (ignore_grad : bool)
  : result (Totals * BtTask) :=
  let acc := totals0 ModelTrain in
  let self := set_lambdas (set_lambda_parallel f1 (lambdas self)) self in
  let self := set_lambdas (set_lambda_otf_bt f1 (lambdas self)) self in
  let pairs := deref h (task_lang_pairs (base self)) in
  acc <- parallel_pass criterion ignore_grad sample model
           (lambda_parallel (lambdas self)) pairs acc ;;
  st <- bt_pass self criterion ignore_grad sample model pairs
          {| totals := acc; loop_dev_itr := dev_itr self; v_sample_size := None;
             loop_baseline := baseline self |} ;;
  Ok (totals st, set_dev_itr (loop_dev_itr st) (set_baseline (loop_baseline st) self)).

(** [update_step(self, num_updates)] *)
Definition update_step (self : BtTask) (num_updates : Z) : result BtTask :=
  l <- update_step (lambdas self) num_updates ;;
  Ok (set_lambdas l self).

End Bt.
End Bt.

(** ** A concrete world

    A small instance of the collaborators, over binary64 floats, on which
    the model runs: sub-models are names, a batch records its length, the
    loss the criterion reports for it and its number of sentences, the file
    system is a list of the files that exist, and the model builder returns
    a multi-model with one sub-model per pair of the task's list. *)

Module Demo.

(** An interpreter for the runs below, which read ASCII text only: its
    Unicode database has no digit and no blank beyond ASCII and prints
    every character beyond ASCII as it is; numbers have at most 4300
    digits. *)
Fixpoint question_marks (s : string) : string :=
  match s with
  | EmptyString => EmptyString
  | String c rest =>
      let n := nat_of_ascii c in
      if Nat.ltb n 128 then String c (question_marks rest)
      else if Nat.ltb n 192 then question_marks rest
      else String "?" (question_marks rest)
  end.

#[global] Instance interpreter : Interpreter :=
  {| isdigit_wide := fun _ => false;
     to_ascii_decimal := question_marks;
     repr_wide := fun s => ("'" ++ s ++ "'")%string;
     int_max_str_digits := Some 4300%nat |}.

Definition dictionary (eos_at : Z) : Dictionary :=
  {| pad_index := 1; eos_index := eos_at; unk_index := 3;
     symbols := ["<s>"; "<pad>"; "</s>"; "<unk>"; "hello"] |}.

Definition demo_eval_bool (s : string) : result bool :=
  if String.eqb s "True" then Ok true
  else if String.eqb s "False" then Ok false
  else Raise (ValueError None).

(** Every dictionary file holds the same vocabulary. *)
Definition load_same (path : string) : result Dictionary := Ok (dictionary 2).


(** The files of a data directory with parallel English-German data and
    monolingual German and French data, and none for English-French. *)
Definition files_en_de : list string :=
  ["data/train.en-de.en"; "data/train.en-de.de"; "data/train.de-None.de";
   "data/train.fr-None.fr"; "data/valid.en-de.en"; "data/valid.en-de.de"].

(** The same directory with the English-French files. *)
Definition files_all : list string :=
  (files_en_de ++ ["data/train.en-fr.en"; "data/train.en-fr.fr";
                   "data/valid.en-fr.en"; "data/valid.en-fr.fr"])%list.

Section World.
Context {F : Type} {PF : PyFloat F}.

Record batch : Type := {
  batch_size : nat;
  batch_loss : F;
  batch_sentences : Z
}.

Definition multi_model_builder (h : heap) (a : Args F) (t : Task F string)
  : result (Model string) :=
  Ok (FairseqMultiModel
        (dict_of_list (map (fun p => (p, ("model " ++ p)%string))
                           (deref h (task_lang_pairs t))))).

Definition other_model_builder (h : heap) (a : Args F) (t : Task F string)
  : result (Model string) := Ok OtherModel.


Definition env (load : string -> result Dictionary) (files : list string)
    (build : heap -> Args F -> Task F string -> result (Model string))
  : Env F :=
  {| SubModel := string;
     Batch := batch;
     Log := string;
     Tensor := F;
     DevItr := unit;
     batch_len := batch_size;
     eval_bool := demo_eval_bool;
     Dictionary_load := load;
     IndexedRawTextDataset_exists := fun f => list_mem f files;
     IndexedDataset_exists := fun f => list_mem f files;
     load_langpair_dataset := fun _ _ _ _ => Ok tt;
     lan_dists_array := fun _ => Ok [];
     models_build_model := build;
     tensor_sum := fun x => x;
     tensor_mean := fun x => x;
     tensor_mul_int := fun x _ => x;
     tensor_mul := fmul;
     tensor_div := fun x _ => x;
     tensor_sub := fsub;
     batch_nsentences := fun b => Ok (batch_sentences b);
     get_batch_iterator := fun _ => Ok tt;
     end_of_epoch := fun _ => false;
     next_epoch_itr := fun i => i;
     cur_epoch_next := fun i => (None, i) |}.

Definition options (encoder : option string) (decoder : bool) (tag_prob : F)
    (otf_bt_config : string) : Options F :=
  {| data := "data"; lazy_load := false; raw_text := false;
     max_source_positions := 1024; max_target_positions := 1024;
     upsample_primary := 1; encoder_langtok := encoder; decoder_langtok := decoder;
     dataset_type := "round_robin"; data_condition := "target";
     sample_instance := false; sample_tag_prob := tag_prob;
     datasize_t := None; alpha_p := f0;
     data_actor := None; extra_data_actor := None;
     lambda_parallel_config := "1.0"; lambda_otf_bt_config := otf_bt_config;
     lambda_denoising_config := "0.0";
     bt_max_len_a := f1; bt_max_len_b := fadd f1 f1;
     bt_beam_size := 1; bt_dds := false; data_actor_lr := [] |}.

(** The command line [--lang-pairs pairs --lambda-otf-bt-config otf_bt_config]
    (and [--encoder-langtok] when [encoder] is given). *)
Definition command_line (pairs : string) (encoder : option string) (otf_bt_config : string)
  : RawArgs F :=
  {| opts := options encoder false (fsub f0 f1) otf_bt_config;
     lang_pairs := Some pairs; eval_lang_pairs := None;
     source_lang := None; target_lang := None; dataset_impl := None;
     left_pad_source := "True"; left_pad_target := "False";
     lan_dists := LanDistsNone |}.

(** The command line
    [--lang-pairs pairs --encoder-langtok tgt --sample-tag-prob tag_prob]. *)
Definition command_line_tagged (pairs : string) (tag_prob : F) : RawArgs F :=
  {| opts := options (Some "tgt") false tag_prob "0.0";
     lang_pairs := Some pairs; eval_lang_pairs := None;
     source_lang := None; target_lang := None; dataset_impl := None;
     left_pad_source := "True"; left_pad_target := "False";
     lan_dists := LanDistsNone |}.

(** A criterion that reports each batch's recorded loss. *)
Definition bt_criterion (load : string -> result Dictionary) (files : list string)
    (build : heap -> Args F -> Task F string -> result (Model string))
  : @Bt.criterion_t F (env load files build) :=
  fun _ v _ _ _ =>
    match v with
    | PBatch b => Ok (batch_loss b, f1, "log", f0, f0)
    | _ => Raise TypeError
    end.

Definition criterion (load : string -> result Dictionary) (files : list string)
    (build : heap -> Args F -> Task F string -> result (Model string))
  : @Multilingual.criterion_t F (env load files build) :=
  fun _ v _ _ =>
    match v with
    | PBatch b => Ok (batch_loss b, f1, "log", f0)
    | _ => Raise TypeError
    end.

End World.
Arguments batch : clear implicits.

End Demo.

(** ** Reference notions for the statements *)

(** The tokens of a schedule text: its comma-separated parts, each cut
    at its colons. *)
Definition tokens (x : string) : list (list string) :=
  map (Py.split ":") (Py.split "," x).

Fixpoint strictly_increasing (l : list Z) : bool :=
  match l with
  | a :: ((b :: _) as l') => (a <? b) && strictly_increasing l'
  | _ => true
  end.

(** The first two tokens of a part. *)
Definition to_pair (p : list string) : string * string :=
  (hd "" p, hd "" (tl p)).

(** The step tokens and the value tokens of a schedule text, part by
    part. *)
Definition step_tokens (x : string) : list string := map fst (map to_pair (tokens x)).

Definition value_tokens (x : string) : list string := map snd (map to_pair (tokens x)).

(** Every part of a schedule text is a [step:value] pair. *)
Definition all_pairs (x : string) : bool :=
  forallb (fun p => Nat.eqb (List.length p) 2) (tokens x).

(** The value on the line through [(x_a, y_a)] and [(x_b, y_b)] at
    [n], computed as Python computes
    [y_a + (n - x_a) * float(y_b - y_a) / float(x_b - x_a)]. *)
Definition linear_interpolation {F : Type} {PF : PyFloat F}
    (x_a : Z) (y_a : F) (x_b : Z) (y_b : F) (n : Z) : result F :=
  dx <- float_of_int (n - x_a) ;;
  den <- float_of_int (x_b - x_a) ;;
  q <- truediv (fmul dx (fsub y_b y_a)) den ;;
  Ok (fadd y_a q).

(** The line through [(x_a, y_a)] and [(x_b, y_b)], at [n], over the
    rationals: the linear interpolation of the two checkpoints. *)
Definition line (x_a : Z) (y_a : Qc) (x_b : Z) (y_b : Qc) (n : Z) : Qc :=
  (y_a + (y_b - y_a) * (Q2Qc (inject_Z (n - x_a)) / Q2Qc (inject_Z (x_b - x_a))))%Qc.




(** ** Runs of the concrete world *)

Module Run.
Import Demo.

(** The world with every file present and a multi-model builder. *)
Definition world : Env float := env load_same files_all multi_model_builder.

(** A batch of five examples with the given loss. *)
Definition batch_with (loss : float) : pyval (batch float) :=
  PBatch {| batch_size := 5; batch_loss := loss; batch_sentences := 2 |}.

(** A batch with no example. *)
Definition empty_batch : pyval (batch float) :=
  PBatch {| batch_size := 0; batch_loss := 0%float; batch_sentences := 0 |}.


(** The world where the English-French parallel files are missing. *)
Definition partial_world : Env float :=
  env load_same files_en_de multi_model_builder.

(** The world where the French monolingual file is missing. *)
Definition no_mono_world : Env float :=
  env load_same
    ["data/train.en-de.en"; "data/train.en-de.de"; "data/train.en-fr.en";
     "data/train.en-fr.fr"; "data/train.de-None.de"]
    multi_model_builder.

(** The value of a computation that is known to return. *)
Definition get_ok {A : Type} (r : result A) : is_ok r = true -> A :=
  match r as r' return is_ok r' = true -> A with
  | Ok a => fun _ => a
  | Raise _ => fun H => False_rect A (Bool.diff_false_true H)
  end.

(** The task and heap that [setup_task] returns for [--lang-pairs en-de]. *)
Definition en_de : @Bt.BtTask float world * heap :=
  get_ok (Bt.setup_task (E := world) (command_line "en-de" None "0.0") []) eq_refl.

(** [build_model] on it, with the task's own arguments. *)
Definition en_de_built
  : result (Model string) * @Bt.BtTask float world * heap :=
  Bt.build_model (fst en_de) (snd en_de) (args (Bt.base (fst en_de))).




(** The multilingual task and heap for
    [--lang-pairs en-de,en-fr --encoder-langtok tgt --sample-tag-prob 0.25]. *)
Definition tagged : Task float string * heap :=
  get_ok (Multilingual.setup_task (E := world)
            (command_line_tagged "en-de,en-fr" 0.25%float) []) eq_refl.





(** [setup_task] then [build_model] with the task's own arguments. *)
Definition built (E : Env float) (raw : RawArgs float)
  : result (Model (@SubModel float E) * @Bt.BtTask float E * heap) :=
  '(t, h) <- Bt.setup_task raw [] ;;
  match Bt.build_model t h (args (Bt.base t)) with
  | (Ok m, t, h) => Ok (m, t, h)
  | (Raise e, _, _) => Raise e
  end.

(** [load_dataset("train")] on the built [en_de] task. *)
Definition en_de_loaded : result (@Bt.BtTask float world) :=
  Bt.load_dataset (snd (fst en_de_built)) (snd en_de_built) "train" 0.

(** The keys of the composite dataset that [load_dataset] stores for a
    split, after [setup_task] and [build_model]. *)
Definition bt_loaded (E : Env float) (raw : RawArgs float) (split : string)
  : result (list string) :=
  '(m, t, h) <- built E raw ;;
  t' <- Bt.load_dataset t h split 0 ;;
  match dict_find (task_datasets (Bt.base t')) split with
  | Some (RoundRobinZipDatasets entries _) => Ok (dict_keys entries)
  | _ => Ok []
  end.

(** The back-translation weight the schedule gives at update [step]. *)
Definition scheduled_otf_bt (raw : RawArgs float) (step : Z) : result float :=
  '(m, t, h) <- built world raw ;;
  t <- Bt.update_step t step ;;
  Ok (lambda_otf_bt (Bt.lambdas t)).

(** One training step after [update_step(step)]: the totals returned. *)
Definition bt_step_at (raw : RawArgs float) (step : Z) (sample : dict (pyval (batch float)))
  : result (@Totals float world) :=
  '(m, t, h) <- built world raw ;;
  t <- Bt.update_step t step ;;
  '(totals, _) <- Bt.train_step t h sample m
                    (bt_criterion load_same files_all multi_model_builder) false ;;
  Ok totals.

(** One training step of the multilingual task. *)
Definition multilingual_step (raw : RawArgs float) (sample : dict (pyval (batch float)))
  : result (@Totals float world) :=
  '(t, h) <- Multilingual.setup_task (E := world) raw [] ;;
  m <- Multilingual.build_model t h (args t) ;;
  '(totals, _, _) <- Multilingual.train_step t h sample m
                       (criterion load_same files_all multi_model_builder)
                       false None None None ;;
  Ok totals.

(** One validation step of the multilingual task. *)
Definition multilingual_valid (raw : RawArgs float) (sample : dict (pyval (batch float)))
  : result (@Totals float world) :=
  '(t, h) <- Multilingual.setup_task (E := world) raw [] ;;
  m <- Multilingual.build_model t h (args t) ;;
  Multilingual.valid_step t h sample m
    (criterion load_same files_all multi_model_builder).





End Run.




Section Presence.
Context {F : Type} {E : Env F}.

(** A pair has nothing to do in a batch when it is absent from it, maps
    to [None], or has an empty example set. *)
Definition nothing_to_do (sample : dict value) (lang_pair : string) : bool :=
  match dict_find sample lang_pair with
  | None => true
  | Some PNone => true
  | Some (PBatch b) => Nat.eqb (batch_len b) 0
  | Some (PTuple items) => Nat.eqb (List.length items) 0
  end.

(** The pairs of a list that have something to do. *)
Definition present (sample : dict value) (pairs : list string) : list string :=
  filter (fun lang_pair => negb (nothing_to_do sample lang_pair)) pairs.



End Presence.

Section Files.
Context {U : Interpreter} {F : Type} {PF : PyFloat F} {E : Env F}.

(** The data directory [load_dataset] reads at an epoch. *)
Definition data_path_of (self : Bt.BtTask) (epoch : Z) : string :=
  let paths := Py.split ":" (data (opts (args (Bt.base self)))) in
  nth (Z.to_nat (epoch mod Z.of_nat (List.length paths))) paths "".

(** A pair has parallel files for a split, under the [(src, tgt)] naming
    or under the [(tgt, src)] naming. *)
Definition has_parallel (self : Bt.BtTask) (data_path split lang_pair : string) : bool :=
  match Py.split "-" lang_pair with
  | [src; tgt] =>
      (Bt.split_exists self data_path split (Some src) (Some tgt) (Some src)
       || Bt.split_exists self data_path split (Some tgt) (Some src) (Some src))%bool
  | _ => false
  end.

(** The prefix of a pair's parallel files: the [(src, tgt)] naming when
    its source file exists, otherwise the [(tgt, src)] naming when that
    one exists. *)
Definition parallel_prefix (self : Bt.BtTask) (data_path split src tgt : string)
  : option string :=
  if Bt.split_exists self data_path split (Some src) (Some tgt) (Some src) then
    Some (os_path_join data_path (split ++ "." ++ src ++ "-" ++ tgt ++ "."))
  else if Bt.split_exists self data_path split (Some tgt) (Some src) (Some src) then
    Some (os_path_join data_path (split ++ "." ++ tgt ++ "-" ++ src ++ "."))
  else None.

(** A pair's target language has its monolingual file
    [{split}.{tgt}-None.{tgt}]. *)
Definition has_monolingual (self : Bt.BtTask) (data_path split lang_pair : string) : bool :=
  match Py.split "-" lang_pair with
  | [src; tgt] => Bt.split_exists self data_path split (Some tgt) None (Some tgt)
  | _ => false
  end.

(** A pair is of the form [src-tgt]. *)
Definition well_formed (lang_pair : string) : Prop :=
  exists src tgt, Py.split "-" lang_pair = [src; tgt].

(** The language tokens that [load_dataset] looks up for a pair are in
    the dictionaries: with an encoder token mode, the encoder tokens of
    the pair in both directions; with the decoder token flag, the decoder
    token of the target. *)
Definition tokens_known (self : Bt.BtTask) (lang_pair : string) : Prop :=
  forall src tgt, Py.split "-" lang_pair = [src; tgt] ->
    (encoder_langtok (opts (args (Bt.base self))) <> None ->
     (exists tok, Multilingual.get_encoder_langtok (Bt.base self) (Some src) (Some tgt)
                  = Ok tok)
     /\ (exists tok, Multilingual.get_encoder_langtok (Bt.base self) (Some tgt) (Some src)
                     = Ok tok))
    /\ (decoder_langtok (opts (args (Bt.base self))) = true ->
        exists tok, Multilingual.get_decoder_langtok (Bt.base self) (Some tgt) = Ok tok).

(** What the parallel loop of [load_dataset] needs of a configured pair:
    it is well formed, and the languages of a pair that has parallel files
    have dictionaries. *)
Definition readable (self : Bt.BtTask) (data_path split lang_pair : string) : Prop :=
  exists src tgt,
    Py.split "-" lang_pair = [src; tgt]
    /\ (has_parallel self data_path split lang_pair = true ->
        dict_find (dicts (Bt.base self)) src <> None
        /\ dict_find (dicts (Bt.base self)) tgt <> None).

(** What [load_dataset] needs of a configured pair on a training split:
    its parallel files, its monolingual file, the dictionaries of its two
    languages, its closure and its language tokens. *)
Definition trainable (self : Bt.BtTask) (data_path split lang_pair : string) : Prop :=
  exists src tgt,
    Py.split "-" lang_pair = [src; tgt]
    /\ has_parallel self data_path split lang_pair = true
    /\ has_monolingual self data_path split lang_pair = true
    /\ dict_find (dicts (Bt.base self)) src <> None
    /\ dict_find (dicts (Bt.base self)) tgt <> None
    /\ dict_find (Bt.backtranslators self) lang_pair <> None
    /\ tokens_known self lang_pair.

(** What [build_model] needs of a configured pair to make its closure:
    the dictionary and the decoder token of the source language, and the
    sub-model of the reverse pair. *)
Definition closable (self : Bt.BtTask) (models : dict SubModel) (lang_pair : string)
  : Prop :=
  exists src tgt src_dict tok m,
    Py.split "-" lang_pair = [src; tgt]
    /\ dict_find (dicts (Bt.base self)) src = Some src_dict
    /\ Multilingual.get_decoder_langtok (Bt.base self) (Some src) = Ok tok
    /\ dict_find models (tgt ++ "-" ++ src) = Some m.

End Files.

(** The generator and the closure that the last loop of the
    back-translation [build_model] makes for a pair. *)
Definition closure_of {F : Type} {PF : PyFloat F} {E : Env F}
    (t : Task F SubModel) (a : Args F) (models : dict SubModel)
    (lang_pair : string) (fn : Backtranslator F SubModel) : Prop :=
  exists src tgt src_dict,
    Py.split "-" lang_pair = [src; tgt]
    /\ dict_find (dicts t) src = Some src_dict
    /\ dict_find models (tgt ++ "-" ++ src) = Some (bt_model fn)
    /\ Multilingual.get_decoder_langtok t (Some src) = Ok (bt_bos_token fn)
    /\ bt_sequence_generator fn
       = {| sg_tgt_dict := src_dict; sg_beam_size := bt_beam_size (opts a);
            sg_max_len_a := bt_max_len_a (opts a);
            sg_max_len_b := bt_max_len_b (opts a) |}.

(** The monolingual dataset of a pair's target language: the file
    [{split}.{tgt}-None.{tgt}] read with the target dictionary. *)
Definition monolingual_dataset {F : Type} {PF : PyFloat F} {E : Env F}
    (self : Bt.BtTask) (data_path split tgt : string) (tgt_dict : Dictionary)
  : dataset F SubModel :=
  LanguagePairDataset
    (IndexedData (os_path_join data_path (split ++ "." ++ tgt ++ "-None." ++ tgt)) tgt_dict)
    tgt_dict None None
    (left_pad_source (args (Bt.base self))) (left_pad_target (args (Bt.base self)))
    None.

(** The entry [entries["bt:" + lang_pair]] wraps the monolingual dataset
    of the pair's target language, tagged by [alter_dataset_langtok],
    with the closure [self.backtranslators[lang_pair]]. *)
Definition backtranslation_entry {F : Type} {PF : PyFloat F} {E : Env F}
    (self : Bt.BtTask) (data_path split lang_pair : string)
    (entries : dict (dataset F SubModel)) : Prop :=
  exists src tgt src_dict tgt_dict tgt_dataset fn collater,
    Py.split "-" lang_pair = [src; tgt]
    /\ dict_find (dicts (Bt.base self)) src = Some src_dict
    /\ dict_find (dicts (Bt.base self)) tgt = Some tgt_dict
    /\ Multilingual.alter_dataset_langtok (Bt.base self)
         (monolingual_dataset self data_path split tgt tgt_dict)
         (Some (eos tgt_dict)) (Some tgt) None (Some src) [] "train" = Ok tgt_dataset
    /\ dict_find (Bt.backtranslators self) lang_pair = Some fn
    /\ dict_find entries ("bt:" ++ lang_pair)
       = Some (BacktranslationDataset tgt_dataset fn src_dict tgt_dict collater).

(* ===================================================================== *)
(** * Part II: properties *)
(* ===================================================================== *)

(** ** The runtime *)

Lemma bind_ok {A B : Type} (c : result A) (k : A -> result B) (b : B) :
  bind c k = Ok b -> exists a, c = Ok a /\ k a = Ok b.
Proof.
  destruct c as [a | e]; simpl; intros H.
  - exists a. split; [reflexivity | exact H].
  - discriminate H.
Qed.

Lemma assert_ok (b : bool) (u : unit) : assert_ b = Ok u -> b = true.
Proof. destruct b; simpl; [reflexivity | discriminate]. Qed.

(** Takes apart a hypothesis [bind c k = Ok b]. *)
Tactic Notation "inv_bind" hyp(H) :=
  let a := fresh "a" in
  let Ha := fresh "Ha" in
  apply bind_ok in H; destruct H as [a [Ha H]].

Tactic Notation "inv_bind" hyp(H) "as" simple_intropattern(a) ident(Ha) :=
  apply bind_ok in H; destruct H as [a [Ha H]].

Lemma mapM_ok_length {A B : Type} (f : A -> result B) (l : list A) (r : list B) :
  mapM f l = Ok r -> List.length r = List.length l.
Proof.
  revert r. induction l as [| a l IH]; simpl; intros r H.
  - injection H as <-. reflexivity.
  - inv_bind H. inv_bind H. injection H as <-. simpl. f_equal. apply IH. assumption.
Qed.

Lemma mapM_ok_nth {A B : Type} (f : A -> result B) (l : list A) (r : list B) :
  mapM f l = Ok r ->
  forall i a, nth_error l i = Some a -> exists b, nth_error r i = Some b /\ f a = Ok b.
Proof.
  revert r. induction l as [| x l IH]; simpl; intros r H i a Hi.
  - destruct i; discriminate Hi.
  - inv_bind H. inv_bind H. injection H as <-.
    destruct i as [| i]; simpl in *.
    + injection Hi as <-. eauto.
    + eapply IH; eauto.
Qed.


Lemma mapM_total {A B : Type} (f : A -> result B) (g : A -> B) (l : list A) :
  (forall a, In a l -> f a = Ok (g a)) -> mapM f l = Ok (map g l).
Proof.
  induction l as [| x l IH]; simpl; intros H.
  - reflexivity.
  - rewrite (H x (or_introl eq_refl)). simpl. rewrite IH by auto. reflexivity.
Qed.

Lemma split_not_nil (sep : ascii) (s : string) : Py.split sep s <> [].
Proof.
  destruct s as [| c s]; simpl.
  - discriminate.
  - destruct (Ascii.eqb c sep); [discriminate |].
    destruct (Py.split sep s); discriminate.
Qed.

(** ** Lambda schedules *)

Lemma split_one (sep : ascii) (s : string) :
  List.length (Py.split sep s) = 1%nat <-> contains_char sep s = false.
Proof.
  induction s as [| c s IH]; simpl.
  - tauto.
  - pose proof (split_not_nil sep s) as Hn.
    rewrite (Ascii.eqb_sym sep c).
    destruct (Ascii.eqb c sep); simpl.
    + destruct (Py.split sep s); [congruence |]. simpl. split; [lia | discriminate].
    + destruct (Py.split sep s) as [| hd tl]; [congruence |]. simpl in *. exact IH.
Qed.

Section LambdaFacts.
Context {U : Interpreter} {F : Type} {PF : PyFloat F}.

Lemma unpack2_pairs (parts : list (list string)) :
  forallb (fun s => Nat.eqb (List.length s) 2) parts = true ->
  mapM unpack2 parts = Ok (map to_pair parts).
Proof.
  intros H. apply mapM_total. intros p Hp.
  rewrite forallb_forall in H. specialize (H p Hp).
  destruct p as [| k [| v [| w p]]]; try discriminate H. reflexivity.
Qed.

(** The check of the steps compares the numbers of the step tokens. *)
Lemma steps_increasing_ints (pairs : list (string * string)) (steps : list Z) :
  mapM int_of_str (map fst pairs) = Ok steps ->
  steps_increasing pairs = Ok (strictly_increasing steps).
Proof.
  revert steps. induction pairs as [| [k1 v1] pairs IH]; intros steps H.
  - simpl in H. injection H as <-. reflexivity.
  - destruct pairs as [| [k2 v2] pairs'].
    + simpl in H. inv_bind H as a Ha. injection H as <-. reflexivity.
    + cbn [map mapM fst] in H. inv_bind H as a Ha. inv_bind H as rest Hrest.
      injection H as <-.
      specialize (IH rest Hrest).
      pose proof Hrest as Hb. cbn [map mapM fst] in Hb.
      inv_bind Hb as b Hb'. inv_bind Hb as rest' Hrest'. injection Hb as <-.
      change (steps_increasing ((k1, v1) :: (k2, v2) :: pairs'))
        with (a <- int_of_str k1 ;;
              b <- int_of_str k2 ;;
              if a <? b then steps_increasing ((k2, v2) :: pairs') else Ok false).
      rewrite Ha, Hb'. cbn [bind]. rewrite IH.
      change (strictly_increasing (a :: b :: rest'))
        with ((a <? b) && strictly_increasing (b :: rest'))%bool.
      destruct (a <? b); reflexivity.
Qed.

(** A check that passes has turned every step token into a number. *)
Lemma steps_increasing_true (pairs : list (string * string)) :
  (2 <= List.length pairs)%nat ->
  steps_increasing pairs = Ok true ->
  exists steps,
    mapM int_of_str (map fst pairs) = Ok steps /\ strictly_increasing steps = true.
Proof.
  induction pairs as [| [k1 v1] pairs IH]; intros Hlen H.
  - simpl in Hlen. lia.
  - destruct pairs as [| [k2 v2] pairs']; [simpl in Hlen; lia |].
    change (steps_increasing ((k1, v1) :: (k2, v2) :: pairs'))
      with (a <- int_of_str k1 ;;
            b <- int_of_str k2 ;;
            if a <? b then steps_increasing ((k2, v2) :: pairs') else Ok false) in H.
    inv_bind H as a Ha. inv_bind H as b Hb.
    destruct (a <? b) eqn:Hab; [| discriminate H].
    destruct pairs' as [| kv3 pairs''].
    + exists [a; b]. cbn [map mapM fst]. rewrite Ha, Hb. cbn [bind].
      split; [reflexivity |]. simpl. rewrite Hab. reflexivity.
    + destruct (IH ltac:(simpl; lia) H) as [steps [Hsteps Hinc]].
      pose proof Hsteps as Hs. cbn [map mapM fst] in Hs.
      inv_bind Hs as b' Hb'. inv_bind Hs as rest Hrest. injection Hs as <-.
      rewrite Hb in Hb'. injection Hb' as <-.
      exists (a :: b :: rest). split.
      * cbn [map mapM fst]. rewrite Ha. cbn [bind].
        cbn [map mapM fst] in Hsteps. rewrite Hsteps. reflexivity.
      * change (strictly_increasing (a :: b :: rest))
          with ((a <? b) && strictly_increasing (b :: rest))%bool.
        rewrite Hab, Hinc. reflexivity.
Qed.

(** A check that finds a step token that is no number does not pass. *)
Lemma steps_increasing_fail (pairs : list (string * string)) (e : exn) :
  (2 <= List.length pairs)%nat ->
  mapM int_of_str (map fst pairs) = Raise e ->
  steps_increasing pairs <> Ok true.
Proof.
  intros Hlen Hfail Htrue.
  destruct (steps_increasing_true pairs Hlen Htrue) as [steps [Hsteps _]].
  congruence.
Qed.

(** The checkpoints are the numbers of the step tokens with the floats
    of the value tokens. *)
Lemma config_ok (pairs : list (string * string)) (steps : list Z) (values : list F) :
  mapM int_of_str (map fst pairs) = Ok steps ->
  mapM float_of_str (map snd pairs) = Ok values ->
  mapM (fun kv => k <- int_of_str (fst kv) ;; v <- float_of_str (snd kv) ;; Ok (k, v)) pairs
  = Ok (combine steps values).
Proof.
  revert steps values. induction pairs as [| [k v] pairs IH]; intros steps values Hs Hv.
  - simpl in Hs, Hv. injection Hs as <-. injection Hv as <-. reflexivity.
  - cbn [map mapM fst snd] in Hs, Hv |- *.
    inv_bind Hs as a Ha. inv_bind Hs as steps' Hsteps'. injection Hs as <-.
    inv_bind Hv as y Hy. inv_bind Hv as values' Hvalues'. injection Hv as <-.
    rewrite Ha, Hy. cbn [bind]. rewrite (IH _ _ Hsteps' Hvalues'). reflexivity.
Qed.

Lemma config_float_fail (pairs : list (string * string)) (steps : list Z) (e : exn) :
  mapM int_of_str (map fst pairs) = Ok steps ->
  mapM float_of_str (map snd pairs) = Raise e ->
  mapM (fun kv => k <- int_of_str (fst kv) ;; v <- float_of_str (snd kv) ;; Ok (k, v)) pairs
  = Raise e.
Proof.
  revert steps. induction pairs as [| [k v] pairs IH]; intros steps Hs Hv.
  - discriminate Hv.
  - cbn [map mapM fst snd] in Hs, Hv |- *.
    inv_bind Hs as a Ha. inv_bind Hs as steps' Hsteps'. injection Hs as <-.
    rewrite Ha. cbn [bind].
    destruct (float_of_str v) as [y | e']; cbn [bind] in Hv |- *.
    + rewrite (IH _ Hsteps'); [reflexivity |].
      destruct (mapM float_of_str (map snd pairs)); [discriminate Hv | exact Hv].
    + injection Hv as ->. reflexivity.
Qed.

Lemma config_inv (pairs : list (string * string)) (config : list (Z * F)) :
  mapM (fun kv => k <- int_of_str (fst kv) ;; v <- float_of_str (snd kv) ;; Ok (k, v)) pairs
  = Ok config ->
  mapM int_of_str (map fst pairs) = Ok (map fst config)
  /\ mapM float_of_str (map snd pairs) = Ok (map snd config).
Proof.
  revert config. induction pairs as [| [k v] pairs IH]; intros config H.
  - simpl in H. injection H as <-. split; reflexivity.
  - cbn [map mapM fst snd] in H |- *.
    inv_bind H as kv Hkv. inv_bind H as rest Hrest. injection H as <-.
    inv_bind Hkv as a Ha. inv_bind Hkv as y Hy. injection Hkv as <-.
    destruct (IH _ Hrest) as [Hs Hv].
    rewrite Ha, Hy, Hs, Hv. split; reflexivity.
Qed.

Lemma combine_fst_snd {A B : Type} (l : list (A * B)) :
  combine (map fst l) (map snd l) = l.
Proof.
  induction l as [| [a b] l IH]; simpl; [reflexivity | rewrite IH; reflexivity].
Qed.

Lemma forallb_map_fst {A B : Type} (p : A -> bool) (l : list (A * B)) :
  forallb p (map fst l) = forallb (fun kv => p (fst kv)) l.
Proof. induction l as [| a l IH]; simpl; [reflexivity | rewrite IH; reflexivity]. Qed.

Lemma tokens_length (x : string) :
  List.length (map to_pair (tokens x)) = List.length (Py.split "," x).
Proof. unfold tokens. rewrite !length_map. reflexivity. Qed.

Lemma comma_parts (x : string) :
  contains_char "," x = true -> (2 <= List.length (Py.split "," x))%nat.
Proof.
  intros H. pose proof (split_one "," x) as H1. pose proof (split_not_nil "," x) as Hn.
  destruct (Py.split "," x) as [| a [| b l]]; simpl in *; try lia; try congruence.
  destruct H1 as [H1 _]. rewrite H1 in H by reflexivity. discriminate H.
Qed.

(** A text without a comma is read as one float. *)
Lemma parse_lambda_config_constant (x : string) :
  contains_char "," x = false ->
  parse_lambda_config (F := F) x = (v <- float_of_str x ;; Ok (v, None)).
Proof.
  intros H. unfold parse_lambda_config.
  apply (split_one "," x) in H. rewrite H. reflexivity.
Qed.

(** What the function does on a text with a comma, once the three
    assertions are unfolded over the tokens. *)
Lemma parse_lambda_config_list (x : string) :
  contains_char "," x = true ->
  parse_lambda_config (F := F) x
  = (assert_ (all_pairs x) ;;;
     assert_ (forallb isdigit (step_tokens x)) ;;;
     inc <- steps_increasing (map to_pair (tokens x)) ;;
     assert_ inc ;;;
     first <- list_get (map to_pair (tokens x)) 0 ;;
     init <- float_of_str (snd first) ;;
     config <- mapM (fun kv =>
                       k <- int_of_str (fst kv) ;;
                       v <- float_of_str (snd kv) ;;
                       Ok (k, v)) (map to_pair (tokens x)) ;;
     Ok (init, Some config)).
Proof.
  intros H. unfold parse_lambda_config.
  pose proof (comma_parts x H) as Hlen.
  destruct (Nat.eqb_spec (List.length (Py.split "," x)) 1) as [Heq | _]; [lia |].
  fold (tokens x). unfold all_pairs.
  destruct (forallb (fun s => Nat.eqb (List.length s) 2) (tokens x)) eqn:H2;
    [| reflexivity].
  cbn [assert_ bind]. rewrite (unpack2_pairs _ H2). cbn [bind].
  unfold step_tokens. rewrite forallb_map_fst. reflexivity.
Qed.

(** A well-formed list gives its checkpoints. *)
Lemma parse_lambda_config_checkpoints (x : string) (steps : list Z) (values : list F) :
  contains_char "," x = true ->
  all_pairs x = true ->
  forallb isdigit (step_tokens x) = true ->
  mapM int_of_str (step_tokens x) = Ok steps ->
  strictly_increasing steps = true ->
  mapM float_of_str (value_tokens x) = Ok values ->
  parse_lambda_config x = Ok (hd f0 values, Some (combine steps values)).
Proof.
  intros Hc Hp Hd Hs Hinc Hv. rewrite (parse_lambda_config_list x Hc).
  rewrite Hp, Hd. cbn [assert_ bind].
  unfold step_tokens in Hs. unfold value_tokens in Hv.
  rewrite (steps_increasing_ints _ _ Hs), Hinc. cbn [assert_ bind].
  rewrite (config_ok _ _ _ Hs Hv).
  pose proof (comma_parts x Hc) as Hlen. rewrite <- tokens_length in Hlen.
  destruct (map to_pair (tokens x)) as [| [k0 v0] pairs]; [simpl in Hlen; lia |].
  cbn [list_get nth_error bind snd]. cbn [map mapM snd] in Hv.
  inv_bind Hv as y Hy. inv_bind Hv as rest Hrest. injection Hv as <-.
  rewrite Hy. reflexivity.
Qed.

(** The errors of a list. *)
Lemma parse_lambda_config_not_pairs (x : string) :
  contains_char "," x = true ->
  all_pairs x = false ->
  parse_lambda_config (F := F) x = Raise AssertionError.
Proof.
  intros Hc Hp. rewrite (parse_lambda_config_list x Hc), Hp. reflexivity.
Qed.

Lemma parse_lambda_config_not_digits (x : string) :
  contains_char "," x = true ->
  all_pairs x = true ->
  forallb isdigit (step_tokens x) = false ->
  parse_lambda_config (F := F) x = Raise AssertionError.
Proof.
  intros Hc Hp Hd. rewrite (parse_lambda_config_list x Hc), Hp, Hd. reflexivity.
Qed.

Lemma parse_lambda_config_not_increasing (x : string) (steps : list Z) :
  contains_char "," x = true ->
  all_pairs x = true ->
  forallb isdigit (step_tokens x) = true ->
  mapM int_of_str (step_tokens x) = Ok steps ->
  strictly_increasing steps = false ->
  parse_lambda_config (F := F) x = Raise AssertionError.
Proof.
  intros Hc Hp Hd Hs Hinc. rewrite (parse_lambda_config_list x Hc), Hp, Hd.
  cbn [assert_ bind]. unfold step_tokens in Hs.
  rewrite (steps_increasing_ints _ _ Hs), Hinc. reflexivity.
Qed.

Lemma parse_lambda_config_not_numbers (x : string) (e : exn) :
  contains_char "," x = true ->
  mapM int_of_str (step_tokens x) = Raise e ->
  raises (parse_lambda_config (F := F) x).
Proof.
  intros Hc Hs. rewrite (parse_lambda_config_list x Hc).
  destruct (all_pairs x); [| eexists; reflexivity].
  destruct (forallb isdigit (step_tokens x)); [| eexists; reflexivity].
  cbn [assert_ bind].
  pose proof (comma_parts x Hc) as Hlen. rewrite <- tokens_length in Hlen.
  pose proof (steps_increasing_fail _ e Hlen Hs) as Hnot.
  destruct (steps_increasing (map to_pair (tokens x))) as [[|] | e'];
    [congruence | |]; eexists; reflexivity.
Qed.

Lemma parse_lambda_config_bad_value (x : string) (steps : list Z) (e : exn) :
  contains_char "," x = true ->
  all_pairs x = true ->
  forallb isdigit (step_tokens x) = true ->
  mapM int_of_str (step_tokens x) = Ok steps ->
  strictly_increasing steps = true ->
  mapM float_of_str (value_tokens x) = Raise e ->
  parse_lambda_config (F := F) x = Raise e.
Proof.
  intros Hc Hp Hd Hs Hinc Hv. rewrite (parse_lambda_config_list x Hc), Hp, Hd.
  cbn [assert_ bind]. unfold step_tokens in Hs. unfold value_tokens in Hv.
  rewrite (steps_increasing_ints _ _ Hs), Hinc. cbn [assert_ bind].
  rewrite (config_float_fail _ _ _ Hs Hv).
  pose proof (comma_parts x Hc) as Hlen. rewrite <- tokens_length in Hlen.
  destruct (map to_pair (tokens x)) as [| [k0 v0] pairs]; [simpl in Hlen; lia |].
  cbn [list_get nth_error bind snd]. cbn [map mapM snd] in Hv.
  destruct (float_of_str v0) as [y | e0]; cbn [bind] in Hv |- *.
  - reflexivity.
  - injection Hv as ->. reflexivity.
Qed.

(** What a returned result says of the text. *)
Lemma parse_lambda_config_returns (x : string) (init : F) (sched : option schedule) :
  parse_lambda_config x = Ok (init, sched) ->
  match sched with
  | None => contains_char "," x = false /\ float_of_str x = Ok init
  | Some config =>
      contains_char "," x = true
      /\ all_pairs x = true
      /\ forallb isdigit (step_tokens x) = true
      /\ mapM int_of_str (step_tokens x) = Ok (map fst config)
      /\ strictly_increasing (map fst config) = true
      /\ mapM float_of_str (value_tokens x) = Ok (map snd config)
      /\ exists k0, hd_error config = Some (k0, init)
  end.
Proof.
  intros H. destruct (contains_char "," x) eqn:Hc.
  - rewrite (parse_lambda_config_list x Hc) in H.
    inv_bind H as u1 H1. apply assert_ok in H1.
    inv_bind H as u2 H2. apply assert_ok in H2.
    inv_bind H as inc Hinc. inv_bind H as u3 H3. apply assert_ok in H3. subst inc.
    inv_bind H as first Hfirst. inv_bind H as v0 Hv0. inv_bind H as config Hconfig.
    injection H as <- <-.
    destruct (config_inv _ _ Hconfig) as [Hs Hv].
    split; [reflexivity |]. split; [exact H1 |]. split; [exact H2 |].
    split; [exact Hs |]. split.
    { pose proof (steps_increasing_ints _ _ Hs) as Hi. rewrite Hinc in Hi.
      injection Hi as <-. reflexivity. }
    split; [exact Hv |].
    destruct (map to_pair (tokens x)) as [| [k0 w0] pairs]; [discriminate Hfirst |].
    cbn [list_get nth_error] in Hfirst. injection Hfirst as <-. cbn [snd] in Hv0.
    cbn [mapM fst snd] in Hconfig.
    inv_bind Hconfig as kv Hkv. inv_bind Hconfig as rest Hrest. injection Hconfig as <-.
    inv_bind Hkv as a Ha. inv_bind Hkv as y Hy. injection Hkv as <-.
    rewrite Hv0 in Hy. injection Hy as <-. exists a. reflexivity.
  - rewrite (parse_lambda_config_constant x Hc) in H.
    inv_bind H as v Hv. injection H as <- <-. split; [reflexivity | exact Hv].
Qed.

(** On ASCII text a step token is a number when it is a non-empty run
    of the digits 0 to 9, and its value is the decimal one. *)
Lemma isdigit_ascii (k : string) :
  is_ascii k = true ->
  isdigit k = match k with EmptyString => false | _ => all_digits k end.
Proof. intros H. unfold isdigit. rewrite H. reflexivity. Qed.

Lemma is_digit_not_space (c : ascii) : is_digit c = true -> FloatLiteral.is_space c = false.
Proof.
  unfold is_digit, FloatLiteral.is_space. intros H.
  apply andb_prop in H as [H1 H2]. apply Nat.leb_le in H1. apply Nat.leb_le in H2.
  apply orb_false_intro.
  - apply andb_false_intro2. apply Nat.leb_gt. lia.
  - apply Nat.eqb_neq. lia.
Qed.

Lemma is_digit_not_sign (c : ascii) :
  is_digit c = true -> Ascii.eqb c "-" = false /\ Ascii.eqb c "+" = false.
Proof.
  unfold is_digit. intros H.
  apply andb_prop in H as [H1 H2]. apply Nat.leb_le in H1. apply Nat.leb_le in H2.
  split; apply Ascii.eqb_neq; intros ->; cbn in H1; lia.
Qed.

Lemma all_digits_list (s : string) :
  all_digits s = forallb is_digit (list_ascii_of_string s).
Proof. induction s as [| c s IH]; [reflexivity |]. cbn. rewrite IH. reflexivity. Qed.

Lemma lstrip_digit (l : list ascii) :
  match l with c :: _ => is_digit c = true | [] => True end -> FloatLiteral.lstrip l = l.
Proof.
  destruct l as [| c l]; [reflexivity |]. intros H. cbn [FloatLiteral.lstrip].
  rewrite (is_digit_not_space c H). reflexivity.
Qed.

Lemma strip_digits (l : list ascii) :
  forallb is_digit l = true -> FloatLiteral.strip l = l.
Proof.
  intros H. unfold FloatLiteral.strip.
  rewrite (lstrip_digit l).
  - rewrite (lstrip_digit (rev l)); [apply rev_involutive |].
    destruct (rev l) as [| c r] eqn:Hr; [exact I |].
    rewrite forallb_forall in H. apply H. apply in_rev. rewrite Hr. left. reflexivity.
  - destruct l as [| c l]; [exact I |]. cbn in H. apply andb_prop in H. apply H.
Qed.

Lemma more_digits_all (l : list ascii) (acc : Z) (n : nat) :
  forallb is_digit l = true ->
  FloatLiteral.more_digits acc n l
  = (digits_value acc (string_of_list_ascii l), (n + List.length l)%nat, []).
Proof.
  revert acc n. induction l as [| c l IH]; intros acc n H.
  - cbn. rewrite Nat.add_0_r. reflexivity.
  - cbn [forallb] in H. apply andb_prop in H as [Hc Hl].
    cbn [FloatLiteral.more_digits]. rewrite Hc. rewrite (IH _ _ Hl).
    cbn [string_of_list_ascii digits_value List.length].
    rewrite Nat.add_succ_r. reflexivity.
Qed.

(** [int] on a non-empty run of the digits 0 to 9: its decimal value,
    unless it is longer than 640 digits and than the interpreter's
    limit. *)
Lemma int_of_str_digits (k : string) :
  is_ascii k = true -> k <> EmptyString -> all_digits k = true ->
  int_of_str k
  = if (Nat.ltb 640 (String.length k)
        && match int_max_str_digits with
           | Some limit => Nat.ltb limit (String.length k)
           | None => false
           end)%bool
    then Raise (ValueError None) else Ok (digits_value 0 k).
Proof.
  intros Ha Hne Hd. unfold int_of_str, ascii_form. rewrite Ha.
  rewrite all_digits_list in Hd. rewrite (strip_digits _ Hd).
  destruct k as [| c k]; [congruence |].
  cbn [list_ascii_of_string forallb] in *. apply andb_prop in Hd as [Hc Hk].
  unfold FloatLiteral.sign. destruct (is_digit_not_sign c Hc) as [-> ->].
  cbn [FloatLiteral.digitpart]. rewrite Hc. rewrite (more_digits_all _ _ _ Hk).
  rewrite string_of_list_ascii_of_string.
  cbn [digits_value String.length Nat.add].
  replace (List.length (list_ascii_of_string k)) with (String.length k).
  - replace (10 * 0 + digit_val c) with (digit_val c) by lia. reflexivity.
  - clear. induction k as [| c k IH]; [reflexivity |]. cbn. rewrite IH. reflexivity.
Qed.

Lemma int_of_str_ascii (k : string) :
  is_ascii k = true -> isdigit k = true -> (String.length k <= 640)%nat ->
  int_of_str k = Ok (digits_value 0 k).
Proof.
  intros Ha Hd Hlen. rewrite (isdigit_ascii k Ha) in Hd.
  rewrite int_of_str_digits.
  - replace (Nat.ltb 640 (String.length k)) with false; [reflexivity |].
    symmetry. apply Nat.ltb_ge. exact Hlen.
  - exact Ha.
  - intros ->. discriminate Hd.
  - destruct k; [discriminate Hd | exact Hd].
Qed.

(** A list whose steps are runs of the digits 0 to 9 that strictly
    increase, and whose values are floats, gives its checkpoints. *)
Lemma parse_lambda_config_ascii (x : string) (values : list F) :
  contains_char "," x = true ->
  all_pairs x = true ->
  (forall k, In k (step_tokens x) ->
     is_ascii k = true /\ k <> EmptyString /\ all_digits k = true
     /\ (String.length k <= 640)%nat) ->
  strictly_increasing (map (digits_value 0) (step_tokens x)) = true ->
  mapM float_of_str (value_tokens x) = Ok values ->
  parse_lambda_config x
  = Ok (hd f0 values, Some (combine (map (digits_value 0) (step_tokens x)) values)).
Proof.
  intros Hc Hp Hk Hinc Hv.
  assert (Hd : forall k, In k (step_tokens x) -> isdigit k = true).
  { intros k Hin. destruct (Hk k Hin) as [Ha [Hne [Hall _]]].
    rewrite (isdigit_ascii k Ha). destruct k; [congruence | exact Hall]. }
  apply parse_lambda_config_checkpoints; try assumption.
  - apply forallb_forall. exact Hd.
  - apply mapM_total. intros k Hin. destruct (Hk k Hin) as [Ha [_ [_ Hlen]]].
    apply int_of_str_ascii; [exact Ha | apply Hd; exact Hin | exact Hlen].
Qed.

End LambdaFacts.

(** C2. [parse_lambda_config] maps a text without a comma to the float
    it spells and [None] ([parse("3")] is [(3.0, None)]); it maps a
    comma-separated list of [step:value] pairs whose steps are numbers that
    strictly increase to the value of the first checkpoint and the list of
    the checkpoints [(int(step), float(value))] ([parse("0:1,1000:0")] is
    [(1.0, [(0, 1.0), (1000, 0.0)])]); for every malformed list (a part that
    is not a pair, a step that is not a number, steps that do not strictly
    increase, a value that is not a float) it raises an error and returns
    nothing; and it returns a schedule for no other text.  On ASCII text a step is a number exactly
    when it is a non-empty run of the digits 0 to 9; [int] reads it as
    its decimal value (numbers of more than 640 digits are subject to the
    interpreter's limit), so that a list of such steps that strictly
    increase, with values that are floats, gives its checkpoints. *)
Theorem parse_lambda_config_contract :
  (forall U : Interpreter, parse_lambda_config (F := float) "3" = Ok (3%float, None))
  /\ (forall U : Interpreter,
        parse_lambda_config (F := float) "0:1,1000:0"
        = Ok (1%float, Some [(0, 1%float); (1000, 0%float)]))
  /\ (forall U : Interpreter,
        parse_lambda_config (F := float) "0:0,1000:0,2000:1"
        = Ok (0%float, Some [(0, 0%float); (1000, 0%float); (2000, 1%float)]))
  /\ (forall (U : Interpreter) (F : Type) (PF : PyFloat F) (x : string),
        contains_char "," x = false ->
        (forall v, float_of_str x = Ok v -> parse_lambda_config (F := F) x = Ok (v, None))
        /\ (forall e, float_of_str x = Raise e ->
                      parse_lambda_config (F := F) x = Raise e))
  /\ (forall (U : Interpreter) (F : Type) (PF : PyFloat F) (x : string)
             (steps : list Z) (values : list F),
        contains_char "," x = true ->
        all_pairs x = true ->
        forallb isdigit (step_tokens x) = true ->
        mapM int_of_str (step_tokens x) = Ok steps ->
        strictly_increasing steps = true ->
        mapM float_of_str (value_tokens x) = Ok values ->
        parse_lambda_config x = Ok (hd f0 values, Some (combine steps values)))
  /\ (forall (U : Interpreter) (F : Type) (PF : PyFloat F) (x : string),
        contains_char "," x = true ->
        all_pairs x = false ->
        parse_lambda_config (F := F) x = Raise AssertionError)
  /\ (forall (U : Interpreter) (F : Type) (PF : PyFloat F) (x : string),
        contains_char "," x = true ->
        all_pairs x = true ->
        forallb isdigit (step_tokens x) = false ->
        parse_lambda_config (F := F) x = Raise AssertionError)
  /\ (forall (U : Interpreter) (F : Type) (PF : PyFloat F) (x : string) (steps : list Z),
        contains_char "," x = true ->
        all_pairs x = true ->
        forallb isdigit (step_tokens x) = true ->
        mapM int_of_str (step_tokens x) = Ok steps ->
        strictly_increasing steps = false ->
        parse_lambda_config (F := F) x = Raise AssertionError)
  /\ (forall (U : Interpreter) (F : Type) (PF : PyFloat F) (x : string) (e : exn),
        contains_char "," x = true ->
        mapM int_of_str (step_tokens x) = Raise e ->
        raises (parse_lambda_config (F := F) x))
  /\ (forall (U : Interpreter) (F : Type) (PF : PyFloat F) (x : string)
             (init : F) (sched : option schedule),
        parse_lambda_config x = Ok (init, sched) ->
        match sched with
        | None => contains_char "," x = false /\ float_of_str x = Ok init
        | Some config =>
            contains_char "," x = true
            /\ all_pairs x = true
            /\ forallb isdigit (step_tokens x) = true
            /\ mapM int_of_str (step_tokens x) = Ok (map fst config)
            /\ strictly_increasing (map fst config) = true
            /\ mapM float_of_str (value_tokens x) = Ok (map snd config)
            /\ exists k0, hd_error config = Some (k0, init)
        end)
  /\ (forall (U : Interpreter) (k : string),
        is_ascii k = true ->
        isdigit k = match k with EmptyString => false | _ => all_digits k end
        /\ (isdigit k = true -> (String.length k <= 640)%nat ->
            int_of_str k = Ok (digits_value 0 k)))
  /\ (forall (U : Interpreter) (F : Type) (PF : PyFloat F) (x : string) (steps : list Z)
             (e : exn),
        contains_char "," x = true ->
        all_pairs x = true ->
        forallb isdigit (step_tokens x) = true ->
        mapM int_of_str (step_tokens x) = Ok steps ->
        strictly_increasing steps = true ->
        mapM float_of_str (value_tokens x) = Raise e ->
        parse_lambda_config (F := F) x = Raise e)
  /\ (forall (U : Interpreter) (F : Type) (PF : PyFloat F) (x : string)
             (values : list F),
        contains_char "," x = true ->
        all_pairs x = true ->
        (forall k, In k (step_tokens x) ->
           is_ascii k = true /\ k <> EmptyString /\ all_digits k = true
           /\ (String.length k <= 640)%nat) ->
        strictly_increasing (map (digits_value 0) (step_tokens x)) = true ->
        mapM float_of_str (value_tokens x) = Ok values ->
        parse_lambda_config x
        = Ok (hd f0 values,
              Some (combine (map (digits_value 0) (step_tokens x)) values))).
Proof.
  split; [intros U; vm_compute; reflexivity |].
  split; [intros U; vm_compute; reflexivity |].
  split; [intros U; vm_compute; reflexivity |].
  split.
  { intros U F PF x Hc. rewrite (parse_lambda_config_constant x Hc).
    split; [intros v -> | intros e ->]; reflexivity. }
  split; [intros; apply parse_lambda_config_checkpoints; assumption |].
  split; [intros; apply parse_lambda_config_not_pairs; assumption |].
  split; [intros; apply parse_lambda_config_not_digits; assumption |].
  split; [intros; eapply parse_lambda_config_not_increasing; eassumption |].
  split; [intros; eapply parse_lambda_config_not_numbers; eassumption |].
  split; [intros; apply parse_lambda_config_returns; assumption |].
  split.
  { intros U k Ha. split; [apply isdigit_ascii; exact Ha |].
    apply int_of_str_ascii. exact Ha. }
  split.
  { intros U F PF x steps e Hc Hp Hd Hs Hinc Hv.
    exact (parse_lambda_config_bad_value x steps e Hc Hp Hd Hs Hinc Hv). }
  intros U F PF x values Hc Hp Hk Hinc Hv.
  exact (parse_lambda_config_ascii x values Hc Hp Hk Hinc Hv).
Qed.

Lemma parse_lambda_config_contract_witness :
  parse_lambda_config (F := float) "5:0.25,10:0.5"
  = Ok (0.25%float, Some [(5, 0.25%float); (10, 0.5%float)])
  /\ parse_lambda_config (F := float) "1,2" = Raise AssertionError
  /\ parse_lambda_config (F := float) "a:1,2:0" = Raise AssertionError
  /\ parse_lambda_config (F := float) "3:1,2:0" = Raise AssertionError
  /\ parse_lambda_config (F := float) "2.5" = Ok (2.5%float, None).
Proof.
  pose proof parse_lambda_config_contract
    as [_ [_ [_ [Hconst [Hlist [Hpairs [Hdigits [Hinc _]]]]]]]].
  split; [| split; [| split; [| split]]].
  - exact (Hlist Demo.interpreter float binary64 "5:0.25,10:0.5" [5; 10]
             [0.25%float; 0.5%float] eq_refl eq_refl eq_refl eq_refl eq_refl eq_refl).
  - exact (Hpairs Demo.interpreter float binary64 "1,2" eq_refl eq_refl).
  - exact (Hdigits Demo.interpreter float binary64 "a:1,2:0" eq_refl eq_refl eq_refl).
  - exact (Hinc Demo.interpreter float binary64 "3:1,2:0" [3; 2]
             eq_refl eq_refl eq_refl eq_refl eq_refl).
  - exact (proj1 (Hconst Demo.interpreter float binary64 "2.5" eq_refl) 2.5%float eq_refl).
Defined.

(** *** Evaluating a schedule *)

Lemma filter_seq_nil (p : nat -> bool) (m start : nat) :
  (forall j, (start <= j < start + m)%nat -> p j = false) ->
  filter p (seq start m) = [].
Proof.
  revert start. induction m as [| m IH]; intros start H; simpl.
  - reflexivity.
  - rewrite (H start) by lia. apply IH. intros j Hj. apply H. lia.
Qed.

Lemma filter_seq_singleton (p : nat -> bool) (m start i : nat) :
  (start <= i < start + m)%nat ->
  p i = true ->
  (forall j, (start <= j < start + m)%nat -> j <> i -> p j = false) ->
  filter p (seq start m) = [i].
Proof.
  revert start. induction m as [| m IH]; intros start Hi Hp H; simpl.
  - lia.
  - destruct (Nat.eq_dec start i) as [-> | Hne].
    + rewrite Hp. f_equal. apply filter_seq_nil. intros j Hj. apply H; lia.
    + rewrite (H start) by lia. apply IH; [lia | assumption |].
      intros j Hj. apply H. lia.
Qed.

Lemma strictly_increasing_nth (l : list Z) :
  strictly_increasing l = true ->
  forall i j a b, (i < j)%nat ->
    nth_error l i = Some a -> nth_error l j = Some b -> a < b.
Proof.
  induction l as [| x l IH]; intros H i j a b Hij Ha Hb.
  - destruct i; discriminate Ha.
  - destruct l as [| y l'].
    + destruct j as [| j]; [lia |]. destruct j; discriminate Hb.
    + change (strictly_increasing (x :: y :: l'))
        with ((x <? y) && strictly_increasing (y :: l'))%bool in H.
      apply andb_prop in H. destruct H as [Hxy H].
      apply Z.ltb_lt in Hxy.
      destruct j as [| j]; [lia |].
      destruct i as [| i].
      * simpl in Ha, Hb. injection Ha as <-.
        destruct j as [| j].
        -- simpl in Hb. injection Hb as <-. exact Hxy.
        -- assert (y < b); [| lia].
           apply (IH H 0%nat (S j) y b); [lia | reflexivity | exact Hb].
      * simpl in Ha, Hb. apply (IH H i j a b); [lia | exact Ha | exact Hb].
Qed.

Lemma list_last_nth {A : Type} (l : list A) (a : A) :
  list_last l = Ok a -> nth_error l (List.length l - 1) = Some a.
Proof.
  induction l as [| x l IH]; intros H.
  - discriminate H.
  - destruct l as [| y l'].
    + simpl in H. injection H as <-. reflexivity.
    + change (list_last (x :: y :: l')) with (list_last (y :: l')) in H.
      specialize (IH H). simpl in IH |- *. rewrite Nat.sub_0_r in IH. exact IH.
Qed.

Section ScheduleFacts.
Context {U : Interpreter} {F : Type} {PF : PyFloat F}.

Lemma nth_error_steps (config : schedule (F := F)) (i : nat) (x : Z) (y : F) :
  nth_error config i = Some (x, y) -> nth_error (map fst config) i = Some x.
Proof. intros H. rewrite nth_error_map, H. reflexivity. Qed.

(** At or beyond the last checkpoint: its value. *)
Lemma lambda_step_func_after (config : schedule) (n : Z) (last : Z * F) :
  strictly_increasing (map fst config) = true ->
  list_last config = Ok last ->
  fst last <= n ->
  lambda_step_func config n = Ok (snd last).
Proof.
  intros Hinc Hlast Hn. unfold lambda_step_func.
  rewrite filter_seq_nil.
  - rewrite Hlast. cbn [bind].
    replace (n >=? fst last) with true by (symmetry; apply Z.geb_le; lia).
    reflexivity.
  - intros j Hj. unfold in_range.
    destruct (nth_error config j) as [[x_a y_a] |] eqn:Ha; [| reflexivity].
    destruct (nth_error config (S j)) as [[x_b y_b] |] eqn:Hb; [| reflexivity].
    assert (x_b <= fst last).
    { pose proof (list_last_nth _ _ Hlast) as Hl. destruct last as [x_l y_l].
      destruct (Nat.eq_dec (S j) (List.length config - 1)) as [Heq | Hne].
      - rewrite Heq in Hb. rewrite Hb in Hl. injection Hl as -> _. simpl. lia.
      - assert (x_b < x_l); [| simpl; lia].
        apply (strictly_increasing_nth _ Hinc (S j) (List.length config - 1)%nat);
          [lia | |]; eapply nth_error_steps; eassumption. }
    replace (n <? x_b) with false by (symmetry; apply Z.ltb_ge; lia).
    apply andb_false_r.
Qed.

(** Inside a bracket: the interpolation of its two checkpoints. *)
Lemma lambda_step_func_between (config : schedule) (n : Z) (i : nat)
    (x_a : Z) (y_a : F) (x_b : Z) (y_b : F) :
  strictly_increasing (map fst config) = true ->
  nth_error config i = Some (x_a, y_a) ->
  nth_error config (S i) = Some (x_b, y_b) ->
  x_a <= n < x_b ->
  lambda_step_func config n = linear_interpolation x_a y_a x_b y_b n.
Proof.
  intros Hinc Ha Hb Hn. unfold lambda_step_func.
  assert (Hlen : (S i < List.length config)%nat).
  { apply nth_error_Some. rewrite Hb. discriminate. }
  rewrite (filter_seq_singleton _ _ 0 i).
  - unfold list_get. rewrite Ha, Hb. reflexivity.
  - lia.
  - unfold in_range. rewrite Ha, Hb.
    apply andb_true_intro. split; [apply Z.leb_le | apply Z.ltb_lt]; lia.
  - intros j Hj Hne. unfold in_range.
    destruct (nth_error config j) as [[x_c y_c] |] eqn:Hc; [| reflexivity].
    destruct (nth_error config (S j)) as [[x_d y_d] |] eqn:Hd; [| reflexivity].
    destruct (Nat.lt_ge_cases j i) as [Hlt | Hge].
    + assert (x_d <= x_a).
      { destruct (Nat.eq_dec (S j) i) as [Heq | Hne'].
        - rewrite Heq in Hd. rewrite Hd in Ha. injection Ha as -> _. lia.
        - assert (x_d < x_a); [| lia].
          apply (strictly_increasing_nth _ Hinc (S j) i); [lia | |];
            eapply nth_error_steps; eassumption. }
      replace (n <? x_d) with false by (symmetry; apply Z.ltb_ge; lia).
      apply andb_false_r.
    + assert (x_b <= x_c).
      { destruct (Nat.eq_dec j (S i)) as [Heq | Hne'].
        - rewrite Heq in Hc. rewrite Hc in Hb. injection Hb as -> _. lia.
        - assert (x_b < x_c); [| lia].
          apply (strictly_increasing_nth _ Hinc (S i) j); [lia | |];
            eapply nth_error_steps; eassumption. }
      replace (x_c <=? n) with false by (symmetry; apply Z.leb_gt; lia).
      reflexivity.
Qed.

(** Before the first checkpoint: the assertion of the empty case fails. *)
Lemma lambda_step_func_before (config : schedule) (n : Z) (first : Z * F) :
  strictly_increasing (map fst config) = true ->
  nth_error config 0 = Some first ->
  n < fst first ->
  lambda_step_func config n = Raise AssertionError.
Proof.
  intros Hinc Hfirst Hn. unfold lambda_step_func.
  destruct first as [x_0 y_0]. simpl in Hn.
  rewrite filter_seq_nil.
  - destruct (list_last config) as [[x_l y_l] | e] eqn:Hlast.
    + cbn [bind fst].
      assert (x_0 <= x_l).
      { pose proof (list_last_nth _ _ Hlast) as Hl.
        destruct (Nat.eq_dec 0 (List.length config - 1)) as [Heq | Hne].
        - rewrite <- Heq in Hl. rewrite Hl in Hfirst. injection Hfirst as -> _. lia.
        - assert (x_0 < x_l); [| lia].
          apply (strictly_increasing_nth _ Hinc 0 (List.length config - 1)%nat);
            [lia | |]; eapply nth_error_steps; eassumption. }
      replace (n >=? x_l) with false by (rewrite Z.geb_leb; symmetry; apply Z.leb_gt; lia).
      reflexivity.
    + destruct config; [discriminate Hfirst |].
      exfalso. clear - Hlast. revert p Hlast.
      induction config as [| q config IH]; intros p Hlast.
      * discriminate Hlast.
      * apply (IH q). exact Hlast.
  - intros j Hj. unfold in_range.
    destruct (nth_error config j) as [[x_a y_a] |] eqn:Ha; [| reflexivity].
    destruct (nth_error config (S j)) as [[x_b y_b] |] eqn:Hb; [| reflexivity].
    assert (x_0 <= x_a).
    { destruct (Nat.eq_dec 0 j) as [Heq | Hne].
      - rewrite <- Heq in Ha. rewrite Ha in Hfirst. injection Hfirst as -> _. lia.
      - assert (x_0 < x_a); [| lia].
        apply (strictly_increasing_nth _ Hinc 0 j); [lia | |];
          eapply nth_error_steps; eassumption. }
    replace (x_a <=? n) with false by (symmetry; apply Z.leb_gt; lia).
    reflexivity.
Qed.

(** Inside a bracket the function returns the value of its expression
    whenever the two differences convert and the division is defined, and
    raises what a conversion raises. *)
Lemma lambda_step_func_between_value (config : schedule) (n : Z) (i : nat)
    (x_a : Z) (y_a : F) (x_b : Z) (y_b : F) (dx den q : F) :
  strictly_increasing (map fst config) = true ->
  nth_error config i = Some (x_a, y_a) ->
  nth_error config (S i) = Some (x_b, y_b) ->
  x_a <= n < x_b ->
  float_of_int (n - x_a) = Ok dx ->
  float_of_int (x_b - x_a) = Ok den ->
  truediv (fmul dx (fsub y_b y_a)) den = Ok q ->
  lambda_step_func config n = Ok (fadd y_a q).
Proof.
  intros Hinc Ha Hb Hn Hdx Hden Hq.
  rewrite (lambda_step_func_between config n i x_a y_a x_b y_b Hinc Ha Hb Hn).
  unfold linear_interpolation. rewrite Hdx, Hden. cbn [bind]. rewrite Hq. reflexivity.
Qed.

Lemma lambda_step_func_between_error (config : schedule) (n : Z) (i : nat)
    (x_a : Z) (y_a : F) (x_b : Z) (y_b : F) (e : exn) :
  strictly_increasing (map fst config) = true ->
  nth_error config i = Some (x_a, y_a) ->
  nth_error config (S i) = Some (x_b, y_b) ->
  x_a <= n < x_b ->
  float_of_int (n - x_a) = Raise e
  \/ ((exists dx, float_of_int (n - x_a) = Ok dx) /\ float_of_int (x_b - x_a) = Raise e) ->
  lambda_step_func config n = Raise e.
Proof.
  intros Hinc Ha Hb Hn He.
  rewrite (lambda_step_func_between config n i x_a y_a x_b y_b Hinc Ha Hb Hn).
  unfold linear_interpolation.
  destruct He as [-> | [[dx ->] ->]]; reflexivity.
Qed.

End ScheduleFacts.

Lemma inject_nonzero (d : Z) : d <> 0 -> Q2Qc (inject_Z d) <> Q2Qc 0.
Proof.
  intros Hd H. apply Q2Qc_eq_iff in H. unfold Qeq in H. simpl in H. lia.
Qed.

(** In exact arithmetic the expression of the function is the line
    through the two checkpoints. *)
Lemma linear_interpolation_exact (U : Interpreter) (x_a : Z) (y_a : Qc) (x_b : Z) (y_b : Qc)
    (n : Z) :
  x_a < x_b ->
  linear_interpolation (F := Qc) x_a y_a x_b y_b n = Ok (line x_a y_a x_b y_b n).
Proof.
  intros H. unfold linear_interpolation, line.
  cbn [float_of_int exact bind fmul fsub truediv fadd]. unfold Exact.div.
  pose proof (inject_nonzero (x_b - x_a) ltac:(lia)) as Hnz.
  destruct (Qc_eq_dec (Q2Qc (inject_Z (x_b - x_a))) (Q2Qc 0)) as [Heq | _];
    [contradiction |].
  cbn [bind]. f_equal. field. exact Hnz.
Qed.

(** C3 (amended). For every schedule with strictly increasing steps,
    [lambda_step_func] returns the last checkpoint's value at a step at or
    beyond the last checkpoint.  At a step between two bracketing
    checkpoints (the first inclusive) it evaluates
    [y_a + (n - x_a) * (y_b - y_a) / (x_b - x_a)]: it returns that value
    whenever the two differences convert to float, which in exact
    arithmetic is the linear interpolation of the two checkpoints (for
    [[(0, 1.0), (1000, 0.0)]]: 0.5 at step 500, 0.0 at steps 1000 and 5000),
    and it raises [OverflowError] when a difference is beyond the range of
    the floats (as for [[(0, 0.0), (10**309, 1.0)]] at step 1).  At a step
    before the first checkpoint its assertion fails and no value is
    returned. *)
Theorem lambda_step_func_schedule :
  (forall (F : Type) (PF : PyFloat F) (config : schedule) (n : Z) (last : Z * F),
      strictly_increasing (map fst config) = true ->
      list_last config = Ok last ->
      fst last <= n ->
      lambda_step_func config n = Ok (snd last))
  /\ (forall (F : Type) (PF : PyFloat F) (config : schedule) (n : Z) (i : nat)
        (x_a : Z) (y_a : F) (x_b : Z) (y_b : F),
      strictly_increasing (map fst config) = true ->
      nth_error config i = Some (x_a, y_a) ->
      nth_error config (S i) = Some (x_b, y_b) ->
      x_a <= n < x_b ->
      lambda_step_func config n = linear_interpolation x_a y_a x_b y_b n)
  /\ (forall (F : Type) (PF : PyFloat F) (config : schedule) (n : Z) (first : Z * F),
      strictly_increasing (map fst config) = true ->
      nth_error config 0 = Some first ->
      n < fst first ->
      lambda_step_func config n = Raise AssertionError)
  /\ (forall U : Interpreter,
        lambda_step_func (F := float) [(0, 1%float); (1000, 0%float)] 500 = Ok 0.5%float)
  /\ (forall U : Interpreter,
        lambda_step_func (F := float) [(0, 1%float); (1000, 0%float)] 1000 = Ok 0%float)
  /\ (forall U : Interpreter,
        lambda_step_func (F := float) [(0, 1%float); (1000, 0%float)] 5000 = Ok 0%float)
  /\ (forall (F : Type) (PF : PyFloat F) (config : schedule) (n : Z) (i : nat)
        (x_a : Z) (y_a : F) (x_b : Z) (y_b : F) (dx den q : F),
      strictly_increasing (map fst config) = true ->
      nth_error config i = Some (x_a, y_a) ->
      nth_error config (S i) = Some (x_b, y_b) ->
      x_a <= n < x_b ->
      float_of_int (n - x_a) = Ok dx ->
      float_of_int (x_b - x_a) = Ok den ->
      truediv (fmul dx (fsub y_b y_a)) den = Ok q ->
      lambda_step_func config n = Ok (fadd y_a q))
  /\ (forall (F : Type) (PF : PyFloat F) (config : schedule) (n : Z) (i : nat)
        (x_a : Z) (y_a : F) (x_b : Z) (y_b : F) (e : exn),
      strictly_increasing (map fst config) = true ->
      nth_error config i = Some (x_a, y_a) ->
      nth_error config (S i) = Some (x_b, y_b) ->
      x_a <= n < x_b ->
      float_of_int (n - x_a) = Raise e
      \/ ((exists dx, float_of_int (n - x_a) = Ok dx)
          /\ float_of_int (x_b - x_a) = Raise e) ->
      lambda_step_func config n = Raise e)
  /\ (forall (U : Interpreter) (config : schedule (F := Qc)) (n : Z) (i : nat)
        (x_a : Z) (y_a : Qc) (x_b : Z) (y_b : Qc),
      strictly_increasing (map fst config) = true ->
      nth_error config i = Some (x_a, y_a) ->
      nth_error config (S i) = Some (x_b, y_b) ->
      x_a <= n < x_b ->
      lambda_step_func config n = Ok (line x_a y_a x_b y_b n))
  /\ (forall U : Interpreter,
        lambda_step_func (F := float) [(0, 0%float); (10 ^ 309, 1%float)] 1
        = Raise OverflowError).
Proof.
  split; [intros; eapply lambda_step_func_after; eassumption |].
  split; [intros; eapply lambda_step_func_between; eassumption |].
  split; [intros; eapply lambda_step_func_before; eassumption |].
  split; [intros U; vm_compute; reflexivity |].
  split; [intros U; vm_compute; reflexivity |].
  split; [intros U; vm_compute; reflexivity |].
  split.
  { intros F PF config n i x_a y_a x_b y_b dx den q Hinc Ha Hb Hn Hdx Hden Hq.
    exact (lambda_step_func_between_value config n i x_a y_a x_b y_b dx den q
             Hinc Ha Hb Hn Hdx Hden Hq). }
  split.
  { intros F PF config n i x_a y_a x_b y_b e Hinc Ha Hb Hn He.
    exact (lambda_step_func_between_error config n i x_a y_a x_b y_b e Hinc Ha Hb Hn He). }
  split.
  - intros U config n i x_a y_a x_b y_b Hinc Ha Hb Hn.
    rewrite (lambda_step_func_between config n i x_a y_a x_b y_b Hinc Ha Hb Hn).
    apply linear_interpolation_exact. lia.
  - intros U. vm_compute. reflexivity.
Qed.

Lemma lambda_step_func_schedule_witness :
  lambda_step_func (F := float) [(0, 1%float); (1000, 0%float)] 5000 = Ok 0%float
  /\ lambda_step_func (F := float) [(0, 1%float); (1000, 0%float)] 250
     = linear_interpolation 0 1%float 1000 0%float 250
  /\ lambda_step_func (F := float) [(100, 0%float); (200, 1%float)] 50
     = Raise AssertionError
  /\ lambda_step_func (F := float) [(0, 1%float); (1000, 0%float)] 250 = Ok 0.75%float
  /\ lambda_step_func (F := float) [(0, 0%float); (10 ^ 400, 1%float)] 7
     = Raise OverflowError
  /\ lambda_step_func (F := Qc) [(0, Q2Qc 1); (3, Q2Qc 0)] 1
     = Ok (line 0 (Q2Qc 1) 3 (Q2Qc 0) 1).
Proof.
  pose proof lambda_step_func_schedule
    as [Hafter [Hbetween [Hbefore [_ [_ [_ [Hvalue [Herror [Hexact _]]]]]]]]].
  split; [| split; [| split; [| split; [| split]]]].
  - apply (Hafter float binary64 [(0, 1%float); (1000, 0%float)] 5000 (1000, 0%float));
      [reflexivity | reflexivity | simpl; lia].
  - apply (Hbetween float binary64 [(0, 1%float); (1000, 0%float)] 250 0%nat);
      [reflexivity | reflexivity | reflexivity | lia].
  - apply (Hbefore float binary64 [(100, 0%float); (200, 1%float)] 50 (100, 0%float));
      [reflexivity | reflexivity | simpl; lia].
  - apply (Hvalue float binary64 [(0, 1%float); (1000, 0%float)] 250 0%nat
             0 1%float 1000 0%float 250%float 1000%float (-0.25)%float);
      [reflexivity | reflexivity | reflexivity | lia
       | vm_compute; reflexivity | vm_compute; reflexivity | vm_compute; reflexivity].
  - apply (Herror float binary64 [(0, 0%float); (10 ^ 400, 1%float)] 7 0%nat
             0 0%float (10 ^ 400) 1%float OverflowError);
      [vm_compute; reflexivity | reflexivity | reflexivity | lia |].
    right. split; [exists 7%float; vm_compute; reflexivity | vm_compute; reflexivity].
  - apply (Hexact Demo.interpreter [(0, Q2Qc 1); (3, Q2Qc 0)] 1 0%nat);
      [reflexivity | reflexivity | reflexivity | lia].
Defined.

(** C3, as stated, fails before the first checkpoint: the schedule
    [100:0,200:1] has initial value 0.0, and evaluating it at step 50
    raises instead of yielding that value.  It also fails between two
    checkpoints that are too far apart for a float: the schedule
    [[(0, 0.0), (10**309, 1.0)]] is strictly increasing and brackets step 1,
    where the function raises [OverflowError] and returns no
    interpolation. *)
Lemma lambda_step_func_before_first_checkpoint :
  parse_lambda_config (F := float) "100:0,200:1"
  = Ok (0%float, Some [(100, 0%float); (200, 1%float)])
  /\ lambda_step_func (F := float) [(100, 0%float); (200, 1%float)] 50
     = Raise AssertionError
  /\ lambda_step_func (F := float) [(100, 0%float); (200, 1%float)] 50 <> Ok 0%float
  /\ strictly_increasing (map fst [(0, 0%float); (10 ^ 309, 1%float)]) = true
  /\ 0 <= 1 < 10 ^ 309
  /\ lambda_step_func (F := float) [(0, 0%float); (10 ^ 309, 1%float)] 1
     = Raise OverflowError.
Proof.
  split; [vm_compute; reflexivity |].
  split; [vm_compute; reflexivity |].
  split; [vm_compute; discriminate |].
  split; [vm_compute; reflexivity |].
  split; [split; [lia | reflexivity] |].
  vm_compute. reflexivity.
Qed.

(** ** Training and validation steps *)

Section StepFacts.
Context {U : Interpreter} {F : Type} {PF : PyFloat F} {E : Env F}.

Lemma skipped_nothing_to_do (sample : dict value) (lang_pair : string) :
  skipped sample lang_pair = Ok (nothing_to_do sample lang_pair).
Proof.
  unfold skipped, nothing_to_do.
  destruct (dict_find sample lang_pair) as [[| b | items] |]; reflexivity.
Qed.

(** The main loop of the multilingual [train_step] runs as if the pairs
    with nothing to do were not configured. *)
Lemma train_pairs_present (sample : dict value) (model : Model SubModel)
    (criterion : Multilingual.criterion_t) (ignore_grad : bool)
    (data_score : option (dict Tensor)) (pairs : list string)
    (loss_copy : option (dict Tensor)) (acc : Totals) :
  Multilingual.train_pairs sample model criterion ignore_grad data_score pairs loss_copy acc
  = Multilingual.train_pairs sample model criterion ignore_grad data_score
      (present sample pairs) loss_copy acc.
Proof.
  revert loss_copy acc. induction pairs as [| p pairs IH]; intros loss_copy acc.
  - reflexivity.
  - unfold present. cbn [filter Multilingual.train_pairs].
    rewrite skipped_nothing_to_do. cbn [bind].
    destruct (nothing_to_do sample p) eqn:Hp; cbn [negb].
    + apply IH.
    + cbn [Multilingual.train_pairs]. rewrite skipped_nothing_to_do, Hp. cbn [bind].
      destruct (match data_score with
                | Some ds => t <- dict_get ds p ;; Ok (Some t)
                | None => Ok None
                end) as [score | e]; [| reflexivity].
      cbn [bind].
      destruct (get_models model) as [models | e]; [| reflexivity]. cbn [bind].
      destruct (dict_get models p) as [m | e]; [| reflexivity]. cbn [bind].
      destruct (dict_get sample p) as [s | e]; [| reflexivity]. cbn [bind].
      destruct (criterion m s score (Multilingual.is_some loss_copy))
        as [[[[loss sample_size] logging_output] nll] | e]; [| reflexivity].
      cbn [bind]. apply IH.
Qed.

Lemma score_pairs_present (data_actor : Multilingual.data_actor_t) (sample : dict value)
    (pairs : list string) (data_actor_out : option (dict Tensor))
    (data_score : dict Tensor) (sum_score : F) (example_size : Z) :
  Multilingual.score_pairs data_actor sample pairs data_actor_out data_score
    sum_score example_size
  = Multilingual.score_pairs data_actor sample (present sample pairs) data_actor_out
      data_score sum_score example_size.
Proof.
  revert data_actor_out data_score sum_score example_size.
  induction pairs as [| p pairs IH]; intros data_actor_out data_score sum_score example_size.
  - reflexivity.
  - unfold present. cbn [filter Multilingual.score_pairs].
    rewrite skipped_nothing_to_do. cbn [bind].
    destruct (nothing_to_do sample p) eqn:Hp; cbn [negb].
    + apply IH.
    + cbn [Multilingual.score_pairs]. rewrite skipped_nothing_to_do, Hp. cbn [bind].
      destruct (dict_get sample p) as [s | e]; [| reflexivity]. cbn [bind].
      destruct (data_actor s) as [score | e]; [| reflexivity]. cbn [bind].
      destruct data_actor_out as [d |]; [| reflexivity]. cbn [bind].
      destruct (Multilingual.nsentences s) as [n | e]; [| reflexivity]. cbn [bind].
      apply IH.
Qed.

Lemma normalize_scores_present (sample : dict value) (pairs : list string)
    (data_score : dict Tensor) (sum_score : F) (example_size : Z) :
  Multilingual.normalize_scores sample pairs data_score sum_score example_size
  = Multilingual.normalize_scores sample (present sample pairs) data_score
      sum_score example_size.
Proof.
  revert data_score. induction pairs as [| p pairs IH]; intros data_score.
  - reflexivity.
  - unfold present. cbn [filter Multilingual.normalize_scores].
    rewrite skipped_nothing_to_do. cbn [bind].
    destruct (nothing_to_do sample p) eqn:Hp; cbn [negb].
    + apply IH.
    + cbn [Multilingual.normalize_scores]. rewrite skipped_nothing_to_do, Hp. cbn [bind].
      destruct (dict_get data_score p) as [s | e]; [| reflexivity]. cbn [bind].
      apply IH.
Qed.

Lemma valid_pairs_present (sample : dict value) (model : Model SubModel)
    (criterion : Multilingual.criterion_t) (pairs : list string) (acc : Totals) :
  Multilingual.valid_pairs sample model criterion pairs acc
  = Multilingual.valid_pairs sample model criterion (present sample pairs) acc.
Proof.
  revert acc. induction pairs as [| p pairs IH]; intros acc.
  - reflexivity.
  - unfold present. cbn [filter Multilingual.valid_pairs].
    rewrite skipped_nothing_to_do. cbn [bind].
    destruct (nothing_to_do sample p) eqn:Hp; cbn [negb].
    + apply IH.
    + cbn [Multilingual.valid_pairs]. rewrite skipped_nothing_to_do, Hp. cbn [bind].
      destruct (get_models model) as [models | e]; [| reflexivity]. cbn [bind].
      destruct (dict_get models p) as [m | e]; [| reflexivity]. cbn [bind].
      destruct (dict_get sample p) as [s | e]; [| reflexivity]. cbn [bind].
      destruct (criterion m s None false)
        as [[[[loss sample_size] logging_output] nll] | e]; [| reflexivity].
      cbn [bind]. apply IH.
Qed.

Lemma present_none (sample : dict value) (pairs : list string) :
  (forall p, In p pairs -> nothing_to_do sample p = true) -> present sample pairs = [].
Proof.
  intros H. induction pairs as [| p pairs IH]; [reflexivity |].
  unfold present. cbn [filter]. rewrite (H p (or_introl eq_refl)). cbn [negb].
  apply IH. intros q Hq. apply H. right. exact Hq.
Qed.

(** The multilingual [train_step] depends on the configured pairs only
    through those that have something to do in the batch. *)
Lemma multilingual_train_step_present (self self' : Task F SubModel) (h h' : heap)
    (sample : dict value) (model : Model SubModel)
    (criterion : Multilingual.criterion_t) (ignore_grad : bool)
    (data_actor : option Multilingual.data_actor_t) (loss_copy : option (dict Tensor))
    (data_actor_out : option (dict Tensor)) :
  opts (args self') = opts (args self) ->
  deref h' (model_lang_pairs self') = present sample (deref h (model_lang_pairs self)) ->
  Multilingual.train_step self h sample model criterion ignore_grad data_actor
    loss_copy data_actor_out
  = Multilingual.train_step self' h' sample model criterion ignore_grad data_actor
      loss_copy data_actor_out.
Proof.
  intros Ho Hp. unfold Multilingual.train_step. rewrite Hp, Ho.
  set (pairs := deref h (model_lang_pairs self)).
  assert (Hpp : present sample (present sample pairs) = present sample pairs).
  { unfold present. induction pairs as [| p pairs IH]; [reflexivity |].
    cbn [filter]. destruct (nothing_to_do sample p) eqn:Hq; cbn [negb filter].
    - exact IH.
    - rewrite Hq. cbn [negb]. f_equal. exact IH. }
  destruct data_actor as [actor |].
  - destruct (Multilingual.opt_eqb (data_actor (opts (args self))) (Some "ave_emb")
              || Multilingual.opt_eqb (extra_data_actor (opts (args self)))
                   (Some "ave_emb"))%bool.
    + rewrite (score_pairs_present actor sample pairs).
      destruct (Multilingual.score_pairs actor sample (present sample pairs)
                  data_actor_out [] f0 0) as [[[[dao ds] ss] es] | e]; [| reflexivity].
      cbn [bind]. rewrite (normalize_scores_present sample pairs).
      destruct (Multilingual.normalize_scores sample (present sample pairs) ds ss es)
        as [ds' | e]; [| reflexivity].
      cbn [bind]. rewrite (train_pairs_present sample model criterion ignore_grad
                             (Some ds') pairs). reflexivity.
    + cbn [bind]. rewrite (train_pairs_present sample model criterion ignore_grad
                             None pairs). reflexivity.
  - cbn [bind]. rewrite (train_pairs_present sample model criterion ignore_grad
                           None pairs). reflexivity.
Qed.

(** When no configured pair has anything to do, the multilingual
    [train_step] returns the empty totals. *)
Lemma multilingual_train_step_nothing (self : Task F SubModel) (h : heap)
    (sample : dict value) (model : Model SubModel)
    (criterion : Multilingual.criterion_t) (ignore_grad : bool)
    (data_actor : option Multilingual.data_actor_t) (loss_copy : option (dict Tensor))
    (data_actor_out : option (dict Tensor)) :
  (forall p, In p (deref h (model_lang_pairs self)) -> nothing_to_do sample p = true) ->
  Multilingual.train_step self h sample model criterion ignore_grad data_actor
    loss_copy data_actor_out
  = Ok (totals0 ModelTrain, loss_copy, data_actor_out).
Proof.
  intros H. unfold Multilingual.train_step.
  set (pairs := deref h (model_lang_pairs self)) in *.
  pose proof (present_none sample pairs H) as Hnone.
  destruct data_actor as [actor |].
  - destruct (Multilingual.opt_eqb (data_actor (opts (args self))) (Some "ave_emb")
              || Multilingual.opt_eqb (extra_data_actor (opts (args self)))
                   (Some "ave_emb"))%bool.
    + rewrite (score_pairs_present actor sample pairs), Hnone. cbn [Multilingual.score_pairs bind].
      rewrite (normalize_scores_present sample pairs), Hnone.
      cbn [Multilingual.normalize_scores bind].
      rewrite (train_pairs_present sample model criterion ignore_grad _ pairs), Hnone.
      reflexivity.
    + cbn [bind].
      rewrite (train_pairs_present sample model criterion ignore_grad _ pairs), Hnone.
      reflexivity.
  - cbn [bind].
    rewrite (train_pairs_present sample model criterion ignore_grad _ pairs), Hnone.
    reflexivity.
Qed.

(** [BtTranslationTask.train_step] assigns 1.0 to both weights before it
    uses them: the values the schedule gave them play no part. *)
(** A pair with nothing to do is passed over. *)
Lemma train_pairs_skip (sample : dict value) (model : Model SubModel)
    (criterion : Multilingual.criterion_t) (ignore_grad : bool)
    (data_score : option (dict Tensor)) (p : string) (pairs : list string)
    (loss_copy : option (dict Tensor)) (acc : Totals) :
  nothing_to_do sample p = true ->
  Multilingual.train_pairs sample model criterion ignore_grad data_score (p :: pairs)
    loss_copy acc
  = Multilingual.train_pairs sample model criterion ignore_grad data_score pairs
      loss_copy acc.
Proof.
  intros Hp. cbn [Multilingual.train_pairs]. rewrite skipped_nothing_to_do, Hp. reflexivity.
Qed.

(** A pair with a batch adds its loss, sample size and log to the
    totals, and the loop goes on. *)
Lemma train_pairs_step (sample : dict value) (models : dict SubModel)
    (criterion : Multilingual.criterion_t) (ignore_grad : bool)
    (p : string) (pairs : list string) (loss_copy : option (dict Tensor)) (acc : Totals)
    (m : SubModel) (s : value) (loss sample_size : F) (logging_output : Log)
    (nll_loss_data : Tensor) :
  nothing_to_do sample p = false ->
  dict_find models p = Some m ->
  dict_find sample p = Some s ->
  criterion m s None (Multilingual.is_some loss_copy)
  = Ok (loss, sample_size, logging_output, nll_loss_data) ->
  Multilingual.train_pairs sample (FairseqMultiModel models) criterion ignore_grad None
    (p :: pairs) loss_copy acc
  = Multilingual.train_pairs sample (FairseqMultiModel models) criterion ignore_grad None
      pairs
      (match loss_copy with
       | Some lc => Some (dict_set lc p nll_loss_data)
       | None => None
       end)
      {| agg_loss := fadd (agg_loss acc) (if ignore_grad then fmul loss f0 else loss);
         agg_sample_size := fadd (agg_sample_size acc) sample_size;
         agg_logging_output := dict_set (agg_logging_output acc) p logging_output;
         trace := if ignore_grad then trace acc
                  else (trace acc ++ [Backward loss])%list |}.
Proof.
  intros Hp Hm Hs Hc. cbn [Multilingual.train_pairs].
  rewrite skipped_nothing_to_do, Hp. cbn [bind get_models]. unfold dict_get.
  rewrite Hm, Hs. cbn [bind]. rewrite Hc. cbn [bind].
  destruct ignore_grad; reflexivity.
Qed.

Lemma valid_pairs_skip (sample : dict value) (model : Model SubModel)
    (criterion : Multilingual.criterion_t) (p : string) (pairs : list string)
    (acc : Totals) :
  nothing_to_do sample p = true ->
  Multilingual.valid_pairs sample model criterion (p :: pairs) acc
  = Multilingual.valid_pairs sample model criterion pairs acc.
Proof.
  intros Hp. cbn [Multilingual.valid_pairs]. rewrite skipped_nothing_to_do, Hp. reflexivity.
Qed.

Lemma valid_pairs_step (sample : dict value) (models : dict SubModel)
    (criterion : Multilingual.criterion_t) (p : string) (pairs : list string)
    (acc : Totals) (m : SubModel) (s : value) (loss sample_size : F)
    (logging_output : Log) (nll_loss_data : Tensor) :
  nothing_to_do sample p = false ->
  dict_find models p = Some m ->
  dict_find sample p = Some s ->
  criterion m s None false = Ok (loss, sample_size, logging_output, nll_loss_data) ->
  Multilingual.valid_pairs sample (FairseqMultiModel models) criterion (p :: pairs) acc
  = Multilingual.valid_pairs sample (FairseqMultiModel models) criterion pairs
      {| agg_loss := fadd (agg_loss acc) loss;
         agg_sample_size := fadd (agg_sample_size acc) sample_size;
         agg_logging_output := dict_set (agg_logging_output acc) p logging_output;
         trace := trace acc |}.
Proof.
  intros Hp Hm Hs Hc. cbn [Multilingual.valid_pairs].
  rewrite skipped_nothing_to_do, Hp. cbn [bind get_models]. unfold dict_get.
  rewrite Hm, Hs. cbn [bind]. rewrite Hc. reflexivity.
Qed.

(** Without a data actor the multilingual [train_step] is its main
    loop. *)
Lemma multilingual_train_step_plain (self : Task F SubModel) (h : heap)
    (sample : dict value) (model : Model SubModel)
    (criterion : Multilingual.criterion_t) (ignore_grad : bool)
    (loss_copy : option (dict Tensor)) (data_actor_out : option (dict Tensor)) :
  Multilingual.train_step self h sample model criterion ignore_grad None loss_copy
    data_actor_out
  = (r <- Multilingual.train_pairs sample model criterion ignore_grad None
            (deref h (model_lang_pairs self)) loss_copy (totals0 ModelTrain) ;;
     Ok (fst r, snd r, data_actor_out)).
Proof.
  unfold Multilingual.train_step. cbn [bind].
  destruct (Multilingual.train_pairs _ _ _ _ _ _ _ _) as [[t l] | e]; reflexivity.
Qed.

(** The back-translation [train_step] looks up the batch of the first
    configured pair without testing that it is there. *)
Lemma bt_train_step_absent_pair (self : Bt.BtTask) (h : heap) (sample : dict value)
    (models : dict SubModel) (criterion : Bt.criterion_t) (ignore_grad : bool)
    (p : string) (rest : list string) (m : SubModel) :
  deref h (task_lang_pairs (Bt.base self)) = p :: rest ->
  dict_find models p = Some m ->
  dict_find sample p = None ->
  Bt.train_step self h sample (FairseqMultiModel models) criterion ignore_grad
  = Raise (KeyError p).
Proof.
  intros Hpairs Hm Hs. unfold Bt.train_step.
  cbn [Bt.base Bt.set_lambdas]. rewrite Hpairs.
  cbn [Bt.parallel_pass get_models bind]. unfold dict_get. rewrite Hm, Hs. reflexivity.
Qed.

(** It unpacks what [forward_backward] returns, which is [None] for a
    back-translation batch that is [None]. *)
Lemma bt_pass_none_batch (self : Bt.BtTask) (criterion : Bt.criterion_t)
    (ignore_grad : bool) (sample : dict value) (models : dict SubModel)
    (p : string) (rest : list string) (m : SubModel) (items : list value)
    (st : Bt.BtLoop) :
  bt_dds (opts (args (Bt.base self))) = false ->
  dict_find models p = Some m ->
  dict_find sample (Bt._get_bt_dataset_key p) = Some (PTuple (PNone :: items)) ->
  Bt.bt_pass self criterion ignore_grad sample (FairseqMultiModel models) (p :: rest) st
  = Raise TypeError.
Proof.
  intros Hdds Hm Hs. cbn [Bt.bt_pass]. rewrite Hdds. cbn [bind get_models].
  unfold dict_get. rewrite Hm, Hs. cbn [bind py_item list_get nth_error].
  unfold Bt.forward_backward. cbn [bind]. reflexivity.
Qed.

Lemma bt_train_step_resets_weights (self : Bt.BtTask) (w_parallel w_otf_bt : F)
    (h : heap) (sample : dict value) (model : Model SubModel)
    (criterion : Bt.criterion_t) (ignore_grad : bool) :
  Bt.train_step
    (Bt.set_lambdas
       (set_lambda_parallel w_parallel (set_lambda_otf_bt w_otf_bt (Bt.lambdas self))) self)
    h sample model criterion ignore_grad
  = Bt.train_step self h sample model criterion ignore_grad.
Proof. reflexivity. Qed.

End StepFacts.

(** C1 (code defect). The claim is that a back-translation batch is
    weighted by the scheduled back-translation lambda: weight 0 at update 0
    and weight 1.0 at update 100 under [0:0,100:1].  [update_step] does
    schedule the weight (0.0 at update 0, 1.0 at update 100), but
    [train_step] assigns 1.0 to [lambda_parallel] and [lambda_otf_bt]
    before using them, so its result never depends on the scheduled values:
    at update 0 a back-translation batch of loss 2.0 is propagated with
    weight 1.0 and the total is 3.0, the same as at update 100. *)
Theorem bt_train_step_ignores_scheduled_weight :
  (forall (F : Type) (PF : PyFloat F) (E : Env F) (self : Bt.BtTask)
          (w_parallel w_otf_bt : F) (h : heap) (sample : dict value)
          (model : Model SubModel) (criterion : Bt.criterion_t) (ignore_grad : bool),
      Bt.train_step
        (Bt.set_lambdas
           (set_lambda_parallel w_parallel
              (set_lambda_otf_bt w_otf_bt (Bt.lambdas self))) self)
        h sample model criterion ignore_grad
      = Bt.train_step self h sample model criterion ignore_grad)
  /\ Run.scheduled_otf_bt (Demo.command_line "en-de" None "0:0,100:1") 0 = Ok 0%float
  /\ Run.scheduled_otf_bt (Demo.command_line "en-de" None "0:0,100:1") 100 = Ok 1%float
  /\ Run.bt_step_at (Demo.command_line "en-de" None "0:0,100:1") 0
       [("en-de", Run.batch_with 1%float);
        ("bt:en-de", PTuple [Run.batch_with 2%float])]
     = Ok (Build_Totals (E := Run.world) 3%float 2%float
             [("en-de", "log"); ("bt:en-de", "log")]
             [ModelTrain; Backward 1%float; Backward 2%float])
  /\ Run.bt_step_at (Demo.command_line "en-de" None "0:0,100:1") 100
       [("en-de", Run.batch_with 1%float);
        ("bt:en-de", PTuple [Run.batch_with 2%float])]
     = Ok (Build_Totals (E := Run.world) 3%float 2%float
             [("en-de", "log"); ("bt:en-de", "log")]
             [ModelTrain; Backward 1%float; Backward 2%float]).
Proof.
  split; [intros; apply bt_train_step_resets_weights |].
  repeat split; vm_compute; reflexivity.
Qed.

(** C9 (code defect). The multilingual [train_step] and [valid_step] skip
    every configured pair that is absent from the batch, maps to [None] or
    has no example, and accumulate over the others: a pair with nothing to
    do is passed over, and a pair with a batch adds its loss, sample size
    and log to the totals.  The extended
    [train_step] of the back-translation task does not: it raises
    [KeyError] when a pair or its back-translation batch is absent, and
    [TypeError] when the back-translation batch is [None] or empty, because
    it unpacks the [None] that [forward_backward] returns when it has
    nothing to do. *)
Theorem bt_train_step_raises_on_missing_batch :
  (forall (F : Type) (PF : PyFloat F) (E : Env F) (sample : dict value)
          (model : Model SubModel) (criterion : Multilingual.criterion_t)
          (ignore_grad : bool) (data_score : option (dict Tensor))
          (pairs : list string) (loss_copy : option (dict Tensor)) (acc : Totals),
      Multilingual.train_pairs sample model criterion ignore_grad data_score pairs
        loss_copy acc
      = Multilingual.train_pairs sample model criterion ignore_grad data_score
          (present sample pairs) loss_copy acc)
  /\ (forall (F : Type) (PF : PyFloat F) (E : Env F) (sample : dict value)
             (model : Model SubModel) (criterion : Multilingual.criterion_t)
             (pairs : list string) (acc : Totals),
      Multilingual.valid_pairs sample model criterion pairs acc
      = Multilingual.valid_pairs sample model criterion (present sample pairs) acc)
  /\ Run.multilingual_step (Demo.command_line "en-de,en-fr" None "0.0")
       [("en-fr", Run.batch_with 1%float); ("en-de", PNone)]
     = Ok (Build_Totals (E := Run.world) 1%float 1%float
             [("en-fr", "log")]
             [ModelTrain; Backward 1%float])
  /\ Run.multilingual_valid (Demo.command_line "en-de,en-fr" None "0.0")
       [("en-fr", Run.empty_batch)]
     = Ok (Build_Totals (E := Run.world) 0%float 0%float
             []
             [ModelEval])
  /\ Run.bt_step_at (Demo.command_line "en-de" None "0.0") 0 []
     = Raise (KeyError "en-de")
  /\ Run.bt_step_at (Demo.command_line "en-de" None "0.0") 0
       [("en-de", Run.batch_with 1%float)]
     = Raise (KeyError "bt:en-de")
  /\ Run.bt_step_at (Demo.command_line "en-de" None "0.0") 0
       [("en-de", Run.batch_with 1%float); ("bt:en-de", PNone)]
     = Raise TypeError
  /\ Run.bt_step_at (Demo.command_line "en-de" None "0.0") 0
       [("en-de", PNone); ("bt:en-de", PTuple [PNone])]
     = Raise TypeError
  /\ Run.bt_step_at (Demo.command_line "en-de" None "0.0") 0
       [("en-de", Run.batch_with 1%float); ("bt:en-de", PTuple [Run.empty_batch])]
     = Raise TypeError
  /\ (forall (U : Interpreter) (F : Type) (PF : PyFloat F) (E : Env F)
             (sample : dict value) (model : Model SubModel)
             (criterion : Multilingual.criterion_t) (ignore_grad : bool)
             (data_score : option (dict Tensor)) (p : string) (pairs : list string)
             (loss_copy : option (dict Tensor)) (acc : Totals),
      nothing_to_do sample p = true ->
      Multilingual.train_pairs sample model criterion ignore_grad data_score (p :: pairs)
        loss_copy acc
      = Multilingual.train_pairs sample model criterion ignore_grad data_score pairs
          loss_copy acc)
  /\ (forall (U : Interpreter) (F : Type) (PF : PyFloat F) (E : Env F)
             (sample : dict value) (models : dict SubModel)
             (criterion : Multilingual.criterion_t) (ignore_grad : bool)
             (p : string) (pairs : list string) (loss_copy : option (dict Tensor))
             (acc : Totals) (m : SubModel) (s : value) (loss sample_size : F)
             (logging_output : Log) (nll_loss_data : Tensor),
      nothing_to_do sample p = false ->
      dict_find models p = Some m ->
      dict_find sample p = Some s ->
      criterion m s None (Multilingual.is_some loss_copy)
      = Ok (loss, sample_size, logging_output, nll_loss_data) ->
      Multilingual.train_pairs sample (FairseqMultiModel models) criterion ignore_grad None
        (p :: pairs) loss_copy acc
      = Multilingual.train_pairs sample (FairseqMultiModel models) criterion ignore_grad
          None pairs
          (match loss_copy with
           | Some lc => Some (dict_set lc p nll_loss_data)
           | None => None
           end)
          {| agg_loss := fadd (agg_loss acc) (if ignore_grad then fmul loss f0 else loss);
             agg_sample_size := fadd (agg_sample_size acc) sample_size;
             agg_logging_output := dict_set (agg_logging_output acc) p logging_output;
             trace := if ignore_grad then trace acc
                      else (trace acc ++ [Backward loss])%list |})
  /\ (forall (U : Interpreter) (F : Type) (PF : PyFloat F) (E : Env F)
             (sample : dict value) (model : Model SubModel)
             (criterion : Multilingual.criterion_t) (p : string) (pairs : list string)
             (acc : Totals),
      nothing_to_do sample p = true ->
      Multilingual.valid_pairs sample model criterion (p :: pairs) acc
      = Multilingual.valid_pairs sample model criterion pairs acc)
  /\ (forall (U : Interpreter) (F : Type) (PF : PyFloat F) (E : Env F)
             (sample : dict value) (models : dict SubModel)
             (criterion : Multilingual.criterion_t) (p : string) (pairs : list string)
             (acc : Totals) (m : SubModel) (s : value) (loss sample_size : F)
             (logging_output : Log) (nll_loss_data : Tensor),
      nothing_to_do sample p = false ->
      dict_find models p = Some m ->
      dict_find sample p = Some s ->
      criterion m s None false = Ok (loss, sample_size, logging_output, nll_loss_data) ->
      Multilingual.valid_pairs sample (FairseqMultiModel models) criterion (p :: pairs) acc
      = Multilingual.valid_pairs sample (FairseqMultiModel models) criterion pairs
          {| agg_loss := fadd (agg_loss acc) loss;
             agg_sample_size := fadd (agg_sample_size acc) sample_size;
             agg_logging_output := dict_set (agg_logging_output acc) p logging_output;
             trace := trace acc |})
  /\ (forall (U : Interpreter) (F : Type) (PF : PyFloat F) (E : Env F)
             (self : Task F SubModel) (h : heap) (sample : dict value)
             (model : Model SubModel) (criterion : Multilingual.criterion_t)
             (ignore_grad : bool) (loss_copy data_actor_out : option (dict Tensor)),
      Multilingual.train_step self h sample model criterion ignore_grad None loss_copy
        data_actor_out
      = (r <- Multilingual.train_pairs sample model criterion ignore_grad None
                (deref h (model_lang_pairs self)) loss_copy (totals0 ModelTrain) ;;
         Ok (fst r, snd r, data_actor_out)))
  /\ (forall (U : Interpreter) (F : Type) (PF : PyFloat F) (E : Env F)
             (self : Bt.BtTask) (h : heap) (sample : dict value)
             (models : dict SubModel) (criterion : Bt.criterion_t) (ignore_grad : bool)
             (p : string) (rest : list string) (m : SubModel),
      deref h (task_lang_pairs (Bt.base self)) = p :: rest ->
      dict_find models p = Some m ->
      dict_find sample p = None ->
      Bt.train_step self h sample (FairseqMultiModel models) criterion ignore_grad
      = Raise (KeyError p))
  /\ (forall (U : Interpreter) (F : Type) (PF : PyFloat F) (E : Env F)
             (self : Bt.BtTask) (criterion : Bt.criterion_t) (ignore_grad : bool)
             (sample : dict value) (models : dict SubModel) (p : string)
             (rest : list string) (m : SubModel) (items : list value) (st : Bt.BtLoop),
      bt_dds (opts (args (Bt.base self))) = false ->
      dict_find models p = Some m ->
      dict_find sample (Bt._get_bt_dataset_key p) = Some (PTuple (PNone :: items)) ->
      Bt.bt_pass self criterion ignore_grad sample (FairseqMultiModel models) (p :: rest) st
      = Raise TypeError).
Proof.
  split; [intros; apply train_pairs_present |].
  split; [intros; apply valid_pairs_present |].
  do 7 (split; [vm_compute; reflexivity |]).
  split; [intros; apply train_pairs_skip; assumption |].
  split; [intros; eapply train_pairs_step; eassumption |].
  split; [intros; apply valid_pairs_skip; assumption |].
  split; [intros; eapply valid_pairs_step; eassumption |].
  split; [intros; apply multilingual_train_step_plain |].
  split; [intros; eapply bt_train_step_absent_pair; eassumption |].
  intros; eapply bt_pass_none_batch; eassumption.
Qed.

Lemma bt_train_step_raises_on_missing_batch_witness :
  Bt.train_step (fst Run.en_de) (snd Run.en_de) []
    (FairseqMultiModel [("en-de", "model en-de"); ("de-en", "model de-en")])
    (Demo.bt_criterion Demo.load_same Demo.files_all Demo.multi_model_builder) false
  = Raise (KeyError "en-de")
  /\ Multilingual.valid_pairs (E := Run.world) [("en-fr", Run.empty_batch)]
       (FairseqMultiModel [("en-fr", "model en-fr")])
       (Demo.criterion Demo.load_same Demo.files_all Demo.multi_model_builder)
       ["en-fr"] (totals0 ModelEval)
     = Multilingual.valid_pairs (E := Run.world) [("en-fr", Run.empty_batch)]
         (FairseqMultiModel [("en-fr", "model en-fr")])
         (Demo.criterion Demo.load_same Demo.files_all Demo.multi_model_builder)
         [] (totals0 ModelEval).
Proof.
  pose proof bt_train_step_raises_on_missing_batch
    as [_ [_ [_ [_ [_ [_ [_ [_ [_ [_ [_ [Hvskip [_ [_ [Habsent _]]]]]]]]]]]]]]].
  split.
  - apply (Habsent Demo.interpreter float binary64 Run.world (fst Run.en_de) (snd Run.en_de)
             [] [("en-de", "model en-de"); ("de-en", "model de-en")]
             (Demo.bt_criterion Demo.load_same Demo.files_all Demo.multi_model_builder)
             false "en-de" [] "model en-de"); reflexivity.
  - apply (Hvskip Demo.interpreter float binary64 Run.world). reflexivity.
Defined.

(** ** The heap *)

Lemma store_length (h : heap) (l : loc) (v : list string) :
  List.length (store h l v) = List.length h.
Proof.
  revert l. induction h as [| x h IH]; intros l; simpl.
  - reflexivity.
  - destruct l; simpl; [reflexivity | rewrite IH; reflexivity].
Qed.

Lemma deref_store_same (h : heap) (l : loc) (v : list string) :
  (l < List.length h)%nat -> deref (store h l v) l = v.
Proof.
  unfold deref. revert l. induction h as [| x h IH]; intros l Hl; simpl in *.
  - lia.
  - destruct l; simpl; [reflexivity | apply IH; lia].
Qed.

Lemma deref_store_other (h : heap) (l l' : loc) (v : list string) :
  l' <> l -> deref (store h l v) l' = deref h l'.
Proof.
  unfold deref. revert l l'. induction h as [| x h IH]; intros l l' Hne; simpl.
  - reflexivity.
  - destruct l, l'; simpl; try reflexivity; [congruence | apply IH; congruence].
Qed.

Lemma deref_alloc_new (h : heap) (v : list string) :
  deref (snd (alloc h v)) (fst (alloc h v)) = v.
Proof.
  unfold alloc, deref. simpl. rewrite nth_middle. reflexivity.
Qed.


Lemma alloc_length (h : heap) (v : list string) :
  List.length (snd (alloc h v)) = S (List.length h).
Proof. unfold alloc. cbn [snd]. rewrite length_app. simpl. lia. Qed.

Lemma alloc_keeps (h : heap) (v : list string) (l : loc) :
  (l < List.length h)%nat -> (l < List.length (snd (alloc h v)))%nat.
Proof. intros H. rewrite alloc_length. lia. Qed.

(** ** Building the model *)

Section BuildFacts.
Context {U : Interpreter} {F : Type} {PF : PyFloat F} {E : Env F}.

(** The first loop of the back-translation [build_model] appends the
    reverse of every pair to the list at [lp] and touches nothing else. *)
Lemma append_reverse_ok (pairs : list string) (h h' : heap) (lp : loc) :
  (lp < List.length h)%nat ->
  Bt.append_reverse h lp pairs = (Ok tt, h') ->
  exists reversed,
    mapM Bt._get_dds_bt_key pairs = Ok reversed
    /\ deref h' lp = (deref h lp ++ reversed)%list
    /\ List.length h' = List.length h
    /\ forall l, l <> lp -> deref h' l = deref h l.
Proof.
  revert h. induction pairs as [| p pairs IH]; intros h Hlp H.
  - simpl in H. injection H as <-. exists []. rewrite app_nil_r. auto.
  - cbn [Bt.append_reverse] in H. cbn [mapM]. unfold Bt._get_dds_bt_key at 1.
    destruct (unpack2 (Py.split "-" p)) as [[src tgt] | e]; [| discriminate H].
    cbn [bind].
    apply IH in H; [| unfold heap_append; rewrite store_length; exact Hlp].
    destruct H as [reversed [Hrev [Hd [Hlen Hother]]]].
    exists ((tgt ++ "-" ++ src)%string :: reversed). rewrite Hrev. cbn [bind].
    split; [reflexivity |]. split; [| split].
    + rewrite Hd. unfold heap_append. rewrite deref_store_same by exact Hlp.
      rewrite <- app_assoc. reflexivity.
    + rewrite Hlen. unfold heap_append. apply store_length.
    + intros l Hl. rewrite (Hother l Hl). unfold heap_append.
      apply deref_store_other. exact Hl.
Qed.

Lemma append_reverse_unit (pairs : list string) (h : heap) (lp : loc) (u : unit) (h' : heap) :
  Bt.append_reverse h lp pairs = (Ok u, h') -> Bt.append_reverse h lp pairs = (Ok tt, h').
Proof. destruct u. auto. Qed.

(** Once the model builder has returned, [self.lang_pairs] is a list
    equal to the one configured, whatever the outcome of the call; the
    builder saw that list followed by the reverse pairs. *)
Lemma bt_build_model_after_builder (self : Bt.BtTask) (h : heap) (a : Args F) :
  (task_lang_pairs (Bt.base self) < List.length h)%nat ->
  let lp := task_lang_pairs (Bt.base self) in
  forall h1,
    Bt.append_reverse (snd (alloc h (deref h lp))) lp (deref h lp) = (Ok tt, h1) ->
    forall model, models_build_model h1 a (Bt.base self) = Ok model ->
    let '(outcome, self', h') := Bt.build_model self h a in
    deref h' (task_lang_pairs (Bt.base self')) = deref h lp
    /\ h' = h1
    /\ (forall m, outcome = Ok m -> m = model /\ exists models, m = FairseqMultiModel models).
Proof.
  intros Hlp lp h1 Happ model Hmodel.
  assert (Hcopy : deref h1 (List.length h) = deref h lp).
  { destruct (append_reverse_ok _ _ _ lp
                (alloc_keeps _ _ _ Hlp) Happ)
      as [reversed [_ [_ [_ Hother]]]].
    rewrite Hother by (unfold lp; lia).
    apply (deref_alloc_new h (deref h lp)). }
  unfold Bt.build_model. fold lp.
  change (alloc h (deref h lp)) with (List.length h, snd (alloc h (deref h lp))).
  cbv beta iota zeta.
  replace (deref (snd (alloc h (deref h lp))) (List.length h)) with (deref h lp)
    by (symmetry; apply (deref_alloc_new h (deref h lp))).
  rewrite Happ. rewrite Hmodel.
  destruct model as [models |].
  - cbn [Bt.base Bt.set_base task_lang_pairs set_task_lang_pairs].
    destruct (if bt_dds (opts (args (set_task_lang_pairs (List.length h) (Bt.base self))))
              then _ else _) as [o | e].
    + destruct (training (set_task_lang_pairs (List.length h) (Bt.base self))).
      * destruct (Bt.make_backtranslators _ _ _ _ _ _) as [[generators translators] | e].
        -- cbn. split; [exact Hcopy |]. split; [reflexivity |].
           intros m Hm. injection Hm as <-. split; [reflexivity | eauto].
        -- cbn. split; [exact Hcopy |]. split; [reflexivity |]. intros m Hm. discriminate Hm.
      * cbn. split; [exact Hcopy |]. split; [reflexivity |].
        intros m Hm. injection Hm as <-. split; [reflexivity | eauto].
    + cbn. split; [exact Hcopy |]. split; [reflexivity |]. intros m Hm. discriminate Hm.
  - cbn. split; [exact Hcopy |]. split; [reflexivity |]. intros m Hm. discriminate Hm.
Qed.

(** A call that returns went through both steps. *)
Lemma bt_build_model_ok_inv (self self' : Bt.BtTask) (h h' : heap) (a : Args F)
    (model : Model SubModel) :
  Bt.build_model self h a = (Ok model, self', h') ->
  let lp := task_lang_pairs (Bt.base self) in
  exists h1,
    Bt.append_reverse (snd (alloc h (deref h lp))) lp (deref h lp) = (Ok tt, h1)
    /\ exists model', models_build_model h1 a (Bt.base self) = Ok model'.
Proof.
  intros H lp. unfold Bt.build_model in H. fold lp in H.
  change (alloc h (deref h lp)) with (List.length h, snd (alloc h (deref h lp))) in H.
  cbv beta iota zeta in H.
  replace (deref (snd (alloc h (deref h lp))) (List.length h)) with (deref h lp) in H
    by (symmetry; apply (deref_alloc_new h (deref h lp))).
  destruct (Bt.append_reverse (snd (alloc h (deref h lp))) lp (deref h lp))
    as [[u | e] h1] eqn:Happ.
  - destruct u. exists h1. split; [reflexivity |].
    destruct (models_build_model h1 a (Bt.base self)) as [model' | e] eqn:Hm.
    + eauto.
    + discriminate H.
  - discriminate H.
Qed.

End BuildFacts.

(** *** Validation of the model arguments *)











Section ValidationFacts.
Context {U : Interpreter} {F : Type} {PF : PyFloat F} {E : Env F}.



End ValidationFacts.

(** ** Language-token sampling *)







Section SamplingFacts.
Context {U : Interpreter} {F : Type} {PF : PyFloat F} {E : Env F}.




End SamplingFacts.



(** *** The probabilities in exact arithmetic *)








(** ** Dictionaries of a task *)

Lemma dict_find_set_same {V : Type} (d : dict V) (k : string) (v : V) :
  dict_find (dict_set d k v) k = Some v.
Proof.
  induction d as [| [k' v'] d IH]; simpl.
  - rewrite String.eqb_refl. reflexivity.
  - destruct (String.eqb k k') eqn:Hk; simpl.
    + rewrite String.eqb_refl. reflexivity.
    + rewrite Hk. exact IH.
Qed.

Lemma dict_find_set_other {V : Type} (d : dict V) (k k' : string) (v : V) :
  k' <> k -> dict_find (dict_set d k v) k' = dict_find d k'.
Proof.
  intros Hne. induction d as [| [k0 v0] d IH]; simpl.
  - destruct (String.eqb_spec k' k); [contradiction | reflexivity].
  - destruct (String.eqb_spec k k0) as [-> | Hk]; simpl.
    + destruct (String.eqb_spec k' k0); [contradiction | reflexivity].
    + destruct (String.eqb k' k0); [reflexivity | exact IH].
Qed.


Lemma dict_keys_find {V : Type} (d : dict V) (k : string) :
  In k (dict_keys d) <-> dict_find d k <> None.
Proof.
  induction d as [| [k' v'] d IH]; simpl.
  - split; [contradiction | congruence].
  - destruct (String.eqb_spec k k') as [-> | Hne].
    + split; [discriminate | auto].
    + rewrite <- IH. split; [intros [H | H]; [congruence | exact H] | auto].
Qed.

Lemma dict_keys_set {V : Type} (d : dict V) (k : string) (v : V) :
  forall x, In x (dict_keys (dict_set d k v)) <-> x = k \/ In x (dict_keys d).
Proof.
  intros x. rewrite !dict_keys_find.
  destruct (String.eqb_spec x k) as [-> | Hne].
  - rewrite dict_find_set_same. split; [auto | discriminate].
  - rewrite dict_find_set_other by exact Hne. split; [auto | intros [H | H]; [contradiction | exact H]].
Qed.

Lemma dict_keys_set_NoDup {V : Type} (d : dict V) (k : string) (v : V) :
  NoDup (dict_keys d) -> NoDup (dict_keys (dict_set d k v)).
Proof.
  induction d as [| [k' v'] d IH]; simpl; intros H.
  - constructor; [intros [] | constructor].
  - destruct (String.eqb_spec k k') as [-> | Hne]; simpl.
    + exact H.
    + inversion H as [| ? ? Hnin Hnd]; subst. constructor.
      * fold (dict_keys (dict_set d k v)). rewrite dict_keys_set.
        intros [Heq | Hin]; [congruence | contradiction].
      * apply IH. exact Hnd.
Qed.





Lemma list_get_head {A : Type} (l : list A) (a : A) :
  list_get l 0 = Ok a -> exists l', l = a :: l'.
Proof.
  destruct l as [| x l]; unfold list_get; simpl; intros H.
  - discriminate H.
  - injection H as <-. eauto.
Qed.

Section DictionaryFacts.
Context {U : Interpreter} {F : Type} {PF : PyFloat F} {E : Env F}.


















End DictionaryFacts.



(** ** Loading datasets *)

Lemma dict_find_app {V : Type} (a b : dict V) (k : string) :
  dict_find (a ++ b)%list k
  = match dict_find a k with Some v => Some v | None => dict_find b k end.
Proof.
  induction a as [| [k' v'] a IH]; simpl.
  - reflexivity.
  - destruct (String.eqb k k'); [reflexivity | exact IH].
Qed.

Lemma dict_of_list_find {V : Type} (l : list (string * V)) (k : string) :
  dict_find (dict_of_list l) k = dict_find (rev l) k.
Proof.
  unfold dict_of_list.
  assert (H : forall acc : dict V,
             dict_find (fold_left (fun d kv => dict_set d (fst kv) (snd kv)) l acc) k
             = match dict_find (rev l) k with
               | Some v => Some v
               | None => dict_find acc k
               end).
  { induction l as [| [k0 v0] l IH]; intros acc; simpl.
    - reflexivity.
    - rewrite IH, dict_find_app. simpl.
      destruct (dict_find (rev l) k); [reflexivity |].
      destruct (String.eqb_spec k k0) as [-> | Hne].
      + apply dict_find_set_same.
      + apply dict_find_set_other. exact Hne. }
  rewrite H. destruct (dict_find (rev l) k); reflexivity.
Qed.

Lemma dict_find_rev {V : Type} (d : dict V) (k : string) :
  NoDup (dict_keys d) -> dict_find (rev d) k = dict_find d k.
Proof.
  induction d as [| [k0 v0] d IH]; simpl; intros H.
  - reflexivity.
  - inversion H as [| ? ? Hnin Hnd]; subst.
    rewrite dict_find_app, (IH Hnd). simpl.
    destruct (String.eqb_spec k k0) as [-> | Hne].
    + destruct (dict_find d k0) eqn:Hf; [| reflexivity].
      exfalso. apply Hnin. apply dict_keys_find. fold (dict_keys d). congruence.
    + destruct (dict_find d k); reflexivity.
Qed.

Lemma dict_of_list_keys {V : Type} (l : list (string * V)) (k : string) :
  In k (dict_keys (dict_of_list l)) <-> In k (map fst l).
Proof.
  rewrite dict_keys_find, dict_of_list_find, <- dict_keys_find.
  unfold dict_keys. rewrite map_rev, <- in_rev. reflexivity.
Qed.

Lemma append_inj (p a b : string) : (p ++ a = p ++ b)%string -> a = b.
Proof. induction p as [| c p IH]; simpl; intros H; [exact H | injection H as H; auto]. Qed.

Lemma dict_find_bt_keys {V : Type} (d : dict V) (lang_pair : string) :
  dict_find (map (fun kv => (Bt._get_bt_dataset_key (fst kv), snd kv)) d)
    (Bt._get_bt_dataset_key lang_pair)
  = dict_find d lang_pair.
Proof.
  induction d as [| [k v] d IH]; cbn [map dict_find fst snd].
  - reflexivity.
  - destruct (String.eqb_spec (Bt._get_bt_dataset_key lang_pair) (Bt._get_bt_dataset_key k))
      as [Heq | Hne].
    + apply (append_inj "bt:") in Heq. subst k. rewrite String.eqb_refl. reflexivity.
    + destruct (String.eqb_spec lang_pair k) as [-> | _]; [congruence | exact IH].
Qed.

Lemma bt_keys_NoDup {V : Type} (d : dict V) :
  NoDup (dict_keys d) ->
  NoDup (dict_keys (map (fun kv => (Bt._get_bt_dataset_key (fst kv), snd kv)) d)).
Proof.
  induction d as [| [k v] d IH]; cbn [dict_keys map fst snd]; intros H.
  - constructor.
  - inversion H as [| ? ? Hnin Hnd]; subst. constructor.
    + intros Hin. apply Hnin.
      apply (proj1 (dict_keys_find _ _)) in Hin.
      rewrite dict_find_bt_keys in Hin. apply dict_keys_find. exact Hin.
    + apply IH. exact Hnd.
Qed.

Lemma unpack2_ok {A : Type} (l : list A) (a b : A) :
  unpack2 l = Ok (a, b) -> l = [a; b].
Proof.
  destruct l as [| x [| y [| z l]]]; simpl; intros H; try discriminate H.
  injection H as <- <-. reflexivity.
Qed.

Section LoadFacts.
Context {U : Interpreter} {F : Type} {PF : PyFloat F} {E : Env F}.

Lemma data_path_get (self : Bt.BtTask) (epoch : Z) :
  let paths := Py.split ":" (data (opts (args (Bt.base self)))) in
  list_get paths (Z.to_nat (epoch mod Z.of_nat (List.length paths)))
  = Ok (data_path_of self epoch).
Proof.
  intros paths. unfold data_path_of. fold paths. unfold list_get.
  assert (Hlen : (0 < List.length paths)%nat).
  { pose proof (split_not_nil ":" (data (opts (args (Bt.base self))))) as Hn.
    fold paths in Hn. destruct paths; [congruence | simpl; lia]. }
  assert (Hidx : (Z.to_nat (epoch mod Z.of_nat (List.length paths)) < List.length paths)%nat).
  { pose proof (Z.mod_pos_bound epoch (Z.of_nat (List.length paths))) as Hb. lia. }
  rewrite (nth_error_nth' paths ""%string Hidx). reflexivity.
Qed.

Lemma has_parallel_split (self : Bt.BtTask) (data_path split lang_pair src tgt : string) :
  Py.split "-" lang_pair = [src; tgt] ->
  has_parallel self data_path split lang_pair
  = (Bt.split_exists self data_path split (Some src) (Some tgt) (Some src)
     || Bt.split_exists self data_path split (Some tgt) (Some src) (Some src))%bool.
Proof. intros H. unfold has_parallel. rewrite H. reflexivity. Qed.

(** The parallel loop keeps exactly the pairs that have parallel files. *)
Lemma load_parallel_keys (self : Bt.BtTask) (data_path split : string)
    (pairs : list string) (sd td sd' td' : dict (dataset F SubModel)) :
  Bt.load_parallel self data_path split pairs sd td = Ok (sd', td') ->
  (forall k, In k (dict_keys sd') <->
             In k (dict_keys sd) \/ (In k pairs /\ has_parallel self data_path split k = true))
  /\ (forall p, In p pairs -> well_formed p)
  /\ (forall p, In p pairs -> has_parallel self data_path split p = true ->
                exists src tgt, Py.split "-" p = [src; tgt]
                  /\ dict_find (dicts (Bt.base self)) src <> None
                  /\ dict_find (dicts (Bt.base self)) tgt <> None).
Proof.
  revert sd td. induction pairs as [| p pairs IH]; intros sd td H.
  - simpl in H. injection H as <- <-. split; [| split].
    + intros k. simpl. tauto.
    + intros p [].
    + intros p [].
  - cbn [Bt.load_parallel] in H.
    inv_bind H as st Hst. destruct st as [src tgt]. apply unpack2_ok in Hst.
    pose proof (has_parallel_split self data_path split p src tgt Hst) as Hhp.
    destruct (Bt.split_exists self data_path split (Some src) (Some tgt) (Some src)) eqn:H1;
      [| destruct (Bt.split_exists self data_path split (Some tgt) (Some src) (Some src))
           eqn:H2].
    1, 2: inv_bind H as src_dict Hsd; inv_bind H as tgt_dict Htd;
      destruct (IH _ _ H) as [Hkeys [Hwf Hd]]; (split; [| split]);
      [ intros k; rewrite Hkeys, dict_keys_set; simpl; split;
        [ intros [[-> | Hk] | [Hk Hp]]; auto
        | intros [Hk | [[<- | Hk] Hp]]; auto ]
      | intros q [<- | Hq]; [exists src, tgt; exact Hst | apply Hwf; exact Hq]
      | intros q [<- | Hq] Hp;
        [ exists src, tgt; split; [exact Hst |];
          unfold dict_get in Hsd, Htd;
          destruct (dict_find (dicts (Bt.base self)) src); [| discriminate Hsd];
          destruct (dict_find (dicts (Bt.base self)) tgt); [| discriminate Htd];
          split; discriminate
        | apply Hd; assumption ] ].
    destruct (IH _ _ H) as [Hkeys [Hwf Hd]]. split; [| split].
    + intros k. rewrite Hkeys. simpl. split.
      * intros [Hk | [Hk Hp]]; auto.
      * intros [Hk | [[<- | Hk] Hp]]; auto. simpl in Hhp. congruence.
    + intros q [<- | Hq]; [exists src, tgt; exact Hst | apply Hwf; exact Hq].
    + intros q [<- | Hq] Hp; [simpl in Hhp; congruence | apply Hd; assumption].
Qed.

Lemma load_parallel_NoDup (self : Bt.BtTask) (data_path split : string)
    (pairs : list string) (sd td sd' td' : dict (dataset F SubModel)) :
  Bt.load_parallel self data_path split pairs sd td = Ok (sd', td') ->
  NoDup (dict_keys sd) -> NoDup (dict_keys sd').
Proof.
  revert sd td. induction pairs as [| p pairs IH]; intros sd td H Hn.
  - simpl in H. injection H as <- <-. exact Hn.
  - cbn [Bt.load_parallel] in H.
    inv_bind H as st Hst. destruct st as [src tgt].
    destruct (if Bt.split_exists self data_path split (Some src) (Some tgt) (Some src)
              then _ else _) as [prefix |] in H.
    + inv_bind H as src_dict Hsd. inv_bind H as tgt_dict Htd.
      eapply IH; [exact H |]. apply dict_keys_set_NoDup. exact Hn.
    + eapply IH; eassumption.
Qed.

(** A parallel dataset is built only for a pair the parallel loop kept. *)
Lemma language_pair_dataset_ok (self : Bt.BtTask)
    (sd td : dict (dataset F SubModel)) (lang_pair : string) (d : dataset F SubModel) :
  Bt.language_pair_dataset self sd td lang_pair = Ok d ->
  In lang_pair (dict_keys sd).
Proof.
  intros H. unfold Bt.language_pair_dataset in H.
  inv_bind H as st Hst. destruct st as [src tgt].
  inv_bind H as src_dataset Hs. apply dict_keys_find.
  unfold dict_get in Hs. destruct (dict_find sd lang_pair); [discriminate | discriminate Hs].
Qed.

(** What a back-translation dataset is made of. *)
Lemma backtranslation_dataset_ok (self : Bt.BtTask) (data_path split : string)
    (sd td : dict (dataset F SubModel)) (lang_pair : string) (d : dataset F SubModel) :
  Bt.backtranslation_dataset self data_path split sd td lang_pair = Ok d ->
  exists src tgt tgt_dict src_dict tgt_dataset fn collater,
    Py.split "-" lang_pair = [src; tgt]
    /\ has_monolingual self data_path split lang_pair = true
    /\ dict_find (dicts (Bt.base self)) tgt = Some tgt_dict
    /\ dict_find (dicts (Bt.base self)) src = Some src_dict
    /\ Multilingual.alter_dataset_langtok (Bt.base self)
         (LanguagePairDataset
            (IndexedData (os_path_join data_path
                            (split ++ "." ++ tgt ++ "-None." ++ tgt)%string) tgt_dict)
            tgt_dict None None
            (left_pad_source (args (Bt.base self))) (left_pad_target (args (Bt.base self)))
            None)
         (Some (eos tgt_dict)) (Some tgt) None (Some src) [] "train" = Ok tgt_dataset
    /\ dict_find (Bt.backtranslators self) lang_pair = Some fn
    /\ Bt.language_pair_dataset self sd td lang_pair = Ok collater
    /\ d = BacktranslationDataset tgt_dataset fn src_dict tgt_dict collater.
Proof.
  intros H. unfold Bt.backtranslation_dataset in H.
  inv_bind H as st Hst. destruct st as [src tgt]. apply unpack2_ok in Hst.
  destruct (Bt.split_exists self data_path split (Some tgt) None (Some tgt)) eqn:Hmono;
    cbn [negb] in H; [| discriminate H].
  inv_bind H as tgt_dict Htd. inv_bind H as tgt_dataset Hds.
  inv_bind H as fn Hfn. inv_bind H as src_dict Hsd. inv_bind H as collater Hc.
  injection H as <-.
  exists src, tgt, tgt_dict, src_dict, tgt_dataset, fn, collater.
  unfold dict_get in Htd, Hfn, Hsd.
  destruct (dict_find (dicts (Bt.base self)) tgt); [injection Htd as -> | discriminate Htd].
  destruct (dict_find (Bt.backtranslators self) lang_pair);
    [injection Hfn as -> | discriminate Hfn].
  destruct (dict_find (dicts (Bt.base self)) src); [injection Hsd as -> | discriminate Hsd].
  split; [exact Hst |]. split; [unfold has_monolingual; rewrite Hst; exact Hmono |].
  repeat (split; [reflexivity || assumption |]). reflexivity.
Qed.

(** The back-translation loop stores a dataset for every pair. *)
Lemma load_backtranslation_ok (self : Bt.BtTask) (data_path split : string)
    (sd td : dict (dataset F SubModel)) (pairs : list string)
    (bd sbd bd' sbd' : dict (dataset F SubModel)) :
  Bt.load_backtranslation self data_path split sd td pairs bd sbd = Ok (bd', sbd') ->
  (forall p, In p pairs ->
     exists d, Bt.backtranslation_dataset self data_path split sd td p = Ok d
               /\ dict_find bd' p = Some d)
  /\ (NoDup (dict_keys bd) -> NoDup (dict_keys bd')).
Proof.
  revert bd sbd. induction pairs as [| p pairs IH]; intros bd sbd H.
  - simpl in H. injection H as <- <-. split; [intros p [] | auto].
  - cbn [Bt.load_backtranslation] in H. inv_bind H as d Hd.
    assert (Hkeep : forall (l : list string) (b s b' s' : dict (dataset F SubModel)),
               Bt.load_backtranslation self data_path split sd td l b s = Ok (b', s') ->
               ~ In p l -> dict_find b' p = dict_find b p).
    { clear. induction l as [| q l IHl]; intros b s b' s' H Hnin.
      - simpl in H. injection H as <- <-. reflexivity.
      - cbn [Bt.load_backtranslation] in H. inv_bind H as dq Hdq.
        rewrite (IHl _ _ _ _ H) by (intros Hin; apply Hnin; right; exact Hin).
        apply dict_find_set_other. intros ->. apply Hnin. left. reflexivity. }
    destruct (IH _ _ H) as [Hall Hnd]. split.
    + intros q [<- | Hq].
      * exists d. split; [exact Hd |].
        destruct (in_dec string_dec p pairs) as [Hin | Hnin].
        -- destruct (Hall p Hin) as [d0 [Hd0 Hf]]. congruence.
        -- rewrite (Hkeep _ _ _ _ _ H Hnin). apply dict_find_set_same.
      * apply Hall. exact Hq.
    + intros Hn. apply Hnd. apply dict_keys_set_NoDup. exact Hn.
Qed.

End LoadFacts.

Section LoadDatasetFacts.
Context {U : Interpreter} {F : Type} {PF : PyFloat F} {E : Env F}.

(** [load_dataset], taken apart. *)
Lemma bt_load_dataset_inv (self self' : Bt.BtTask) (h : heap) (split : string) (epoch : Z) :
  Bt.load_dataset self h split epoch = Ok self' ->
  let pairs := deref h (task_lang_pairs (Bt.base self)) in
  let data_path := data_path_of self epoch in
  exists sd td bd sbd parallel eval_key,
    Bt.load_parallel self data_path split pairs [] [] = Ok (sd, td)
    /\ (if startswith split "train"
        then Bt.load_backtranslation self data_path split sd td pairs []
               (Bt.backtranslate_datasets self) = Ok (bd, sbd)
        else bd = [])
    /\ mapM (fun lang_pair =>
               d <- Bt.language_pair_dataset self sd td lang_pair ;; Ok (lang_pair, d))
            (dict_keys sd) = Ok parallel
    /\ dict_find (task_datasets (Bt.base self')) split
       = Some (RoundRobinZipDatasets
                 (dict_of_list
                    (parallel ++ map (fun kv => (Bt._get_bt_dataset_key (fst kv), snd kv)) bd))
                 eval_key).
Proof.
  intros H pairs data_path. unfold Bt.load_dataset in H.
  inv_bind H as u Hu. rewrite data_path_get in H. cbn [bind] in H.
  fold data_path in H. fold pairs in H.
  inv_bind H as sdtd Hpar. destruct sdtd as [sd td].
  destruct (Nat.eqb (List.length sd) 0); [discriminate H |].
  inv_bind H as r Hr. destruct r as [bd sbd].
  inv_bind H as parallel Hparallel.
  exists sd, td, bd, sbd, parallel. eexists.
  split; [exact Hpar |]. split.
  { destruct (startswith split "train"); [exact Hr |]. injection Hr as <- _. reflexivity. }
  split; [exact Hparallel |].
  destruct (String.eqb split "valid" && bt_dds _)%bool in H.
  - inv_bind H as valid Hvalid. inv_bind H as itr Hitr. injection H as <-.
    cbn [Bt.base Bt.set_dev_itr Bt.set_base task_datasets set_task_datasets
         Bt.set_backtranslate_datasets].
    apply dict_find_set_same.
  - injection H as <-.
    cbn [Bt.base Bt.set_dev_itr Bt.set_base task_datasets set_task_datasets
         Bt.set_backtranslate_datasets].
    apply dict_find_set_same.
Qed.

Lemma load_parallel_none (self : Bt.BtTask) (data_path split : string)
    (pairs : list string) (sd td : dict (dataset F SubModel)) :
  (forall p, In p pairs -> well_formed p) ->
  (forall p, In p pairs -> has_parallel self data_path split p = false) ->
  Bt.load_parallel self data_path split pairs sd td = Ok (sd, td).
Proof.
  induction pairs as [| p pairs IH]; intros Hwf Hnone.
  - reflexivity.
  - cbn [Bt.load_parallel].
    destruct (Hwf p (or_introl eq_refl)) as [src [tgt Hst]].
    pose proof (Hnone p (or_introl eq_refl)) as Hp.
    rewrite (has_parallel_split _ _ _ _ _ _ Hst) in Hp.
    apply orb_false_elim in Hp. destruct Hp as [H1 H2].
    rewrite Hst. cbn [unpack2 bind]. rewrite H1, H2.
    apply IH; intros q Hq; [apply Hwf | apply Hnone]; right; exact Hq.
Qed.

Lemma mapM_keys {A : Type} (f : string -> result A) (l : list string)
    (r : list (string * A)) :
  mapM (fun k => d <- f k ;; Ok (k, d)) l = Ok r -> map fst r = l.
Proof.
  revert r. induction l as [| k l IH]; simpl; intros r H.
  - injection H as <-. reflexivity.
  - inv_bind H as kd Hkd. inv_bind H as rest Hrest. injection H as <-.
    inv_bind Hkd as d Hd. injection Hkd as <-. simpl. f_equal. apply IH. exact Hrest.
Qed.

(** When no pair has parallel files the split is not found. *)
Lemma bt_load_dataset_none (self : Bt.BtTask) (h : heap) (split : string) (epoch : Z) :
  (forall p, In p (deref h (task_lang_pairs (Bt.base self))) -> well_formed p) ->
  (forall p, In p (deref h (task_lang_pairs (Bt.base self))) ->
             has_parallel self (data_path_of self epoch) split p = false) ->
  Bt.load_dataset self h split epoch
  = Raise (FileNotFoundError
             ("Dataset not found: " ++ split ++ " (" ++ data_path_of self epoch ++ ")")).
Proof.
  intros Hwf Hnone. unfold Bt.load_dataset.
  assert (Hlt : Nat.ltb 0 (List.length (Py.split ":" (data (opts (args (Bt.base self))))))
                = true).
  { pose proof (split_not_nil ":" (data (opts (args (Bt.base self))))) as Hn.
    destruct (Py.split ":" (data (opts (args (Bt.base self))))); [congruence | reflexivity]. }
  rewrite Hlt. cbn [assert_ bind]. rewrite data_path_get. cbn [bind].
  rewrite (load_parallel_none self _ split _ [] [] Hwf Hnone). reflexivity.
Qed.

(** On a training split a stored composite means that every configured
    pair had its parallel files and its monolingual file. *)
Lemma bt_load_dataset_train (self self' : Bt.BtTask) (h : heap) (split : string)
    (epoch : Z) :
  startswith split "train" = true ->
  Bt.load_dataset self h split epoch = Ok self' ->
  forall p, In p (deref h (task_lang_pairs (Bt.base self))) ->
    has_parallel self (data_path_of self epoch) split p = true
    /\ has_monolingual self (data_path_of self epoch) split p = true.
Proof.
  intros Htrain H p Hp.
  destruct (bt_load_dataset_inv _ _ _ _ _ H)
    as [sd [td [bd [sbd [parallel [eval_key [Hpar [Hbt _]]]]]]]].
  rewrite Htrain in Hbt.
  destruct (proj1 (load_backtranslation_ok _ _ _ _ _ _ _ _ _ _ Hbt) p Hp) as [d [Hd _]].
  destruct (backtranslation_dataset_ok _ _ _ _ _ _ _ Hd)
    as [src [tgt [tgt_dict [src_dict [tgt_dataset [fn [collater
         [_ [Hmono [_ [_ [_ [_ [Hcoll _]]]]]]]]]]]]]].
  split; [| exact Hmono].
  apply language_pair_dataset_ok in Hcoll.
  apply (proj1 (load_parallel_keys _ _ _ _ _ _ _ _ Hpar)) in Hcoll.
  destruct Hcoll as [[] | [_ Hhas]]. exact Hhas.
Qed.

(** On another split the composite has the pairs that have parallel
    files, and only them. *)
Lemma bt_load_dataset_other (self self' : Bt.BtTask) (h : heap) (split : string)
    (epoch : Z) :
  startswith split "train" = false ->
  Bt.load_dataset self h split epoch = Ok self' ->
  exists entries eval_key,
    dict_find (task_datasets (Bt.base self')) split
    = Some (RoundRobinZipDatasets entries eval_key)
    /\ forall k, In k (dict_keys entries) <->
                 In k (deref h (task_lang_pairs (Bt.base self)))
                 /\ has_parallel self (data_path_of self epoch) split k = true.
Proof.
  intros Htrain H.
  destruct (bt_load_dataset_inv _ _ _ _ _ H)
    as [sd [td [bd [sbd [parallel [eval_key [Hpar [Hbt [Hparallel Hfind]]]]]]]]].
  rewrite Htrain in Hbt. subst bd. cbn [map] in Hfind. rewrite app_nil_r in Hfind.
  exists (dict_of_list parallel), eval_key. split; [exact Hfind |].
  intros k. rewrite dict_of_list_keys, (mapM_keys _ _ _ Hparallel).
  rewrite (proj1 (load_parallel_keys _ _ _ _ _ _ _ _ Hpar)). simpl. tauto.
Qed.

End LoadDatasetFacts.

(** *** The back-translation entries and their closures *)

Section BacktranslationFacts.
Context {U : Interpreter} {F : Type} {PF : PyFloat F} {E : Env F}.

Lemma make_backtranslators_keep (t : Task F SubModel) (a : Args F) (models : dict SubModel)
    (pairs : list string) (p : string) :
  forall generators translators generators' translators',
    Bt.make_backtranslators t a models pairs generators translators
    = Ok (generators', translators') ->
    ~ In p pairs -> dict_find translators' p = dict_find translators p.
Proof.
  induction pairs as [| q pairs IH]; intros g tr g' tr' H Hnin.
  - simpl in H. injection H as _ <-. reflexivity.
  - cbn [Bt.make_backtranslators] in H.
    inv_bind H as st Hst. destruct st as [src tgt].
    inv_bind H as src_dict Hsd. inv_bind H as idx Hidx.
    inv_bind H as m Hm. inv_bind H as gen Hgen.
    rewrite (IH _ _ _ _ H) by (intros Hin; apply Hnin; right; exact Hin).
    apply dict_find_set_other. intros ->. apply Hnin. left. reflexivity.
Qed.

Lemma make_backtranslators_ok (t : Task F SubModel) (a : Args F) (models : dict SubModel)
    (pairs : list string) :
  forall generators translators generators' translators',
    Bt.make_backtranslators t a models pairs generators translators
    = Ok (generators', translators') ->
    forall p, In p pairs ->
      exists fn, dict_find translators' p = Some fn /\ closure_of t a models p fn.
Proof.
  induction pairs as [| q pairs IH]; intros g tr g' tr' H p Hp.
  - destruct Hp.
  - destruct (in_dec string_dec p pairs) as [Hin | Hnin].
    + cbn [Bt.make_backtranslators] in H.
      inv_bind H as st Hst. destruct st as [src tgt].
      inv_bind H as src_dict Hsd. inv_bind H as idx Hidx.
      inv_bind H as m Hm. inv_bind H as gen Hgen.
      exact (IH _ _ _ _ H p Hin).
    + destruct Hp as [<- | Hp]; [| contradiction].
      pose proof (make_backtranslators_keep t a models pairs q) as Hkeep.
      cbn [Bt.make_backtranslators] in H.
      inv_bind H as st Hst. destruct st as [src tgt]. apply unpack2_ok in Hst.
      inv_bind H as src_dict Hsd. inv_bind H as idx Hidx.
      inv_bind H as m Hm. inv_bind H as gen Hgen.
      rewrite (Hkeep _ _ _ _ H Hnin). rewrite dict_find_set_same.
      eexists. split; [reflexivity |].
      exists src, tgt, src_dict. cbn [bt_model bt_bos_token bt_sequence_generator].
      unfold dict_get in Hsd, Hm, Hgen.
      rewrite dict_find_set_same in Hgen. injection Hgen as <-.
      destruct (dict_find (dicts t) src) as [sdict |]; [| discriminate Hsd].
      injection Hsd as ->.
      destruct (dict_find models (tgt ++ "-" ++ src)) as [m' |]; [| discriminate Hm].
      injection Hm as ->.
      split; [exact Hst |]. repeat split; try reflexivity. exact Hidx.
Qed.

(** In training mode a call of [build_model] that returns has run the
    closure loop over the restored [self.lang_pairs]. *)
Lemma bt_build_model_training (self self' : Bt.BtTask) (h h' : heap) (a : Args F)
    (model : Model SubModel) :
  Bt.build_model self h a = (Ok model, self', h') ->
  training (Bt.base self) = true ->
  exists models,
    model = FairseqMultiModel models
    /\ Bt.make_backtranslators (Bt.base self') a models
         (deref h' (task_lang_pairs (Bt.base self'))) [] (Bt.backtranslators self)
       = Ok (Bt.sequence_generators self', Bt.backtranslators self').
Proof.
  intros H Htr. unfold Bt.build_model in H.
  set (lp := task_lang_pairs (Bt.base self)) in *.
  change (alloc h (deref h lp)) with (List.length h, snd (alloc h (deref h lp))) in H.
  cbv beta iota zeta in H.
  destruct (Bt.append_reverse _ _ _) as [[u | e] h1] in H; [| discriminate H].
  destruct (models_build_model h1 a (Bt.base self)) as [[models |] | e] in H;
    [| discriminate H | discriminate H].
  cbn [Bt.base Bt.set_base task_lang_pairs set_task_lang_pairs args training] in H.
  destruct (if bt_dds (opts (args (Bt.base self))) then _ else _) as [o | e] in H;
    [| discriminate H].
  rewrite Htr in H.
  destruct (Bt.make_backtranslators _ _ _ _ _ _) as [[generators translators] | e] eqn:Hmk in H;
    [| discriminate H].
  injection H as <- <- <-. exists models. split; [reflexivity |].
  cbn [Bt.base Bt.set_base Bt.set_generators Bt.set_data_optimizer task_lang_pairs
       set_task_lang_pairs Bt.backtranslators Bt.sequence_generators] in *.
  exact Hmk.
Qed.

(** The keys of the back-translation dictionary after the loop. *)
Lemma load_backtranslation_keys (self : Bt.BtTask) (data_path split : string)
    (sd td : dict (dataset F SubModel)) (pairs : list string) :
  forall bd sbd bd' sbd',
    Bt.load_backtranslation self data_path split sd td pairs bd sbd = Ok (bd', sbd') ->
    forall k, In k (dict_keys bd') <-> In k (dict_keys bd) \/ In k pairs.
Proof.
  induction pairs as [| p pairs IH]; intros bd sbd bd' sbd' H k.
  - simpl in H. injection H as <- <-. simpl. tauto.
  - cbn [Bt.load_backtranslation] in H. inv_bind H as d Hd.
    rewrite (IH _ _ _ _ H k), dict_keys_set. simpl.
    split; [intros [[-> | Hk] | Hk] | intros [Hk | [<- | Hk]]]; auto.
Qed.

End BacktranslationFacts.

Section EntryFacts.
Context {U : Interpreter} {F : Type} {PF : PyFloat F} {E : Env F}.

(** After a call of [build_model] that returns, [self.lang_pairs] reads
    as before the call. *)
Lemma bt_build_model_lang_pairs (self self' : Bt.BtTask) (h h' : heap) (a : Args F)
    (model : Model SubModel) :
  (task_lang_pairs (Bt.base self) < List.length h)%nat ->
  Bt.build_model self h a = (Ok model, self', h') ->
  deref h' (task_lang_pairs (Bt.base self')) = deref h (task_lang_pairs (Bt.base self)).
Proof.
  intros Hlp H.
  destruct (bt_build_model_ok_inv _ _ _ _ _ _ H) as [h1 [Happ [model' Hmodel]]].
  pose proof (bt_build_model_after_builder self h a Hlp h1 Happ model' Hmodel) as Hafter.
  rewrite H in Hafter. destruct Hafter as [Hsame _]. exact Hsame.
Qed.

(** The entries of the composite of a training split. *)
Lemma bt_load_dataset_entries (self self' : Bt.BtTask) (h : heap) (split : string)
    (epoch : Z) :
  startswith split "train" = true ->
  Bt.load_dataset self h split epoch = Ok self' ->
  exists entries eval_key,
    dict_find (task_datasets (Bt.base self')) split
    = Some (RoundRobinZipDatasets entries eval_key)
    /\ (forall k, In k (dict_keys entries) <->
                  In k (deref h (task_lang_pairs (Bt.base self)))
                  \/ exists p, In p (deref h (task_lang_pairs (Bt.base self)))
                               /\ k = ("bt:" ++ p)%string)
    /\ forall lang_pair, In lang_pair (deref h (task_lang_pairs (Bt.base self))) ->
         backtranslation_entry self (data_path_of self epoch) split lang_pair entries.
Proof.
  intros Htrain H.
  pose proof (bt_load_dataset_train _ _ _ _ _ Htrain H) as Hall.
  destruct (bt_load_dataset_inv _ _ _ _ _ H)
    as [sd [td [bd [sbd [parallel [eval_key [Hpar [Hbt [Hparallel Hfind]]]]]]]]].
  rewrite Htrain in Hbt.
  destruct (load_backtranslation_ok _ _ _ _ _ _ _ _ _ _ Hbt) as [Hds Hnd].
  specialize (Hnd (NoDup_nil _)).
  eexists. exists eval_key. split; [exact Hfind |]. split.
  - intros k. rewrite dict_of_list_keys, map_app, in_app_iff.
    rewrite (mapM_keys _ _ _ Hparallel).
    rewrite (proj1 (load_parallel_keys _ _ _ _ _ _ _ _ Hpar)).
    rewrite map_map. cbn [fst]. rewrite in_map_iff. split.
    + intros [[[] | [Hk _]] | [[p d] [Hk Hin]]]; [left; exact Hk |].
      right. exists p. split; [| symmetry; exact Hk].
      apply (in_map fst) in Hin. cbn [fst] in Hin.
      apply (load_backtranslation_keys _ _ _ _ _ _ _ _ _ _ Hbt) in Hin.
      destruct Hin as [[] | Hin]. exact Hin.
    + intros [Hk | [p [Hp ->]]].
      * left. right. split; [exact Hk | apply (Hall k Hk)].
      * right. destruct (Hds p Hp) as [d [_ Hf]].
        assert (Hin : In p (dict_keys bd)) by (apply dict_keys_find; congruence).
        unfold dict_keys in Hin. apply in_map_iff in Hin.
        destruct Hin as [[p' d'] [Hp' Hin]]. cbn [fst] in Hp'. subst p'.
        exists (p, d'). split; [reflexivity | exact Hin].
  - intros lang_pair Hin.
    destruct (Hds lang_pair Hin) as [d [Hd Hf]].
    destruct (backtranslation_dataset_ok _ _ _ _ _ _ _ Hd)
      as [src [tgt [tgt_dict [src_dict [tgt_dataset [fn [collater
           [Hst [_ [Htd [Hsd [Halt [Hfn [_ ->]]]]]]]]]]]]]].
    exists src, tgt, src_dict, tgt_dict, tgt_dataset, fn, collater.
    repeat (split; [assumption |]).
    rewrite dict_of_list_find, rev_app_distr, dict_find_app.
    rewrite dict_find_rev by (apply bt_keys_NoDup; exact Hnd).
    change ("bt:" ++ lang_pair)%string with (Bt._get_bt_dataset_key lang_pair).
    rewrite dict_find_bt_keys, Hf. reflexivity.
Qed.

End EntryFacts.

(** *** The missing-file policy of the back-translation [load_dataset] *)

Section PolicyFacts.
Context {U : Interpreter} {F : Type} {PF : PyFloat F} {E : Env F}.

Lemma load_parallel_keep (self : Bt.BtTask) (data_path split p : string)
    (pairs : list string) :
  forall sd td sd' td',
    Bt.load_parallel self data_path split pairs sd td = Ok (sd', td') ->
    ~ In p pairs ->
    dict_find sd' p = dict_find sd p /\ dict_find td' p = dict_find td p.
Proof.
  induction pairs as [| q pairs IH]; intros sd td sd' td' H Hnin.
  - simpl in H. injection H as <- <-. auto.
  - assert (Hq : p <> q) by (intros ->; apply Hnin; left; reflexivity).
    assert (Hrest : ~ In p pairs) by (intros Hin; apply Hnin; right; exact Hin).
    cbn [Bt.load_parallel] in H.
    inv_bind H as st Hst. destruct st as [src tgt].
    destruct (if Bt.split_exists self data_path split (Some src) (Some tgt) (Some src)
              then _ else _) as [prefix |] in H.
    + inv_bind H as src_dict Hsd. inv_bind H as tgt_dict Htd.
      destruct (IH _ _ _ _ H Hrest) as [-> ->].
      split; apply dict_find_set_other; exact Hq.
    + exact (IH _ _ _ _ H Hrest).
Qed.

(** What the parallel loop stores for a configured pair. *)
Lemma load_parallel_find (self : Bt.BtTask) (data_path split : string)
    (pairs : list string) :
  forall sd td sd' td',
    Bt.load_parallel self data_path split pairs sd td = Ok (sd', td') ->
    forall p src tgt, In p pairs -> Py.split "-" p = [src; tgt] ->
      match parallel_prefix self data_path split src tgt with
      | Some prefix =>
          exists src_dict tgt_dict,
            dict_find (dicts (Bt.base self)) src = Some src_dict
            /\ dict_find (dicts (Bt.base self)) tgt = Some tgt_dict
            /\ dict_find sd' p = Some (IndexedData (prefix ++ src) src_dict)
            /\ dict_find td' p = Some (IndexedData (prefix ++ tgt) tgt_dict)
      | None => dict_find sd' p = dict_find sd p /\ dict_find td' p = dict_find td p
      end.
Proof.
  induction pairs as [| q pairs IH]; intros sd td sd' td' H p src tgt Hin Hp.
  - destruct Hin.
  - cbn [Bt.load_parallel] in H.
    inv_bind H as st Hst. destruct st as [src' tgt']. apply unpack2_ok in Hst.
    destruct (in_dec string_dec p pairs) as [Hrest | Hrest].
    + destruct (if Bt.split_exists self data_path split (Some src') (Some tgt') (Some src')
                then _ else _) as [prefix |] eqn:Hfound in H.
      * inv_bind H as src_dict Hsd. inv_bind H as tgt_dict Htd.
        specialize (IH _ _ _ _ H p src tgt Hrest Hp).
        destruct (parallel_prefix self data_path split src tgt) as [pre |] eqn:Hpre;
          [exact IH |].
        destruct IH as [-> ->].
        assert (Hq : p <> q).
        { intros ->. rewrite Hp in Hst. injection Hst as <- <-.
          change (parallel_prefix self data_path split src tgt = Some prefix) in Hfound.
          congruence. }
        split; apply dict_find_set_other; exact Hq.
      * exact (IH _ _ _ _ H p src tgt Hrest Hp).
    + destruct Hin as [-> | Hin]; [| contradiction].
      rewrite Hp in Hst. injection Hst as <- <-.
      destruct (if Bt.split_exists self data_path split (Some src) (Some tgt) (Some src)
                then _ else _) as [prefix |] eqn:Hfound in H;
        change (parallel_prefix self data_path split src tgt) with
          (if Bt.split_exists self data_path split (Some src) (Some tgt) (Some src)
           then Some (os_path_join data_path (split ++ "." ++ src ++ "-" ++ tgt ++ "."))
           else if Bt.split_exists self data_path split (Some tgt) (Some src) (Some src)
           then Some (os_path_join data_path (split ++ "." ++ tgt ++ "-" ++ src ++ "."))
           else None);
        rewrite Hfound.
      * inv_bind H as src_dict Hsd. inv_bind H as tgt_dict Htd.
        destruct (load_parallel_keep _ _ _ p _ _ _ _ _ H Hrest) as [-> ->].
        rewrite !dict_find_set_same.
        unfold dict_get in Hsd, Htd.
        destruct (dict_find (dicts (Bt.base self)) src) as [sdict |]; [| discriminate Hsd].
        destruct (dict_find (dicts (Bt.base self)) tgt) as [tdict |]; [| discriminate Htd].
        injection Hsd as ->. injection Htd as ->.
        exists src_dict, tgt_dict. auto.
      * exact (load_parallel_keep _ _ _ p _ _ _ _ _ H Hrest).
Qed.

End PolicyFacts.

(** ** When the calls return *)

Section BuildTotal.
Context {U : Interpreter} {F : Type} {PF : PyFloat F} {E : Env F}.



(** The closure loop returns when every pair is well formed, its source
    language has a dictionary and a decoder token, and the model has the
    sub-model of the reverse pair. *)
Lemma make_backtranslators_total (t : Task F SubModel) (a : Args F)
    (models : dict SubModel) (pairs : list string) :
  (forall p, In p pairs ->
     exists src tgt src_dict tok m,
       Py.split "-" p = [src; tgt]
       /\ dict_find (dicts t) src = Some src_dict
       /\ Multilingual.get_decoder_langtok t (Some src) = Ok tok
       /\ dict_find models (tgt ++ "-" ++ src) = Some m) ->
  forall generators translators,
  exists generators' translators',
    Bt.make_backtranslators t a models pairs generators translators
    = Ok (generators', translators').
Proof.
  induction pairs as [| p pairs IH]; intros H generators translators.
  - eexists. eexists. reflexivity.
  - destruct (H p (or_introl eq_refl)) as [src [tgt [src_dict [tok [m [Hst [Hsd [Htok Hm]]]]]]]].
    cbn [Bt.make_backtranslators]. rewrite Hst. cbn [unpack2 bind].
    unfold dict_get. rewrite Hsd. cbn [bind]. rewrite Htok. cbn [bind].
    rewrite Hm. cbn [bind]. rewrite dict_find_set_same. cbn [bind].
    apply IH. intros q Hq. apply H. right. exact Hq.
Qed.



(** A call of [build_model] returns the built model when the pairs are
    well formed, the builder returns a multi-model and, in training mode,
    the closure of every pair can be made. *)
Lemma bt_build_model_returns (self : Bt.BtTask) (h h1 : heap) (a : Args F)
    (models : dict SubModel) :
  (task_lang_pairs (Bt.base self) < List.length h)%nat ->
  Bt.append_reverse (snd (alloc h (deref h (task_lang_pairs (Bt.base self)))))
    (task_lang_pairs (Bt.base self)) (deref h (task_lang_pairs (Bt.base self)))
  = (Ok tt, h1) ->
  models_build_model h1 a (Bt.base self) = Ok (FairseqMultiModel models) ->
  bt_dds (opts (args (Bt.base self))) = false ->
  (training (Bt.base self) = true ->
   forall p, In p (deref h (task_lang_pairs (Bt.base self))) -> closable self models p) ->
  exists self',
    Bt.build_model self h a = (Ok (FairseqMultiModel models), self', h1)
    /\ deref h1 (task_lang_pairs (Bt.base self'))
       = deref h (task_lang_pairs (Bt.base self)).
Proof.
  set (lp := task_lang_pairs (Bt.base self)).
  intros Hlp Happ Hm Hdds Hcl.
  pose proof (bt_build_model_after_builder self h a Hlp h1 Happ _ Hm) as Hafter.
  assert (Hcopy : deref h1 (List.length h) = deref h lp).
  { destruct (append_reverse_ok _ _ _ lp (alloc_keeps _ _ _ Hlp) Happ)
      as [reversed [_ [_ [_ Hother]]]].
    rewrite Hother by (unfold lp; lia).
    apply (deref_alloc_new h (deref h lp)). }
  revert Hafter. unfold Bt.build_model. fold lp.
  change (alloc h (deref h lp)) with (List.length h, snd (alloc h (deref h lp))).
  cbv beta iota zeta.
  replace (deref (snd (alloc h (deref h lp))) (List.length h)) with (deref h lp)
    by (symmetry; apply (deref_alloc_new h (deref h lp))).
  rewrite Happ, Hm.
  cbn [Bt.base Bt.set_base task_lang_pairs set_task_lang_pairs args training].
  rewrite Hdds. rewrite Hcopy.
  destruct (training (Bt.base self)) eqn:Htr.
  - destruct (make_backtranslators_total
                (set_task_lang_pairs (List.length h) (Bt.base self)) a models (deref h lp)
                (Hcl eq_refl) [] (Bt.backtranslators self))
      as [g [tr Hmk]].
    cbn [Bt.backtranslators Bt.set_generators Bt.set_data_optimizer Bt.set_base
         Bt.data_optimizer].
    rewrite Hmk. intros [Hsame _]. eexists. split; [reflexivity | exact Hsame].
  - intros [Hsame _]. eexists. split; [reflexivity | exact Hsame].
Qed.

End BuildTotal.

Section LoadTotal.
Context {U : Interpreter} {F : Type} {PF : PyFloat F} {E : Env F}.

Lemma mapM_exists {A B : Type} (f : A -> result B) (l : list A) :
  (forall a, In a l -> exists b, f a = Ok b) -> exists r, mapM f l = Ok r.
Proof.
  induction l as [| x l IH]; intros H.
  - eexists. reflexivity.
  - destruct (H x (or_introl eq_refl)) as [b Hb].
    destruct IH as [r Hr]; [intros a Ha; apply H; right; exact Ha |].
    cbn [mapM]. rewrite Hb, Hr. eexists. reflexivity.
Qed.

(** Without eligible targets [alter_dataset_langtok] returns once the
    tokens it looks up are found. *)
Lemma alter_dataset_langtok_plain (self : Task F SubModel) (d : dataset F SubModel)
    (src_eos : option Z) (src_lang : option string) (tgt_eos : option Z)
    (tgt_lang : option string) (split : string) :
  (encoder_langtok (opts (args self)) <> None ->
   src_eos <> None -> src_lang <> None -> tgt_lang <> None ->
   exists tok, Multilingual.get_encoder_langtok self src_lang tgt_lang = Ok tok) ->
  (decoder_langtok (opts (args self)) = true ->
   tgt_eos <> None -> tgt_lang <> None ->
   exists tok, Multilingual.get_decoder_langtok self tgt_lang = Ok tok) ->
  exists d', Multilingual.alter_dataset_langtok self d src_eos src_lang tgt_eos tgt_lang
               [] split = Ok d'.
Proof.
  intros Henc Hdec. unfold Multilingual.alter_dataset_langtok.
  destruct (negb _ && negb _)%bool; [eauto |].
  assert (Hr1 : exists r,
             (if (Multilingual.is_some (encoder_langtok (opts (args self)))
                  && Multilingual.is_some src_eos && Multilingual.is_some src_lang
                  && Multilingual.is_some tgt_lang)%bool
              then t <- Multilingual.get_encoder_langtok self src_lang tgt_lang ;;
                   Ok (src_eos, Some t)
              else Ok (None, None)) = Ok r).
  { destruct (encoder_langtok (opts (args self))) as [m |]; [| cbn; eauto].
    destruct src_eos as [se |]; [| cbn; eauto].
    destruct src_lang as [sl |]; [| cbn; eauto].
    destruct tgt_lang as [tl |]; [| cbn; eauto].
    destruct Henc as [tok Htok]; try discriminate.
    cbn [Multilingual.is_some andb]. rewrite Htok. cbn [bind]. eauto. }
  destruct Hr1 as [[se nse] Hr1]. rewrite Hr1. cbn [bind].
  assert (Hr2 : exists r,
             (if (decoder_langtok (opts (args self)) && Multilingual.is_some tgt_eos
                  && Multilingual.is_some tgt_lang)%bool
              then t <- Multilingual.get_decoder_langtok self tgt_lang ;;
                   Ok (tgt_eos, Some t)
              else Ok (None, None)) = Ok r).
  { destruct (decoder_langtok (opts (args self))) eqn:Hd; [| cbn; eauto].
    destruct tgt_eos as [te |]; [| cbn; eauto].
    destruct tgt_lang as [tl |]; [| cbn; eauto].
    destruct Hdec as [tok Htok]; try discriminate; [reflexivity |].
    cbn [Multilingual.is_some andb]. rewrite Htok. cbn [bind]. eauto. }
  destruct Hr2 as [[tb ntb] Hr2]. rewrite Hr2. cbn [bind].
  replace (String.eqb split "train" && Multilingual.opt_mem tgt_lang [])%bool with false.
  - cbn [bind]. eauto.
  - destruct tgt_lang; cbn; rewrite andb_false_r; reflexivity.
Qed.

(** The parallel loop returns when the pairs are well formed and the
    languages of the pairs that have files have dictionaries. *)
Lemma load_parallel_total (self : Bt.BtTask) (data_path split : string)
    (pairs : list string) :
  (forall p, In p pairs -> readable self data_path split p) ->
  forall sd td, exists sd' td',
    Bt.load_parallel self data_path split pairs sd td = Ok (sd', td').
Proof.
  induction pairs as [| p pairs IH]; intros H sd td.
  - eexists. eexists. reflexivity.
  - destruct (H p (or_introl eq_refl)) as [src [tgt [Hst Hd]]].
    assert (Hrest : forall q, In q pairs -> readable self data_path split q)
      by (intros q Hq; apply H; right; exact Hq).
    cbn [Bt.load_parallel]. rewrite Hst. cbn [unpack2 bind].
    rewrite (has_parallel_split self data_path split p src tgt Hst) in Hd.
    destruct (Bt.split_exists self data_path split (Some src) (Some tgt) (Some src));
      [| destruct (Bt.split_exists self data_path split (Some tgt) (Some src) (Some src))].
    1, 2: destruct Hd as [Hs Ht]; [reflexivity |];
      unfold dict_get;
      destruct (dict_find (dicts (Bt.base self)) src); [| congruence];
      destruct (dict_find (dicts (Bt.base self)) tgt); [| congruence];
      cbn [bind]; apply IH; exact Hrest.
    apply IH. exact Hrest.
Qed.

Lemma parallel_prefix_some (self : Bt.BtTask) (data_path split p src tgt : string) :
  Py.split "-" p = [src; tgt] ->
  has_parallel self data_path split p = true ->
  exists prefix, parallel_prefix self data_path split src tgt = Some prefix.
Proof.
  intros Hst Hp. rewrite (has_parallel_split self data_path split p src tgt Hst) in Hp.
  unfold parallel_prefix.
  destruct (Bt.split_exists self data_path split (Some src) (Some tgt) (Some src));
    [eauto |].
  destruct (Bt.split_exists self data_path split (Some tgt) (Some src) (Some src));
    [eauto | discriminate Hp].
Qed.

Lemma parallel_prefix_none (self : Bt.BtTask) (data_path split p src tgt : string) :
  Py.split "-" p = [src; tgt] ->
  has_parallel self data_path split p = false ->
  parallel_prefix self data_path split src tgt = None.
Proof.
  intros Hst Hp. rewrite (has_parallel_split self data_path split p src tgt Hst) in Hp.
  unfold parallel_prefix. apply orb_false_elim in Hp. destruct Hp as [-> ->]. reflexivity.
Qed.

(** The pairs the parallel loop kept, from no dataset. *)
Lemma load_parallel_stored (self : Bt.BtTask) (data_path split : string)
    (pairs : list string) (sd td : dict (dataset F SubModel)) :
  Bt.load_parallel self data_path split pairs [] [] = Ok (sd, td) ->
  forall p src tgt, In p pairs -> Py.split "-" p = [src; tgt] ->
    if has_parallel self data_path split p
    then dict_find sd p <> None /\ dict_find td p <> None
    else dict_find sd p = None.
Proof.
  intros H p src tgt Hp Hst.
  pose proof (load_parallel_find _ _ _ _ _ _ _ _ H p src tgt Hp Hst) as Hf.
  destruct (has_parallel self data_path split p) eqn:Hhas.
  - destruct (parallel_prefix_some self data_path split p src tgt Hst Hhas) as [prefix Hpre].
    rewrite Hpre in Hf. destruct Hf as [sdict [tdict [_ [_ [-> ->]]]]].
    split; discriminate.
  - rewrite (parallel_prefix_none self data_path split p src tgt Hst Hhas) in Hf.
    destruct Hf as [-> _]. reflexivity.
Qed.

(** The parallel dataset of a pair the parallel loop kept is built once
    its tokens are found. *)
Lemma language_pair_dataset_total (self : Bt.BtTask)
    (sd td : dict (dataset F SubModel)) (p src tgt : string) :
  Py.split "-" p = [src; tgt] ->
  dict_find sd p <> None ->
  dict_find td p <> None ->
  dict_find (dicts (Bt.base self)) src <> None ->
  dict_find (dicts (Bt.base self)) tgt <> None ->
  tokens_known self p ->
  exists d, Bt.language_pair_dataset self sd td p = Ok d.
Proof.
  intros Hst Hsd Htd Hs Ht Hk. unfold Bt.language_pair_dataset.
  rewrite Hst. cbn [unpack2 bind]. unfold dict_get.
  destruct (dict_find sd p) as [sds |]; [| congruence].
  destruct (dict_find td p) as [tds |]; [| congruence].
  destruct (dict_find (dicts (Bt.base self)) src) as [sdict |]; [| congruence].
  destruct (dict_find (dicts (Bt.base self)) tgt) as [tdict |]; [| congruence].
  cbn [bind]. destruct (Hk src tgt Hst) as [Henc Hdec].
  apply alter_dataset_langtok_plain.
  - intros He _ _ _. exact (proj1 (Henc He)).
  - intros Hd _ _. exact (Hdec Hd).
Qed.

(** The parallel dataset of a pair the parallel loop skipped. *)
Lemma language_pair_dataset_skipped (self : Bt.BtTask)
    (sd td : dict (dataset F SubModel)) (p src tgt : string) :
  Py.split "-" p = [src; tgt] ->
  dict_find sd p = None ->
  Bt.language_pair_dataset self sd td p = Raise (KeyError p).
Proof.
  intros Hst Hsd. unfold Bt.language_pair_dataset.
  rewrite Hst. cbn [unpack2 bind]. unfold dict_get. rewrite Hsd. reflexivity.
Qed.

(** The tagged monolingual dataset of a pair is built once its tokens
    are found. *)
Lemma monolingual_dataset_total (self : Bt.BtTask) (data_path split p src tgt : string)
    (tdict : Dictionary) :
  Py.split "-" p = [src; tgt] ->
  tokens_known self p ->
  exists tds,
    Multilingual.alter_dataset_langtok (Bt.base self)
      (monolingual_dataset self data_path split tgt tdict)
      (Some (eos tdict)) (Some tgt) None (Some src) [] "train" = Ok tds.
Proof.
  intros Hst Hk. destruct (Hk src tgt Hst) as [Henc Hdec].
  apply alter_dataset_langtok_plain.
  - intros He _ _ _. exact (proj2 (Henc He)).
  - intros _ Hn. congruence.
Qed.

(** The back-translation dataset of a pair is built when the pair has
    its monolingual file, its parallel datasets, its closure, and its
    tokens are found. *)
Lemma backtranslation_dataset_total (self : Bt.BtTask) (data_path split : string)
    (sd td : dict (dataset F SubModel)) (p src tgt : string) :
  Py.split "-" p = [src; tgt] ->
  has_monolingual self data_path split p = true ->
  dict_find sd p <> None ->
  dict_find td p <> None ->
  dict_find (dicts (Bt.base self)) src <> None ->
  dict_find (dicts (Bt.base self)) tgt <> None ->
  dict_find (Bt.backtranslators self) p <> None ->
  tokens_known self p ->
  exists d, Bt.backtranslation_dataset self data_path split sd td p = Ok d.
Proof.
  intros Hst Hmono Hsd Htd Hs Ht Hfn Hk. unfold Bt.backtranslation_dataset.
  rewrite Hst. cbn [unpack2 bind].
  unfold has_monolingual in Hmono. rewrite Hst in Hmono. rewrite Hmono. cbn [negb].
  destruct (language_pair_dataset_total self sd td p src tgt Hst Hsd Htd Hs Ht Hk)
    as [collater Hc].
  unfold dict_get.
  destruct (dict_find (dicts (Bt.base self)) tgt) as [tdict |]; [| congruence].
  cbn [bind].
  destruct (monolingual_dataset_total self data_path split p src tgt tdict Hst Hk)
    as [tds Htds].
  unfold monolingual_dataset in Htds. rewrite Htds. cbn [bind].
  destruct (dict_find (Bt.backtranslators self) p) as [fn |]; [| congruence].
  destruct (dict_find (dicts (Bt.base self)) src) as [sdict |]; [| congruence].
  cbn [bind]. rewrite Hc. cbn [bind]. eauto.
Qed.

(** The back-translation dataset of a pair whose monolingual file is
    missing. *)
Lemma backtranslation_dataset_no_file (self : Bt.BtTask) (data_path split : string)
    (sd td : dict (dataset F SubModel)) (p src tgt : string) :
  Py.split "-" p = [src; tgt] ->
  has_monolingual self data_path split p = false ->
  Bt.backtranslation_dataset self data_path split sd td p
  = Raise (FileNotFoundError
             ("Dataset not found: backtranslation " ++ split ++ " (" ++ data_path ++ ")")).
Proof.
  intros Hst Hmono. unfold Bt.backtranslation_dataset.
  rewrite Hst. cbn [unpack2 bind].
  unfold has_monolingual in Hmono. rewrite Hst in Hmono. rewrite Hmono. reflexivity.
Qed.

(** The back-translation dataset of a pair that has its monolingual file
    and no parallel dataset. *)
Lemma backtranslation_dataset_skipped (self : Bt.BtTask) (data_path split : string)
    (sd td : dict (dataset F SubModel)) (p src tgt : string) :
  Py.split "-" p = [src; tgt] ->
  has_monolingual self data_path split p = true ->
  dict_find sd p = None ->
  dict_find (dicts (Bt.base self)) src <> None ->
  dict_find (dicts (Bt.base self)) tgt <> None ->
  dict_find (Bt.backtranslators self) p <> None ->
  tokens_known self p ->
  Bt.backtranslation_dataset self data_path split sd td p = Raise (KeyError p).
Proof.
  intros Hst Hmono Hsd Hs Ht Hfn Hk. unfold Bt.backtranslation_dataset.
  rewrite Hst. cbn [unpack2 bind].
  unfold has_monolingual in Hmono. rewrite Hst in Hmono. rewrite Hmono. cbn [negb].
  unfold dict_get.
  destruct (dict_find (dicts (Bt.base self)) tgt) as [tdict |]; [| congruence].
  cbn [bind].
  destruct (monolingual_dataset_total self data_path split p src tgt tdict Hst Hk)
    as [tds Htds].
  unfold monolingual_dataset in Htds. rewrite Htds. cbn [bind].
  destruct (dict_find (Bt.backtranslators self) p) as [fn |]; [| congruence].
  destruct (dict_find (dicts (Bt.base self)) src) as [sdict |]; [| congruence].
  cbn [bind].
  rewrite (language_pair_dataset_skipped self sd td p src tgt Hst Hsd). reflexivity.
Qed.

Lemma load_backtranslation_total (self : Bt.BtTask) (data_path split : string)
    (sd td : dict (dataset F SubModel)) (pairs : list string) :
  (forall p, In p pairs ->
     exists d, Bt.backtranslation_dataset self data_path split sd td p = Ok d) ->
  forall bd sbd, exists bd' sbd',
    Bt.load_backtranslation self data_path split sd td pairs bd sbd = Ok (bd', sbd').
Proof.
  induction pairs as [| p pairs IH]; intros H bd sbd.
  - eexists. eexists. reflexivity.
  - destruct (H p (or_introl eq_refl)) as [d Hd].
    cbn [Bt.load_backtranslation]. rewrite Hd. cbn [bind].
    apply IH. intros q Hq. apply H. right. exact Hq.
Qed.

Lemma startswith_train_not_valid (split : string) :
  startswith split "train" = true -> String.eqb split "valid" = false.
Proof.
  intros H. destruct (String.eqb_spec split "valid") as [-> | Hne]; [| reflexivity].
  discriminate H.
Qed.

(** The start of [load_dataset]: the data directory and the parallel
    loop. *)
Lemma bt_load_dataset_start (self : Bt.BtTask) (h : heap) (split : string) (epoch : Z) :
  (forall p, In p (deref h (task_lang_pairs (Bt.base self))) ->
             readable self (data_path_of self epoch) split p) ->
  exists sd td,
    Bt.load_parallel self (data_path_of self epoch) split
      (deref h (task_lang_pairs (Bt.base self))) [] [] = Ok (sd, td)
    /\ Bt.load_dataset self h split epoch
       = (if Nat.eqb (List.length sd) 0 then
            Raise (FileNotFoundError
                     ("Dataset not found: " ++ split ++ " ("
                        ++ data_path_of self epoch ++ ")"))
          else
            r <- (if startswith split "train" then
                    Bt.load_backtranslation self (data_path_of self epoch) split sd td
                      (deref h (task_lang_pairs (Bt.base self))) []
                      (Bt.backtranslate_datasets self)
                  else Ok ([], Bt.backtranslate_datasets self)) ;;
            let '(backtranslate_datasets, self_backtranslate_datasets) := r in
            let self0 := Bt.set_backtranslate_datasets self_backtranslate_datasets self in
            parallel <- mapM (fun lang_pair =>
                                d <- Bt.language_pair_dataset self0 sd td lang_pair ;;
                                Ok (lang_pair, d))
                             (dict_keys sd) ;;
            let bt := map (fun kv => (Bt._get_bt_dataset_key (fst kv), snd kv))
                          backtranslate_datasets in
            let composite :=
              RoundRobinZipDatasets (dict_of_list (parallel ++ bt)%list)
                (if training (Bt.base self) then None
                 else Some (fmt_opt (source_lang (args (Bt.base self))) ++ "-"
                              ++ fmt_opt (target_lang (args (Bt.base self))))%string) in
            let self1 :=
              Bt.set_base
                (set_task_datasets
                   (dict_set (task_datasets (Bt.base self)) split composite)
                   (Bt.base self)) self0 in
            if (String.eqb split "valid" && bt_dds (opts (args (Bt.base self))))%bool then
              valid <- dict_get (task_datasets (Bt.base self1)) "valid" ;;
              itr <- get_batch_iterator valid ;;
              Ok (Bt.set_dev_itr (Some (next_epoch_itr itr)) self1)
            else Ok self1).
Proof.
  intros Hall. unfold Bt.load_dataset.
  assert (Hlt : Nat.ltb 0 (List.length (Py.split ":" (data (opts (args (Bt.base self))))))
                = true).
  { pose proof (split_not_nil ":" (data (opts (args (Bt.base self))))) as Hn.
    destruct (Py.split ":" (data (opts (args (Bt.base self))))); [congruence | reflexivity]. }
  rewrite Hlt. cbn [assert_ bind]. rewrite data_path_get. cbn [bind].
  destruct (load_parallel_total self (data_path_of self epoch) split
              (deref h (task_lang_pairs (Bt.base self))) Hall [] []) as [sd [td Hpar]].
  exists sd, td. split; [exact Hpar |]. rewrite Hpar. reflexivity.
Qed.

(** A pair with parallel files leaves the parallel loop with a
    dataset. *)
Lemma load_parallel_not_empty (self : Bt.BtTask) (data_path split : string)
    (pairs : list string) (sd td : dict (dataset F SubModel)) (q : string) :
  Bt.load_parallel self data_path split pairs [] [] = Ok (sd, td) ->
  In q pairs ->
  has_parallel self data_path split q = true ->
  Nat.eqb (List.length sd) 0 = false.
Proof.
  intros Hpar Hq Hhas.
  pose proof (proj1 (load_parallel_keys _ _ _ _ _ _ _ _ Hpar) q) as Hk.
  assert (Hin : In q (dict_keys sd)) by (apply Hk; right; auto).
  destruct sd; [destruct Hin | reflexivity].
Qed.

(** On a training split [load_dataset] returns when every configured
    pair has its parallel files, its monolingual file, the dictionaries
    of its two languages, its closure and its tokens. *)
Lemma bt_load_dataset_returns (self : Bt.BtTask) (h : heap) (split : string) (epoch : Z) :
  startswith split "train" = true ->
  deref h (task_lang_pairs (Bt.base self)) <> [] ->
  (forall p, In p (deref h (task_lang_pairs (Bt.base self))) ->
             trainable self (data_path_of self epoch) split p) ->
  exists self', Bt.load_dataset self h split epoch = Ok self'.
Proof.
  intros Htrain Hne Hall.
  set (data_path := data_path_of self epoch) in *.
  set (pairs := deref h (task_lang_pairs (Bt.base self))) in *.
  destruct (bt_load_dataset_start self h split epoch) as [sd [td [Hpar ->]]].
  { intros p Hp. destruct (Hall p Hp) as [src [tgt [Hst [_ [_ [Hs [Ht _]]]]]]].
    exists src, tgt. auto. }
  fold data_path pairs in Hpar |- *.
  assert (Hfind : forall p, In p pairs ->
             dict_find sd p <> None /\ dict_find td p <> None).
  { intros p Hp. destruct (Hall p Hp) as [src [tgt [Hst [Hhas _]]]].
    pose proof (load_parallel_stored self data_path split pairs sd td Hpar p src tgt Hp Hst)
      as Hf.
    rewrite Hhas in Hf. exact Hf. }
  assert (Hlen : Nat.eqb (List.length sd) 0 = false).
  { destruct pairs as [| p0 rest] eqn:Hpairs; [congruence |].
    destruct (Hall p0 (or_introl eq_refl)) as [src [tgt [_ [Hhas _]]]].
    exact (load_parallel_not_empty self data_path split (p0 :: rest) sd td p0 Hpar
             (or_introl eq_refl) Hhas). }
  rewrite Hlen, Htrain.
  destruct (load_backtranslation_total self data_path split sd td pairs) with
    (bd := @nil (string * dataset F SubModel)) (sbd := Bt.backtranslate_datasets self)
    as [bd [sbd Hbt]].
  { intros p Hp. destruct (Hall p Hp) as [src [tgt [Hst [_ [Hmono [Hs [Ht [Hfn Hk]]]]]]]].
    destruct (Hfind p Hp) as [Hsd Htd].
    exact (backtranslation_dataset_total self data_path split sd td p src tgt
             Hst Hmono Hsd Htd Hs Ht Hfn Hk). }
  rewrite Hbt. cbn [bind].
  destruct (mapM_exists
              (fun lang_pair =>
                 d <- Bt.language_pair_dataset (Bt.set_backtranslate_datasets sbd self)
                        sd td lang_pair ;;
                 Ok (lang_pair, d)) (dict_keys sd)) as [parallel Hparallel].
  { intros p Hp.
    apply (proj1 (load_parallel_keys _ _ _ _ _ _ _ _ Hpar)) in Hp.
    destruct Hp as [[] | [Hp _]].
    destruct (Hall p Hp) as [src [tgt [Hst [_ [_ [Hs [Ht [_ Hk]]]]]]]].
    destruct (Hfind p Hp) as [Hsd Htd].
    destruct (language_pair_dataset_total self sd td p src tgt Hst Hsd Htd Hs Ht Hk)
      as [d Hd].
    change (Bt.language_pair_dataset (Bt.set_backtranslate_datasets sbd self) sd td p)
      with (Bt.language_pair_dataset self sd td p).
    rewrite Hd. cbn [bind]. eauto. }
  rewrite Hparallel. cbn [bind].
  rewrite (startswith_train_not_valid split Htrain). cbn [andb]. eauto.
Qed.

(** On another split [load_dataset] returns when the pairs are well
    formed, one of them has parallel files, and the pairs that have some
    have their dictionaries and tokens. *)
Lemma bt_load_dataset_returns_other (self : Bt.BtTask) (h : heap) (split : string)
    (epoch : Z) (q : string) :
  startswith split "train" = false ->
  split <> "valid" \/ bt_dds (opts (args (Bt.base self))) = false ->
  (forall p, In p (deref h (task_lang_pairs (Bt.base self))) ->
             readable self (data_path_of self epoch) split p
             /\ (has_parallel self (data_path_of self epoch) split p = true ->
                 tokens_known self p)) ->
  In q (deref h (task_lang_pairs (Bt.base self))) ->
  has_parallel self (data_path_of self epoch) split q = true ->
  exists self', Bt.load_dataset self h split epoch = Ok self'.
Proof.
  intros Htrain Hvalid Hall Hq Hhas.
  set (data_path := data_path_of self epoch) in *.
  set (pairs := deref h (task_lang_pairs (Bt.base self))) in *.
  destruct (bt_load_dataset_start self h split epoch) as [sd [td [Hpar ->]]].
  { intros p Hp. apply Hall. exact Hp. }
  fold data_path pairs in Hpar |- *.
  rewrite (load_parallel_not_empty self data_path split pairs sd td q Hpar Hq Hhas).
  rewrite Htrain. cbn [bind].
  destruct (mapM_exists
              (fun lang_pair =>
                 d <- Bt.language_pair_dataset
                        (Bt.set_backtranslate_datasets (Bt.backtranslate_datasets self) self)
                        sd td lang_pair ;;
                 Ok (lang_pair, d)) (dict_keys sd)) as [parallel Hparallel].
  { intros p Hp.
    apply (proj1 (load_parallel_keys _ _ _ _ _ _ _ _ Hpar)) in Hp.
    destruct Hp as [[] | [Hp Hhp]].
    destruct (Hall p Hp) as [[src [tgt [Hst Hd]]] Hk].
    destruct (Hd Hhp) as [Hs Ht].
    pose proof (load_parallel_stored self data_path split pairs sd td Hpar p src tgt Hp Hst)
      as Hf.
    rewrite Hhp in Hf. destruct Hf as [Hsd Htd].
    destruct (language_pair_dataset_total self sd td p src tgt Hst Hsd Htd Hs Ht (Hk Hhp))
      as [d Hd'].
    change (Bt.language_pair_dataset
              (Bt.set_backtranslate_datasets (Bt.backtranslate_datasets self) self) sd td p)
      with (Bt.language_pair_dataset self sd td p).
    rewrite Hd'. cbn [bind]. eauto. }
  rewrite Hparallel. cbn [bind].
  replace (String.eqb split "valid" && bt_dds (opts (args (Bt.base self))))%bool with false.
  - eauto.
  - destruct Hvalid as [Hv | ->]; [| rewrite andb_false_r; reflexivity].
    destruct (String.eqb_spec split "valid"); [contradiction | reflexivity].
Qed.

(** On a training split, a first configured pair without parallel files
    is not skipped: when it has its monolingual file, its dictionaries,
    its closure and its tokens, and another pair has parallel files, the
    look-up of its parallel dataset fails. *)
Lemma bt_load_dataset_first_skipped (self : Bt.BtTask) (h : heap) (split : string)
    (epoch : Z) (p0 q : string) (rest : list string) :
  startswith split "train" = true ->
  deref h (task_lang_pairs (Bt.base self)) = p0 :: rest ->
  (forall p, In p (p0 :: rest) -> readable self (data_path_of self epoch) split p) ->
  has_parallel self (data_path_of self epoch) split p0 = false ->
  In q rest ->
  has_parallel self (data_path_of self epoch) split q = true ->
  has_monolingual self (data_path_of self epoch) split p0 = true ->
  (forall src tgt, Py.split "-" p0 = [src; tgt] ->
     dict_find (dicts (Bt.base self)) src <> None
     /\ dict_find (dicts (Bt.base self)) tgt <> None) ->
  dict_find (Bt.backtranslators self) p0 <> None ->
  tokens_known self p0 ->
  Bt.load_dataset self h split epoch = Raise (KeyError p0).
Proof.
  intros Htrain Hpairs Hall Hnone Hq Hhas Hmono Hdicts Hfn Hk.
  set (data_path := data_path_of self epoch) in *.
  destruct (bt_load_dataset_start self h split epoch) as [sd [td [Hpar ->]]].
  { rewrite Hpairs. exact Hall. }
  fold data_path in Hpar |- *. rewrite Hpairs in Hpar |- *.
  rewrite (load_parallel_not_empty self data_path split (p0 :: rest) sd td q Hpar
             (or_intror Hq) Hhas).
  rewrite Htrain. cbn [Bt.load_backtranslation].
  destruct (Hall p0 (or_introl eq_refl)) as [src [tgt [Hst _]]].
  destruct (Hdicts src tgt Hst) as [Hs Ht].
  pose proof (load_parallel_stored self data_path split (p0 :: rest) sd td Hpar p0 src tgt
                (or_introl eq_refl) Hst) as Hf.
  rewrite Hnone in Hf.
  rewrite (backtranslation_dataset_skipped self data_path split sd td p0 src tgt
             Hst Hmono Hf Hs Ht Hfn Hk).
  reflexivity.
Qed.

(** On a training split, a first configured pair whose monolingual file
    is missing stops the call, when some pair has parallel files. *)
Lemma bt_load_dataset_first_no_file (self : Bt.BtTask) (h : heap) (split : string)
    (epoch : Z) (p0 q : string) (rest : list string) :
  startswith split "train" = true ->
  deref h (task_lang_pairs (Bt.base self)) = p0 :: rest ->
  (forall p, In p (p0 :: rest) -> readable self (data_path_of self epoch) split p) ->
  In q (p0 :: rest) ->
  has_parallel self (data_path_of self epoch) split q = true ->
  has_monolingual self (data_path_of self epoch) split p0 = false ->
  Bt.load_dataset self h split epoch
  = Raise (FileNotFoundError
             ("Dataset not found: backtranslation " ++ split ++ " ("
                ++ data_path_of self epoch ++ ")")).
Proof.
  intros Htrain Hpairs Hall Hq Hhas Hmono.
  set (data_path := data_path_of self epoch) in *.
  destruct (bt_load_dataset_start self h split epoch) as [sd [td [Hpar ->]]].
  { rewrite Hpairs. exact Hall. }
  fold data_path in Hpar |- *. rewrite Hpairs in Hpar |- *.
  rewrite (load_parallel_not_empty self data_path split (p0 :: rest) sd td q Hpar Hq Hhas).
  rewrite Htrain. cbn [Bt.load_backtranslation].
  destruct (Hall p0 (or_introl eq_refl)) as [src [tgt [Hst _]]].
  rewrite (backtranslation_dataset_no_file self data_path split sd td p0 src tgt Hst Hmono).
  reflexivity.
Qed.

(** On a training split a pair without parallel files or without its
    monolingual file makes the call raise. *)
Lemma bt_load_dataset_train_raises (self : Bt.BtTask) (h : heap) (split : string)
    (epoch : Z) (p : string) :
  startswith split "train" = true ->
  In p (deref h (task_lang_pairs (Bt.base self))) ->
  has_parallel self (data_path_of self epoch) split p = false
  \/ has_monolingual self (data_path_of self epoch) split p = false ->
  raises (Bt.load_dataset self h split epoch).
Proof.
  intros Htrain Hp Hmiss.
  destruct (Bt.load_dataset self h split epoch) as [self' | e] eqn:H.
  - destruct (bt_load_dataset_train self self' h split epoch Htrain H p Hp) as [H1 H2].
    destruct Hmiss as [Hm | Hm]; congruence.
  - exists e. reflexivity.
Qed.

End LoadTotal.

(** ** The back-translation entries and their closures *)

(** C4. On a training split [BtTranslationTask.load_dataset] stores a
    composite whose keys are the configured pairs and ["bt:" + lang_pair]
    for every configured pair, and the entry at ["bt:" + lang_pair] wraps
    the monolingual dataset of the pair's target language with the closure
    [self.backtranslators[lang_pair]].  In training mode, [build_model]
    leaves for every configured pair [src-tgt] a closure bound to the
    sub-model keyed [tgt-src], to a sequence generator made from
    [bt_beam_size], [bt_max_len_a] and [bt_max_len_b], and to the decoder
    language token of [src] as bos token.  [load_dataset] returns when
    every configured pair has its parallel files, its monolingual file, its
    dictionaries, its closure and its language tokens; [build_model]
    returns when the pairs are well formed, the builder returns a
    multi-model and every closure can be made.  The closure in the entry
    of a composite loaded after [build_model] is the one [build_model]
    made. *)
Theorem bt_backtranslation_entries :
  forall (U : Interpreter) (F : Type) (PF : PyFloat F) (E : Env F),
    (forall (self self' : Bt.BtTask) (h : heap) (split : string) (epoch : Z),
        startswith split "train" = true ->
        Bt.load_dataset self h split epoch = Ok self' ->
        exists entries eval_key,
          dict_find (task_datasets (Bt.base self')) split
          = Some (RoundRobinZipDatasets entries eval_key)
          /\ (forall k, In k (dict_keys entries) <->
                        In k (deref h (task_lang_pairs (Bt.base self)))
                        \/ exists p, In p (deref h (task_lang_pairs (Bt.base self)))
                                     /\ k = ("bt:" ++ p)%string)
          /\ forall lang_pair, In lang_pair (deref h (task_lang_pairs (Bt.base self))) ->
               backtranslation_entry self (data_path_of self epoch) split lang_pair entries)
    /\ (forall (self self' : Bt.BtTask) (h h' : heap) (a : Args F) (model : Model SubModel),
          (task_lang_pairs (Bt.base self) < List.length h)%nat ->
          training (Bt.base self) = true ->
          Bt.build_model self h a = (Ok model, self', h') ->
          exists models,
            model = FairseqMultiModel models
            /\ forall lang_pair, In lang_pair (deref h (task_lang_pairs (Bt.base self))) ->
                 exists fn,
                   dict_find (Bt.backtranslators self') lang_pair = Some fn
                   /\ closure_of (Bt.base self') a models lang_pair fn)
    /\ (forall (self : Bt.BtTask) (h : heap) (split : string) (epoch : Z),
          startswith split "train" = true ->
          deref h (task_lang_pairs (Bt.base self)) <> [] ->
          (forall p, In p (deref h (task_lang_pairs (Bt.base self))) ->
                     trainable self (data_path_of self epoch) split p) ->
          exists self', Bt.load_dataset self h split epoch = Ok self')
    /\ (forall (self : Bt.BtTask) (h h1 : heap) (a : Args F) (models : dict SubModel),
          (task_lang_pairs (Bt.base self) < List.length h)%nat ->
          Bt.append_reverse (snd (alloc h (deref h (task_lang_pairs (Bt.base self)))))
            (task_lang_pairs (Bt.base self)) (deref h (task_lang_pairs (Bt.base self)))
          = (Ok tt, h1) ->
          models_build_model h1 a (Bt.base self) = Ok (FairseqMultiModel models) ->
          bt_dds (opts (args (Bt.base self))) = false ->
          training (Bt.base self) = true ->
          (forall p, In p (deref h (task_lang_pairs (Bt.base self))) ->
                     closable self models p) ->
          exists self',
            Bt.build_model self h a = (Ok (FairseqMultiModel models), self', h1)
            /\ forall lang_pair, In lang_pair (deref h (task_lang_pairs (Bt.base self))) ->
                 exists fn,
                   dict_find (Bt.backtranslators self') lang_pair = Some fn
                   /\ closure_of (Bt.base self') a models lang_pair fn)
    /\ (forall (self self' self'' : Bt.BtTask) (h h' : heap) (a : Args F)
               (model : Model SubModel) (split : string) (epoch : Z),
          (task_lang_pairs (Bt.base self) < List.length h)%nat ->
          training (Bt.base self) = true ->
          Bt.build_model self h a = (Ok model, self', h') ->
          startswith split "train" = true ->
          Bt.load_dataset self' h' split epoch = Ok self'' ->
          exists models entries eval_key,
            model = FairseqMultiModel models
            /\ dict_find (task_datasets (Bt.base self'')) split
               = Some (RoundRobinZipDatasets entries eval_key)
            /\ forall lang_pair, In lang_pair (deref h (task_lang_pairs (Bt.base self))) ->
                 exists tgt_dataset fn src_dict tgt_dict collater,
                   dict_find entries ("bt:" ++ lang_pair)
                   = Some (BacktranslationDataset tgt_dataset fn src_dict tgt_dict collater)
                   /\ closure_of (Bt.base self') a models lang_pair fn).
Proof.
  intros U F PF E.
  assert (Hclosures : forall (self self' : Bt.BtTask) (h h' : heap) (a : Args F)
                             (model : Model SubModel),
             (task_lang_pairs (Bt.base self) < List.length h)%nat ->
             training (Bt.base self) = true ->
             Bt.build_model self h a = (Ok model, self', h') ->
             exists models,
               model = FairseqMultiModel models
               /\ forall lang_pair,
                    In lang_pair (deref h (task_lang_pairs (Bt.base self))) ->
                    exists fn,
                      dict_find (Bt.backtranslators self') lang_pair = Some fn
                      /\ closure_of (Bt.base self') a models lang_pair fn).
  { intros self self' h h' a model Hlp Htr H.
    destruct (bt_build_model_training _ _ _ _ _ _ H Htr) as [models [-> Hmk]].
    exists models. split; [reflexivity |].
    intros lang_pair Hin.
    rewrite <- (bt_build_model_lang_pairs _ _ _ _ _ _ Hlp H) in Hin.
    exact (make_backtranslators_ok _ _ _ _ _ _ _ _ Hmk lang_pair Hin). }
  split; [| split; [| split; [| split]]].
  - intros self self' h split epoch Htrain H.
    exact (bt_load_dataset_entries self self' h split epoch Htrain H).
  - exact Hclosures.
  - intros self h split epoch Htrain Hne Hall.
    exact (bt_load_dataset_returns self h split epoch Htrain Hne Hall).
  - intros self h h1 a models Hlp Happ Hm Hdds Htr Hcl.
    destruct (bt_build_model_returns self h h1 a models Hlp Happ Hm Hdds (fun _ => Hcl))
      as [self' [Hb _]].
    exists self'. split; [exact Hb |].
    destruct (Hclosures self self' h h1 a _ Hlp Htr Hb) as [models' [Heq Hfn]].
    injection Heq as <-. exact Hfn.
  - intros self self' self'' h h' a model split epoch Hlp Htr Hb Htrain Hl.
    destruct (Hclosures self self' h h' a model Hlp Htr Hb) as [models [-> Hfn]].
    destruct (bt_load_dataset_entries self' self'' h' split epoch Htrain Hl)
      as [entries [eval_key [Hfind [_ Hentry]]]].
    exists models, entries, eval_key. split; [reflexivity |]. split; [exact Hfind |].
    intros lang_pair Hin.
    destruct (Hfn lang_pair Hin) as [fn [Hfn1 Hcl]].
    rewrite <- (bt_build_model_lang_pairs _ _ _ _ _ _ Hlp Hb) in Hin.
    destruct (Hentry lang_pair Hin)
      as [src [tgt [src_dict [tgt_dict [tgt_dataset [fn' [collater
           [_ [_ [_ [_ [Hfn2 He]]]]]]]]]]]].
    rewrite Hfn1 in Hfn2. injection Hfn2 as <-.
    exists tgt_dataset, fn, src_dict, tgt_dict, collater. split; [exact He | exact Hcl].
Qed.

Lemma bt_backtranslation_entries_witness :
  (exists self',
     Bt.build_model (fst Run.en_de) (snd Run.en_de) (args (Bt.base (fst Run.en_de)))
     = (Ok (FairseqMultiModel [("en-de", "model en-de"); ("de-en", "model de-en")]),
        self', [["en-de"; "de-en"]; ["en-de"]])
     /\ exists fn,
          dict_find (Bt.backtranslators self') "en-de" = Some fn
          /\ closure_of (Bt.base self') (args (Bt.base (fst Run.en_de)))
               [("en-de", "model en-de"); ("de-en", "model de-en")] "en-de" fn)
  /\ (exists self'',
        Bt.load_dataset (snd (fst Run.en_de_built)) (snd Run.en_de_built) "train" 0
        = Ok self'').
Proof.
  pose proof (bt_backtranslation_entries Demo.interpreter float binary64 Run.world)
    as [_ [_ [Hload [Hbuild _]]]].
  split.
  - destruct (Hbuild (fst Run.en_de) (snd Run.en_de) [["en-de"; "de-en"]; ["en-de"]]
                (args (Bt.base (fst Run.en_de)))
                [("en-de", "model en-de"); ("de-en", "model de-en")])
      as [self' [Hb Hfn]].
    + vm_compute. lia.
    + vm_compute. reflexivity.
    + vm_compute. reflexivity.
    + vm_compute. reflexivity.
    + vm_compute. reflexivity.
    + intros p Hp. vm_compute in Hp. destruct Hp as [<- | []].
      exists "en", "de", (Demo.dictionary 2), 2, "model de-en".
      repeat split; vm_compute; reflexivity.
    + exists self'. split; [exact Hb |]. apply Hfn. vm_compute. left. reflexivity.
  - apply Hload.
    + reflexivity.
    + vm_compute. discriminate.
    + intros p Hp. vm_compute in Hp. destruct Hp as [<- | []].
      exists "en", "de".
      split; [reflexivity |]. split; [vm_compute; reflexivity |].
      split; [vm_compute; reflexivity |].
      split; [vm_compute; discriminate |]. split; [vm_compute; discriminate |].
      split; [vm_compute; discriminate |].
      intros src tgt _. split.
      * intros He. exfalso. apply He. vm_compute. reflexivity.
      * intros Hd. vm_compute in Hd. discriminate Hd.
Defined.

(** ** The missing-file policy of the back-translation [load_dataset] *)

(** C5 (code defect). [BtTranslationTask.load_dataset] looks for a pair's
    parallel files under the [(src, tgt)] naming and then under the
    [(tgt, src)] naming, and it raises [FileNotFoundError] when no
    configured pair has any.  On a split that is not a training split a
    pair with neither is skipped: the composite has exactly the pairs that
    have parallel files.  On a training split a missing monolingual file
    raises [FileNotFoundError], and a pair with neither parallel naming is
    not skipped either: building its back-translation dataset looks up the
    parallel dataset the first loop skipped and raises [KeyError], so the
    call returns only when every configured pair has its parallel files
    and its monolingual file. *)
Theorem bt_load_dataset_missing_file_policy :
  (forall (U : Interpreter) (F : Type) (PF : PyFloat F) (E : Env F) (self : Bt.BtTask)
          (h : heap) (split : string) (epoch : Z),
      (forall (sd td : dict (dataset F SubModel)) (p src tgt : string),
          Bt.load_parallel self (data_path_of self epoch) split
            (deref h (task_lang_pairs (Bt.base self))) [] [] = Ok (sd, td) ->
          In p (deref h (task_lang_pairs (Bt.base self))) ->
          Py.split "-" p = [src; tgt] ->
          match parallel_prefix self (data_path_of self epoch) split src tgt with
          | Some prefix =>
              exists src_dict tgt_dict,
                dict_find (dicts (Bt.base self)) src = Some src_dict
                /\ dict_find (dicts (Bt.base self)) tgt = Some tgt_dict
                /\ dict_find sd p = Some (IndexedData (prefix ++ src) src_dict)
                /\ dict_find td p = Some (IndexedData (prefix ++ tgt) tgt_dict)
          | None => dict_find sd p = None /\ dict_find td p = None
          end)
      /\ ((forall p, In p (deref h (task_lang_pairs (Bt.base self))) -> well_formed p) ->
          (forall p, In p (deref h (task_lang_pairs (Bt.base self))) ->
                     has_parallel self (data_path_of self epoch) split p = false) ->
          Bt.load_dataset self h split epoch
          = Raise (FileNotFoundError
                     ("Dataset not found: " ++ split ++ " ("
                        ++ data_path_of self epoch ++ ")")))
      /\ (forall self' : Bt.BtTask,
            startswith split "train" = false ->
            Bt.load_dataset self h split epoch = Ok self' ->
            exists entries eval_key,
              dict_find (task_datasets (Bt.base self')) split
              = Some (RoundRobinZipDatasets entries eval_key)
              /\ forall k, In k (dict_keys entries) <->
                           In k (deref h (task_lang_pairs (Bt.base self)))
                           /\ has_parallel self (data_path_of self epoch) split k = true)
      /\ (forall q : string,
            startswith split "train" = false ->
            split <> "valid" \/ bt_dds (opts (args (Bt.base self))) = false ->
            (forall p, In p (deref h (task_lang_pairs (Bt.base self))) ->
                       readable self (data_path_of self epoch) split p
                       /\ (has_parallel self (data_path_of self epoch) split p = true ->
                           tokens_known self p)) ->
            In q (deref h (task_lang_pairs (Bt.base self))) ->
            has_parallel self (data_path_of self epoch) split q = true ->
            exists self', Bt.load_dataset self h split epoch = Ok self')
      /\ (forall self' : Bt.BtTask,
            startswith split "train" = true ->
            Bt.load_dataset self h split epoch = Ok self' ->
            forall p, In p (deref h (task_lang_pairs (Bt.base self))) ->
              has_parallel self (data_path_of self epoch) split p = true
              /\ has_monolingual self (data_path_of self epoch) split p = true)
      /\ (forall p : string,
            startswith split "train" = true ->
            In p (deref h (task_lang_pairs (Bt.base self))) ->
            has_parallel self (data_path_of self epoch) split p = false
            \/ has_monolingual self (data_path_of self epoch) split p = false ->
            raises (Bt.load_dataset self h split epoch))
      /\ (forall (p0 q : string) (rest : list string),
            startswith split "train" = true ->
            deref h (task_lang_pairs (Bt.base self)) = p0 :: rest ->
            (forall p, In p (p0 :: rest) ->
                       readable self (data_path_of self epoch) split p) ->
            has_parallel self (data_path_of self epoch) split p0 = false ->
            In q rest ->
            has_parallel self (data_path_of self epoch) split q = true ->
            has_monolingual self (data_path_of self epoch) split p0 = true ->
            (forall src tgt, Py.split "-" p0 = [src; tgt] ->
               dict_find (dicts (Bt.base self)) src <> None
               /\ dict_find (dicts (Bt.base self)) tgt <> None) ->
            dict_find (Bt.backtranslators self) p0 <> None ->
            tokens_known self p0 ->
            Bt.load_dataset self h split epoch = Raise (KeyError p0))
      /\ (forall (p0 q : string) (rest : list string),
            startswith split "train" = true ->
            deref h (task_lang_pairs (Bt.base self)) = p0 :: rest ->
            (forall p, In p (p0 :: rest) ->
                       readable self (data_path_of self epoch) split p) ->
            In q (p0 :: rest) ->
            has_parallel self (data_path_of self epoch) split q = true ->
            has_monolingual self (data_path_of self epoch) split p0 = false ->
            Bt.load_dataset self h split epoch
            = Raise (FileNotFoundError
                       ("Dataset not found: backtranslation " ++ split ++ " ("
                          ++ data_path_of self epoch ++ ")"))))
  /\ Run.bt_loaded Run.partial_world (Demo.command_line "en-de,en-fr" None "0.0") "train"
     = Raise (KeyError "en-fr")
  /\ Run.bt_loaded Run.partial_world (Demo.command_line "en-fr,en-de" None "0.0") "train"
     = Raise (KeyError "en-fr")
  /\ Run.bt_loaded Run.partial_world (Demo.command_line "en-de,en-fr" None "0.0") "valid"
     = Ok ["en-de"]
  /\ Run.bt_loaded Run.partial_world (Demo.command_line "de-en" None "0.0") "valid"
     = Ok ["de-en"]
  /\ Run.bt_loaded Run.partial_world (Demo.command_line "en-fr" None "0.0") "valid"
     = Raise (FileNotFoundError "Dataset not found: valid (data)")
  /\ Run.bt_loaded Run.world (Demo.command_line "en-de,en-fr" None "0.0") "train"
     = Ok ["en-de"; "en-fr"; "bt:en-de"; "bt:en-fr"]
  /\ Run.bt_loaded Run.no_mono_world (Demo.command_line "en-de,en-fr" None "0.0") "train"
     = Raise (FileNotFoundError "Dataset not found: backtranslation train (data)").
Proof.
  split.
  - intros U F PF E self h split epoch.
    split; [| split; [| split; [| split; [| split; [| split; [| split]]]]]].
    + intros sd td p src tgt Hpar Hp Hst.
      pose proof (load_parallel_find _ _ _ _ _ _ _ _ Hpar p src tgt Hp Hst) as Hf.
      destruct (parallel_prefix self (data_path_of self epoch) split src tgt);
        exact Hf.
    + intros Hwf Hnone. exact (bt_load_dataset_none self h split epoch Hwf Hnone).
    + intros self' Htrain H. exact (bt_load_dataset_other self self' h split epoch Htrain H).
    + intros q Htrain Hvalid Hall Hq Hhas.
      exact (bt_load_dataset_returns_other self h split epoch q Htrain Hvalid Hall Hq Hhas).
    + intros self' Htrain H. exact (bt_load_dataset_train self self' h split epoch Htrain H).
    + intros p Htrain Hp Hmiss.
      exact (bt_load_dataset_train_raises self h split epoch p Htrain Hp Hmiss).
    + intros p0 q rest Htrain Hpairs Hall Hnone Hq Hhas Hmono Hdicts Hfn Hk.
      exact (bt_load_dataset_first_skipped self h split epoch p0 q rest
               Htrain Hpairs Hall Hnone Hq Hhas Hmono Hdicts Hfn Hk).
    + intros p0 q rest Htrain Hpairs Hall Hq Hhas Hmono.
      exact (bt_load_dataset_first_no_file self h split epoch p0 q rest
               Htrain Hpairs Hall Hq Hhas Hmono).
  - repeat split; vm_compute; reflexivity.
Qed.

(** ** [self.lang_pairs] across [build_model] *)




(** ** Validation of the model arguments *)



